(** * mgear: the pymaya command shim, node handles and the animation clip panel

    A shallow embedding of

    - [release/scripts/mgear/pymaya/cmd.py]
    - [release/scripts/mgear/pymaya/node.py]
    - [release/scripts/mgear/shifter/game_tools_fbx/anim_clip_widgets.py]

    The host application (the [maya.cmds] command set, the [OpenMaya] API,
    the Qt widgets) is outside the repository.  It enters the development
    as data: a host answers a command call with a value or an exception,
    and the answer may depend on the calls made before.  Every function of
    the three files is written against such a host, in a state-and-error
    monad whose state is the log of host calls. *)

From stdpp Require Import base option list strings gmap fin_maps.
From Stdlib Require Import ZArith Ascii String DecimalString.
From Stdlib Require DecimalPos.

Local Open Scope string_scope.
Local Open Scope Z_scope.
Local Open Scope list_scope.
Local Set Warnings "-register-all".

(** ** Python values *)

Module Py.

(** Instances of [base.Base] (nodes, attributes, geometry).  The classes
    live in [base.py] and [bind.py]; this layer only uses [name()],
    [toStringList()] and the [Geom] / [Base] class test. *)
Inductive base_kind := KNode | KAttr | KGeom.

Record handle := Handle {
  h_kind : base_kind;
  h_name : string;
  h_strings : list string
}.

(** The three classes of [datatypes.py] that the shim converts. *)
Inductive dt_class := Vector | Point | Matrix.

(** Values.  [VFloat bits] is a float by its bit pattern.  [VSet l] is a
    set by the list of its elements, each once, in the order in which a
    loop over the set sees them.  [VDict d] is a dict by its items, in
    insertion order.  [VData c comps] is an instance of a [datatypes] class
    with the components that indexing yields ([v[0]], [v[1]], ...;
    row-major for a matrix). *)
Inductive pyval :=
| VNone
| VBool (b : bool)
| VInt (n : Z)
| VFloat (bits : Z)
| VStr (s : string)
| VList (l : list pyval)
| VTuple (l : list pyval)
| VSet (l : list pyval)
| VDict (d : list (pyval * pyval))
| VObj (h : handle)
| VData (c : dt_class) (comps : list pyval).

Inductive exc_class :=
| RuntimeError | TypeError | ValueError | IndexError | KeyError
| AttributeError | MayaAttributeError | MayaNodeError.

(** An exception instance: its class and its [args] tuple.  All classes
    above derive from [Exception]. *)
Record exc := Exc { exc_cls : exc_class; exc_args : list pyval }.

Inductive result (A : Type) :=
| Ok (a : A)
| Raise (e : exc).
Arguments Ok {A} a.
Arguments Raise {A} e.

#[global] Instance result_ret : MRet result := fun A a => Ok a.
#[global] Instance result_bind : MBind result := fun A B f m =>
  match m with
  | Ok a => f a
  | Raise e => Raise e
  end.
#[global] Instance result_fmap : FMap result := fun A B f m =>
  match m with
  | Ok a => Ok (f a)
  | Raise e => Raise e
  end.

#[global] Instance base_kind_eq_dec : EqDecision base_kind.
Proof. solve_decision. Defined.
#[global] Instance handle_eq_dec : EqDecision handle.
Proof. solve_decision. Defined.
#[global] Instance dt_class_eq_dec : EqDecision dt_class.
Proof. solve_decision. Defined.
#[global] Instance exc_class_eq_dec : EqDecision exc_class.
Proof. solve_decision. Defined.

(** [==] on values.  Numbers compare across [bool] and [int] as in Python;
    containers compare elementwise; handles compare as records. *)
Fixpoint py_eqb (a b : pyval) {struct a} : bool :=
  let fix all2 (l1 l2 : list pyval) {struct l1} : bool :=
    match l1, l2 with
    | [], [] => true
    | x :: r1, y :: r2 => py_eqb x y && all2 r1 r2
    | _, _ => false
    end in
  let fix all2d (l1 l2 : list (pyval * pyval)) {struct l1} : bool :=
    match l1, l2 with
    | [], [] => true
    | (k1, v1) :: r1, (k2, v2) :: r2 =>
        py_eqb k1 k2 && py_eqb v1 v2 && all2d r1 r2
    | _, _ => false
    end in
  match a, b with
  | VNone, VNone => true
  | VBool x, VBool y => bool_decide (x = y)
  | VBool x, VInt y => (if x then 1 else 0) =? y
  | VInt x, VBool y => x =? (if y then 1 else 0)
  | VInt x, VInt y => x =? y
  | VFloat x, VFloat y => x =? y
  | VStr x, VStr y => bool_decide (x = y)
  | VList x, VList y => all2 x y
  | VTuple x, VTuple y => all2 x y
  | VSet x, VSet y => all2 x y
  | VDict x, VDict y => all2d x y
  | VObj x, VObj y => bool_decide (x = y)
  | VData c x, VData d y => bool_decide (c = d) && all2 x y
  | _, _ => false
  end.

(** [x in l] for a list of values. *)
Definition py_mem (x : pyval) (l : list pyval) : bool :=
  existsb (py_eqb x) l.

(** Elements in first-occurrence order, each kept once. *)
Fixpoint py_dedup (acc l : list pyval) : list pyval :=
  match l with
  | [] => acc
  | x :: r => if py_mem x acc then py_dedup acc r else py_dedup (acc ++ [x]) r
  end.

(** Lists, sets and dicts are unhashable; a tuple is hashable when its
    elements are. *)
Fixpoint hashable (v : pyval) : bool :=
  match v with
  | VList _ | VSet _ | VDict _ => false
  | VTuple l => forallb hashable l
  | _ => true
  end.

Definition unhashable : exc := Exc TypeError [VStr "unhashable type"].

(** [set(l)] *)
Definition py_set (l : list pyval) : result pyval :=
  if forallb hashable l then Ok (VSet (py_dedup [] l)) else Raise unhashable.

(** Truth value of [if v:] / [not v] / [v or w].  The two zeros of the
    floats are false. *)
Definition truthy (v : pyval) : bool :=
  match v with
  | VNone => false
  | VBool b => b
  | VInt n => negb (n =? 0)
  | VFloat b => negb ((b =? 0) || (b =? 2 ^ 63))
  | VStr s => negb (bool_decide (s = ""))
  | VList l | VTuple l | VSet l => negb (bool_decide (l = []))
  | VDict d => negb (bool_decide (d = []))
  | VObj _ => true
  | VData _ _ => true
  end.

(** [v is None] *)
Definition is_none (v : pyval) : bool :=
  match v with VNone => true | _ => false end.

(** [isinstance(v, str)] *)
Definition is_str (v : pyval) : bool :=
  match v with VStr _ => true | _ => false end.

(** [isinstance(v, (list, set, tuple))] *)
Definition is_seq (v : pyval) : bool :=
  match v with VList _ | VSet _ | VTuple _ => true | _ => false end.

(** [s.startswith(p)] and [s.endswith(p)] *)
Fixpoint startswith (p s : string) : bool :=
  match p, s with
  | EmptyString, _ => true
  | String a p', String b s' => bool_decide (a = b) && startswith p' s'
  | String _ _, EmptyString => false
  end.

Definition endswith (p s : string) : bool :=
  startswith (String.rev p) (String.rev s).

End Py.

(** ** Indexing, length and membership *)

Module PyOps.
Import Py.

Definition index_error : exc := Exc IndexError [VStr "index out of range"].
Definition not_subscriptable : exc := Exc TypeError [VStr "object is not subscriptable"].
Definition no_len : exc := Exc TypeError [VStr "object has no len()"].
Definition not_iterable : exc := Exc TypeError [VStr "argument is not iterable"].
Definition no_endswith : exc := Exc AttributeError [VStr "object has no attribute 'endswith'"].

Definition item_of (l : list pyval) (i : nat) : result pyval :=
  match l !! i with
  | Some v => Ok v
  | None => Raise index_error
  end.

(** The characters of a string, each a one-character string. *)
Fixpoint chars (s : string) : list pyval :=
  match s with
  | EmptyString => []
  | String a r => VStr (String a EmptyString) :: chars r
  end.

(** [v[i]] for an index [i >= 0].  A dict is looked up by the key [i]. *)
Definition py_item (v : pyval) (i : nat) : result pyval :=
  match v with
  | VList l | VTuple l | VData _ l => item_of l i
  | VStr s => item_of (chars s) i
  | VDict d =>
      match List.find (fun kv => py_eqb (fst kv) (VInt (Z.of_nat i))) d with
      | Some kv => Ok (snd kv)
      | None => Raise (Exc KeyError [VInt (Z.of_nat i)])
      end
  | _ => Raise not_subscriptable
  end.

(** [len(v)] *)
Definition py_len (v : pyval) : result nat :=
  match v with
  | VList l | VTuple l | VSet l | VData _ l => Ok (List.length l)
  | VStr s => Ok (String.length s)
  | VDict d => Ok (List.length d)
  | _ => Raise no_len
  end.

(** [range(0, n, step)] for [step >= 1], by the number of indices left. *)
Fixpoint range_from (start step count : nat) : list nat :=
  match count with
  | O => []
  | S c => start :: range_from (start + step) step c
  end.

Definition range_step (n step : nat) : list nat :=
  range_from 0 step (Nat.div (n + step - 1) step).

(** Substring test, for [x in s] on strings. *)
Fixpoint is_infix (p s : string) : bool :=
  startswith p s ||
  match s with
  | EmptyString => false
  | String _ r => is_infix p r
  end.

(** [x in v] *)
Definition py_in (x v : pyval) : result bool :=
  match v with
  | VList l | VTuple l | VSet l | VData _ l => Ok (py_mem x l)
  | VDict d => Ok (py_mem x (fst <$> d))
  | VStr s =>
      match x with
      | VStr p => Ok (is_infix p s)
      | _ => Raise (Exc TypeError [VStr "'in <string>' requires string as left operand"])
      end
  | _ => Raise not_iterable
  end.

(** A list comprehension whose body may raise: left to right, stopping at
    the first exception. *)
Definition mapR {A B : Type} (f : A -> result B) : list A -> result (list B) :=
  fix go (l : list A) : result (list B) :=
    match l with
    | [] => Ok []
    | x :: r => y ← f x; ys ← go r; Ok (y :: ys)
    end.

End PyOps.

(** ** The host and the monad of host calls *)

Module Host.
Import Py.

(** What a call goes to: a command of [maya.cmds], [maya.mel.eval], or
    [MSelectionList.add] of the API. *)
Inductive callee := Cmds (name : string) | MelEval | SelectionAdd.

Record call := Call {
  c_fn : callee;
  c_args : list pyval;
  c_kwargs : gmap string pyval
}.

(** The host.  [respond log c] is what the call [c] does after the calls
    of [log]; [selection log] is what [cmds.ls(sl=True)] lists;
    [has_cmd n] says that [getattr(cmds, n, None)] is a command and
    [is_callable n] that [inspect.getmembers(cmds, callable)] lists it.
    [PyNode] is [bind.PyNode] ([None] when it raises), [dt_new c args] the
    constructor call [datatypes.c( *args )], [str_of] is [str()] on values
    other than strings and [repr_of] is [__repr__()]. *)
Record host := {
  respond : list call -> call -> result pyval;
  selection : list call -> list string;
  has_cmd : string -> bool;
  PyNode : list call -> string -> option handle;
  dt_new : dt_class -> list pyval -> result pyval;
  str_of : pyval -> string;
  repr_of : pyval -> string
}.

(** A computation reads and extends a log of calls, and returns or raises.
    The log survives an exception. *)
Definition Eff (L A : Type) : Type := list L -> result A * list L.

#[global] Instance Eff_ret {L : Type} : MRet (Eff L) := fun A a log => (Ok a, log).
#[global] Instance Eff_bind {L : Type} : MBind (Eff L) := fun A B f m log =>
  match m log with
  | (Ok a, log') => f a log'
  | (Raise e, log') => (Raise e, log')
  end.

Definition lift {L A : Type} (r : result A) : Eff L A := fun log => (r, log).
Definition raise {L A : Type} (e : exc) : Eff L A := fun log => (Raise e, log).
Definition get_log {L : Type} : Eff L (list L) := fun log => (Ok log, log).

(** [try: body / except Exception as e: handler e] *)
Definition try_except {L A : Type} (body : Eff L A) (handler : exc -> Eff L A)
    : Eff L A :=
  fun log =>
    match body log with
    | (Ok a, log') => (Ok a, log')
    | (Raise e, log') => handler e log'
    end.

(** Computations over the log of host calls. *)
Abbreviation M := (Eff call).

Definition host_call (h : host) (fn : callee) (args : list pyval)
    (kwargs : gmap string pyval) : M pyval :=
  fun log => let c := Call fn args kwargs in (respond h log c, log ++ [c]).

(** [cmds.ls(sl=True)] *)
Definition ls_selected (h : host) : M (list string) :=
  fun log =>
    (Ok (selection h log), log ++ [Call (Cmds "ls") [] {[ "sl" := VBool true ]}]).

End Host.

(** ** [pymaya/cmd.py] *)

Module Cmd.
Import Py PyOps Host.

Inductive scope := SCOPE_ATTR | SCOPE_NODE.

#[global] Instance scope_eq_dec : EqDecision scope.
Proof. solve_decision. Defined.

(** [__SCOPE_ATTR_FUNCS] and [__DO_NOT_CAST_FUNCS] *)
Definition SCOPE_ATTR_FUNCS : list string := ["listAttr"].
Definition DO_NOT_CAST_FUNCS : list string := [].

(** [_obj_to_name]: handles become names, inside lists, sets, tuples and
    dict values too. *)
Fixpoint _obj_to_name (arg : pyval) : result pyval :=
  let fix values (d : list (pyval * pyval)) : result (list (pyval * pyval)) :=
    match d with
    | [] => Ok []
    | (k, v) :: r => v' ← _obj_to_name v; r' ← values r; Ok ((k, v') :: r')
    end in
  match arg with
  | VList l => VList <$> mapR _obj_to_name l
  | VTuple l => VTuple <$> mapR _obj_to_name l
  | VSet l => l' ← mapR _obj_to_name l; py_set l'
  | VDict d => VDict <$> values d
  | VObj h =>
      match h_kind h with
      | KGeom => Ok (VList (VStr <$> h_strings h))
      | _ => Ok (VStr (h_name h))
      end
  | _ => Ok arg
  end.

(** [_obj_to_name(args)] on the tuple of positional arguments. *)
Definition _obj_to_name_args (args : list pyval) : result (list pyval) :=
  mapR _obj_to_name args.

(** [_obj_to_name(kwargs)] on the dict of keyword arguments. *)
Definition _obj_to_name_kwargs (kwargs : gmap string pyval)
    : result (gmap string pyval) :=
  list_to_map <$>
    mapR (fun kv => v' ← _obj_to_name (snd kv); Ok (fst kv, v'))
         (map_to_list kwargs).

(** [_dt_to_value]: vectors, points and matrices become lists of their
    components. *)
Fixpoint _dt_to_value (arg : pyval) : result pyval :=
  match arg with
  | VList l => VList <$> mapR _dt_to_value l
  | VTuple l => VTuple <$> mapR _dt_to_value l
  | VSet l => l' ← mapR _dt_to_value l; py_set l'
  | VData Vector c => VList <$> mapR (item_of c) (seq 0 3)
  | VData Point c => VList <$> mapR (item_of c) (seq 0 4)
  | VData Matrix c => VList <$> mapR (item_of c) (seq 0 16)
  | _ => Ok arg
  end.

Definition _dt_to_value_args (args : list pyval) : result (list pyval) :=
  mapR _dt_to_value args.

Section NameToObj.
Context (bind : string -> option handle) (str_of : pyval -> string).

(** ["{}.{}".format(known_node, arg)] *)
Definition attr_path (known_node : pyval) (arg : string) : string :=
  String.append
    (match known_node with VStr s => s | _ => str_of known_node end)
    (String.append "." arg).

(** The name that [_name_to_obj] hands to [bind.PyNode] for a string. *)
Definition bound_name (sc : scope) (known_node : option pyval)
    (arg : string) : string :=
  match sc, known_node with
  | SCOPE_ATTR, Some k => attr_path k arg
  | _, _ => arg
  end.

(** [_name_to_obj] *)
Fixpoint _name_to_obj (sc : scope) (known_node : option pyval)
    (arg : pyval) : result pyval :=
  match arg with
  | VNone => Ok VNone
  | VList l => VList <$> mapR (_name_to_obj sc known_node) l
  | VTuple l => VTuple <$> mapR (_name_to_obj sc known_node) l
  | VSet l => l' ← mapR (_name_to_obj sc known_node) l; py_set l'
  | VStr s =>
      match bind (bound_name sc known_node s) with
      | Some o => Ok (VObj o)
      | None => Ok arg
      end
  | _ => Ok arg
  end.
End NameToObj.

(** [_name_to_obj] against the host, at the current point of the log. *)
Definition name_to_obj (h : host) (sc : scope) (known_node : option pyval)
    (arg : pyval) : M pyval :=
  log ← get_log;
  lift (_name_to_obj (PyNode h log) (str_of h) sc known_node arg).

(** [isinstance(v, base.Base)] *)
Definition is_base (v : pyval) : bool :=
  match v with VObj _ => true | _ => false end.

(** The two adjustments of the result in the wrapper, before it is given
    back: constraint commands give their first result, list commands give
    a list. *)
Definition constraint_result (fname : string) (kwargs : gmap string pyval)
    (res : pyval) : result pyval :=
  if endswith "Constraint" fname && negb (bool_decide (is_Some (kwargs !! "query")))
  then (if truthy res then py_item res 0 else Ok VNone)
  else Ok res.

Definition list_result (fname : string) (res : pyval) : pyval :=
  if startswith "list" fname && is_none res then VList [] else res.

Section WithHost.
Context (h : host).

(** The [known_node] of the wrapper for an attribute-scoped command: the
    first positional argument, or else the first selected node, kept
    only when it binds to a handle. *)
Definition wrapper_known_node (args : list pyval) : M (option pyval) :=
  candidate ← match args with
              | a :: _ => mret (Some a)
              | [] =>
                  sel ← ls_selected h;
                  mret (match sel with
                        | s :: _ => Some (VStr s)
                        | [] => None
                        end)
              end;
  match candidate with
  | Some k =>
      o ← name_to_obj h SCOPE_NODE None k;
      mret (if is_base o then Some k else None)
  | None => mret None
  end.

(** [_pymaya_cmd_wrap(func, wrap_object, scope)( *args, **kwargs )], for
    the command [func] of [cmds]; [func.__name__] is the command's name. *)
Definition _pymaya_cmd_wrap (func : string) (wrap_object : bool)
    (sc : scope) (args : list pyval) (kwargs : gmap string pyval)
    : M pyval :=
  args ← lift (_obj_to_name_args args);
  kwargs ← lift (_obj_to_name_kwargs kwargs);
  res ← host_call h (Cmds func) args kwargs;
  res ← lift (constraint_result func kwargs res);
  let res := list_result func res in
  if wrap_object then
    known_node ← match sc with
                 | SCOPE_ATTR => wrapper_known_node args
                 | SCOPE_NODE => mret None
                 end;
    name_to_obj h sc known_node res
  else mret res.

(** The wrapper the module installs for a command it does not define
    itself (the loop over [inspect.getmembers(cmds, callable)]). *)
Definition module_wrapper (n : string) : list pyval -> gmap string pyval -> M pyval :=
  _pymaya_cmd_wrap n
    (negb (bool_decide (n ∈ DO_NOT_CAST_FUNCS)))
    (if bool_decide (n ∈ SCOPE_ATTR_FUNCS) then SCOPE_ATTR else SCOPE_NODE).

(** [raise exception.MayaAttributeError( *e.args )] *)
Definition as_attribute_error (e : exc) : exc :=
  Exc MayaAttributeError (exc_args e).

(** The part of [getAttr] after the host has answered with a non-empty
    list [res]. *)
Definition getAttr_convert (args : list pyval) (res : list pyval)
    : M pyval :=
  a0 ← lift (item_of args 0);
  at_ ← host_call h (Cmds "getAttr") [a0] {[ "type" := VBool true ]};
  r0 ← lift (item_of res 0);
  match r0 with
  | VTuple _ =>
      if py_eqb at_ (VStr "pointArray") then
        lift (VList <$> mapR (fun x => dt_new h Vector [x]) res)
      else if py_eqb at_ (VStr "vectorArray") then
        lift (VList <$> mapR (fun x => dt_new h Point [x]) res)
      else
        match at_ with
        | VStr s =>
            if endswith "3" s then lift (dt_new h Vector [r0]) else mret r0
        | _ => raise no_endswith
        end
  | _ =>
      if py_eqb at_ (VStr "vectorArray") then
        lift (VList <$>
              mapR (fun i =>
                      x ← item_of res i;
                      y ← item_of res (i + 1);
                      z ← item_of res (i + 2);
                      dt_new h Vector [x; y; z])
                   (range_step (List.length res) 3))
      else if py_eqb at_ (VStr "matrix") then
        lift (dt_new h Matrix [VList res])
      else mret (VList res)
  end.

(** [getAttr] *)
Definition getAttr (args : list pyval) (kwargs : gmap string pyval)
    : M pyval :=
  args ← lift (_obj_to_name_args args);
  kwargs ← lift (_obj_to_name_kwargs kwargs);
  res ← try_except (host_call h (Cmds "getAttr") args kwargs)
                   (fun e => raise (as_attribute_error e));
  match res with
  | VList ((_ :: _) as l) => getAttr_convert args l
  | _ => mret res
  end.

(** The loop of [setAttr] that opens lists, sets and tuples by one level. *)
Definition flatten_args (args : list pyval) : list pyval :=
  foldl (fun fargs arg =>
           match arg with
           | VList l | VSet l | VTuple l => fargs ++ l
           | _ => fargs ++ [arg]
           end) [] args.

(** The test that decides whether [setAttr] adds [type="string"]. *)
Definition string_type_wanted (fargs : list pyval)
    (kwargs : gmap string pyval) : bool :=
  bool_decide (List.length fargs = 2%nat)
  && match fargs !! 1%nat with Some v => is_str v | None => false end
  && negb (bool_decide (is_Some (kwargs !! "typ")))
  && negb (bool_decide (is_Some (kwargs !! "type"))).

(** [setAttr] *)
Definition setAttr (args : list pyval) (kwargs : gmap string pyval)
    : M unit :=
  args ← lift (_obj_to_name_args args);
  args ← lift (_dt_to_value_args args);
  kwargs ← lift (_obj_to_name_kwargs kwargs);
  try_except
    (let fargs := flatten_args args in
     let kwargs :=
       if string_type_wanted fargs kwargs
       then <[ "type" := VStr "string" ]> kwargs
       else kwargs in
     _ ← host_call h (Cmds "setAttr") fargs kwargs;
     mret tt)
    (fun e => raise (as_attribute_error e)).

(** [a or b] *)
Definition py_or (a b : pyval) : pyval := if truthy a then a else b.

(** [for x in v]: the elements a loop sees. *)
Definition py_iter (v : pyval) : result (list pyval) :=
  match v with
  | VList l | VTuple l | VSet l | VData _ l => Ok l
  | VStr s => Ok (chars s)
  | VDict d => Ok (fst <$> d)
  | _ => Raise not_iterable
  end.

(** [[x for x in l if p x]] where the test calls the host. *)
Fixpoint filterM (p : pyval -> M bool) (l : list pyval) : M (list pyval) :=
  match l with
  | [] => mret []
  | x :: r =>
      p x ≫= λ keep : bool,
      filterM p r ≫= λ r' : list pyval,
      mret (if keep then x :: r' else r')
  end.

(** [listHistory] *)
Definition listHistory (args : list pyval) (type exactType : pyval)
    (kwargs : gmap string pyval) : M pyval :=
  args ← lift (_obj_to_name_args args);
  kwargs ← lift (_obj_to_name_kwargs kwargs);
  res0 ← host_call h (Cmds "listHistory") args kwargs;
  let res := py_or res0 (VList []) in
  if truthy exactType then
    xs ← lift (py_iter res);
    kept ← filterM (fun x =>
                      t ← host_call h (Cmds "nodeType") [x] ∅;
                      mret (py_eqb t exactType)) xs;
    name_to_obj h SCOPE_NODE None (VList kept)
  else if truthy type then
    xs ← lift (py_iter res);
    kept ← filterM (fun x =>
                      t ← host_call h (Cmds "nodeType") [x]
                            {[ "inherited" := VBool true ]};
                      lift (py_in type t)) xs;
    name_to_obj h SCOPE_NODE None (VList kept)
  else name_to_obj h SCOPE_NODE None res.

(** The two comprehensions of [listConnections]: over
    [range(0, len(connections), 2)], the pair at [i] swapped for the
    source side and in place for the destination side. *)
Definition res_source_of (connections : pyval) : result (list pyval) :=
  n ← py_len connections;
  mapR (fun i =>
          a ← py_item connections (i + 1);
          b ← py_item connections i;
          Ok (VTuple [a; b]))
       (range_step n 2).

Definition res_destination_of (connections : pyval) : result (list pyval) :=
  n ← py_len connections;
  mapR (fun i =>
          a ← py_item connections i;
          b ← py_item connections (i + 1);
          Ok (VTuple [a; b]))
       (range_step n 2).

(** The keyword arguments of the first query when [sourceFirst] is set. *)
Definition source_side_kwargs (kwargs : gmap string pyval)
    : gmap string pyval :=
  let kwargs :=
    match kwargs !! "source" with
    | Some v => if truthy v then kwargs else <[ "source" := VBool true ]> kwargs
    | None => <[ "source" := VBool true ]> kwargs
    end in
  match kwargs !! "destination" with
  | Some v =>
      if truthy v then <[ "destination" := VBool false ]> kwargs else kwargs
  | None => <[ "destination" := VBool false ]> kwargs
  end.

(** The keyword arguments of the second query. *)
Definition destination_side_kwargs (kwargs : gmap string pyval)
    : gmap string pyval :=
  <[ "destination" := VBool true ]> (<[ "source" := VBool false ]> kwargs).

(** [listConnections] *)
Definition listConnections (args : list pyval) (sourceFirst : pyval)
    (kwargs : gmap string pyval) : M pyval :=
  args ← lift (_obj_to_name_args args);
  kwargs ← lift (_obj_to_name_kwargs kwargs);
  res ← (if truthy sourceFirst then
           let kwargs := source_side_kwargs kwargs in
           c ← host_call h (Cmds "listConnections") args kwargs;
           res_source ← lift (res_source_of (py_or c (VList [])));
           let kwargs := destination_side_kwargs kwargs in
           c ← host_call h (Cmds "listConnections") args kwargs;
           res_destination ← lift (res_destination_of (py_or c (VList [])));
           mret (VList (res_destination ++ res_source))
         else
           c ← host_call h (Cmds "listConnections") args kwargs;
           mret (py_or c (VList [])));
  name_to_obj h SCOPE_NODE None res.

(** *** The [mel] proxy *)

(** What a cached callable does when called: the command wrapper of
    [_pymaya_cmd_wrap], or [functools.partial(__wrap_mel, name)]. *)
Inductive callable :=
| CmdWrap (func : string) (wrap_object : bool) (sc : scope)
| MelProc (name : string).

(** A function object: [fn_id] is its identity ([is]). *)
Record fnobj := FnObj { fn_id : nat; fn_body : callable }.

(** The singleton's state: the dict [__cmds], and the count of function
    objects built so far. *)
Record mel_state := MelState {
  mel_cmds : gmap string fnobj;
  mel_built : nat
}.

(** [_Mel.__new__] on the first call. *)
Definition mel_new : mel_state := MelState ∅ 0.

(** Names that ordinary lookup finds on the instance, on the class or on
    [object]; [__getattribute__] gives them back before it looks at the
    cache. *)
Definition instance_attrs : list string := ["_Mel__cmds"; "eval"].
Definition class_attrs : list string :=
  ["_Mel__Instance"; "__new__"; "__init__"; "_Mel__wrap_mel";
   "__getattribute__"; "__module__"; "__dict__"; "__weakref__"; "__doc__"].
Definition object_attrs : list string :=
  ["__class__"; "__delattr__"; "__dir__"; "__eq__"; "__format__"; "__ge__";
   "__getstate__"; "__gt__"; "__hash__"; "__init_subclass__"; "__le__";
   "__lt__"; "__ne__"; "__reduce__"; "__reduce_ex__"; "__repr__";
   "__setattr__"; "__sizeof__"; "__str__"; "__subclasshook__"].

Definition ordinary_attr (name : string) : bool :=
  bool_decide (name ∈ instance_attrs ++ class_attrs ++ object_attrs).

Inductive mel_attr :=
| Ordinary (name : string)
| Function (f : fnobj).

Definition no_attribute (name : string) : exc :=
  Exc AttributeError
      [VStr (String.append "'_Mel' object has no attribute '"
               (String.append name "'"))].

(** [_Mel.__getattribute__] *)
Definition _Mel_getattribute (name : string) (st : mel_state)
    : M (mel_attr * mel_state) :=
  if ordinary_attr name then mret (Ordinary name, st)
  else
    let cache := mel_cmds st in
    match cache !! name with
    | Some f => mret (Function f, st)
    | None =>
        if bool_decide (name = "eval") then mret (Ordinary "eval", st)
        else if has_cmd h name then
          let f := FnObj (mel_built st) (CmdWrap name false SCOPE_NODE) in
          mret (Function f, MelState (<[ name := f ]> cache) (S (mel_built st)))
        else
          res ← host_call h MelEval [VStr (String.append "whatIs " name)] ∅;
          match res with
          | VStr s =>
              if endswith ".mel" s then
                let f := FnObj (mel_built st) (MelProc name) in
                mret (Function f,
                      MelState (<[ name := f ]> cache) (S (mel_built st)))
              else raise (no_attribute name)
          | _ => raise no_endswith
          end
    end.



End WithHost.

(** A lookup on the proxy as a step on its state: the state stays as it
    was when the lookup raises. *)
Definition mel_lookup (h : host) (name : string) (st : mel_state)
    (log : list call) : result mel_attr * mel_state * list call :=
  match _Mel_getattribute h name st log with
  | (Ok (a, st'), log') => (Ok a, st', log')
  | (Raise e, log') => (Raise e, st, log')
  end.

End Cmd.

(** ** [pymaya/node.py] *)

Module Node.
Import Py PyOps Host.

(** The function sets that [_Node.__init__] asks an object about.  In the
    API each derives from the one before it: [MFnTransform] from
    [MFnDagNode], and [MFnDagNode] from [MFnDependencyNode]. *)
Inductive MFn := kDependencyNode | kDagNode | kTransform.

#[global] Instance MFn_eq_dec : EqDecision MFn.
Proof. solve_decision. Defined.

(** [derives f g]: the function set [f] is [g] or derives from it. *)
Definition derives (f g : MFn) : bool :=
  match f, g with
  | kTransform, _ => true
  | kDagNode, kDagNode => true
  | kDagNode, kDependencyNode => true
  | kDependencyNode, kDependencyNode => true
  | _, _ => false
  end.

(** An [OpenMaya.MObject]: its identity in the scene, the function sets
    that are its type, and how [str()] shows it. *)
Record MObject := MObj {
  mo_id : nat;
  mo_types : list MFn;
  mo_str : string
}.

(** [MObject.hasFn]: the object is compatible with the function set, that
    is, one of its types is that set or derives from it. *)
Definition hasFn (o : MObject) (f : MFn) : bool :=
  existsb (fun g => derives g f) (mo_types o).

(** The API below the node handles.  [select log n] is
    [MSelectionList.add(n)] followed by [getDependNode(0)], after the calls
    of [log]: the object, or the exception that [add] raises.
    [findPlug o a] is
    [MFnDependencyNode(o).findPlug(a, False)] ([None] when it raises),
    [first_shape o] what the bound [getShape()] of the node gives,
    [plug_element p i] the plug behind [Attribute(p)[i]], and
    [all_node_types] is [cmds.allNodeTypes()]. *)
Record api := {
  select : list call -> string -> result MObject;
  findPlug : MObject -> string -> option string;
  first_shape : MObject -> result (option MObject);
  plug_element : string -> nat -> result string;
  all_node_types : list string
}.

(** The module-level helpers that [__init__] binds with [partial]. *)
Inductive helper :=
| _getParent | _getChildren | _addChild
| _getBoundingBox | _getPivots | _setTransformation | _getTransformation
| _getShape | _getShapes | _setMatrix | _getMatrix
| _getTranslation | _setTranslation | _setRotation | _getRotation
| _getScale | _setScale.

#[global] Instance helper_eq_dec : EqDecision helper.
Proof. solve_decision. Defined.

(** An [attr.Attribute]: [at_id] is the object's identity. *)
Record attribute := Attribute { at_id : nat; at_plug : string }.

Inductive mfn_kind := FnDg | FnDag.

(** A [_Node] instance. [n_bound] holds the instance attributes that
    [__init__] sets with [partial(helper, self)]. *)
Record node := MkNode {
  n_attrs : gmap string attribute;
  n_obj : MObject;
  n_is_transform : bool;
  n_dagpath : option nat;
  n_api_mfn : mfn_kind;
  n_bound : gmap string helper;
  n_built : nat
}.

Definition quoted (msg name : string) : string :=
  String.append msg (String.append "'" (String.append name "'")).

Section WithApi.
Context (a : api).

Definition selection_add (nodename : string) : M MObject :=
  fun log =>
    (select a log nodename, log ++ [Call SelectionAdd [VStr nodename] ∅]).

(** [_Node.__getObjectFromName] *)
Definition getObjectFromName (nodename : string) : M (option MObject) :=
  try_except
    (o ← selection_add nodename; mret (Some o))
    (fun e =>
       if bool_decide (exc_cls e = RuntimeError) then mret None else raise e).

(** The instance attributes set for a DAG node, in the order of the
    source. *)
Definition bind_dag (b : gmap string helper) : gmap string helper :=
  <[ "addChild" := _addChild ]>
  (<[ "getChildren" := _getChildren ]>
  (<[ "getParent" := _getParent ]> b)).

(** The instance attributes set for a transform. *)
Definition bind_transform (b : gmap string helper) : gmap string helper :=
  <[ "setScale" := _setScale ]>
  (<[ "getScale" := _getScale ]>
  (<[ "getRotation" := _getRotation ]>
  (<[ "setRotation" := _setRotation ]>
  (<[ "setTranslation" := _setTranslation ]>
  (<[ "getTranslation" := _getTranslation ]>
  (<[ "getMatrix" := _getMatrix ]>
  (<[ "setMatrix" := _setMatrix ]>
  (<[ "getShapes" := _getShapes ]>
  (<[ "getShape" := _getShape ]>
  (<[ "getTransformation" := _getTransformation ]>
  (<[ "setTransformation" := _setTransformation ]>
  (<[ "getPivots" := _getPivots ]>
  (<[ "getBoundingBox" := _getBoundingBox ]> b))))))))))))).

(** What [__init__] shows of its argument in an error message. *)
Definition shown (nodename_or_mobject : string + MObject) : string :=
  match nodename_or_mobject with
  | inl nodename => nodename
  | inr o => mo_str o
  end.

(** The first part of [__init__]: the object behind the argument. *)
Definition init_object (nodename_or_mobject : string + MObject) : M MObject :=
  match nodename_or_mobject with
  | inr o => mret o
  | inl nodename =>
      found ← getObjectFromName nodename;
      match found with
      | Some o => mret o
      | None =>
          raise (Exc MayaNodeError [VStr (quoted "No such node " nodename)])
      end
  end.

(** The second part of [__init__]: the tests on the object, and the
    instance attributes that follow from them. *)
Definition init_handle (nodename_or_mobject : string + MObject)
    (obj : MObject) : M node :=
  if negb (hasFn obj kDependencyNode) then
    raise (Exc MayaNodeError
             [VStr (quoted "Not a dependency node " (shown nodename_or_mobject))])
  else if hasFn obj kDagNode then
    let bound := bind_dag ∅ in
    if hasFn obj kTransform then
      mret (MkNode ∅ obj true (Some (mo_id obj)) FnDag (bind_transform bound) 0)
    else
      mret (MkNode ∅ obj false (Some (mo_id obj)) FnDag bound 0)
  else
    mret (MkNode ∅ obj false None FnDg ∅ 0).

(** [_Node.__init__] *)
Definition _Node_init (nodename_or_mobject : string + MObject) : M node :=
  obj ← init_object nodename_or_mobject;
  init_handle nodename_or_mobject obj.

(** [hasattr] for the instance attributes that construction sets. *)
Definition is_bound (n : node) (name : string) : bool :=
  bool_decide (is_Some (n_bound n !! name)).

(** *** [RE_ATTR_INDEX.search] *)

Definition is_digit (c : ascii) : bool :=
  let n := nat_of_ascii c in (48 <=? n)%nat && (n <=? 57)%nat.

(** The longest run of digits at the head of [s], and what follows it. *)
Fixpoint take_digits (s : string) : string * string :=
  match s with
  | String c r =>
      if is_digit c then
        let '(d, rest) := take_digits r in (String c d, rest)
      else (EmptyString, s)
  | EmptyString => (EmptyString, EmptyString)
  end.

(** A match of [\[([0-9]+)\]] at the head of [s]: the digits of group 1. *)
Definition match_index (s : string) : option string :=
  match s with
  | String "[" r =>
      match take_digits r with
      | (String c d, String "]" _) => Some (String c d)
      | _ => None
      end
  | _ => None
  end.

(** [search]: the start of the leftmost match and its group 1. *)
Fixpoint search_index (pos : nat) (s : string) : option (nat * string) :=
  match match_index s with
  | Some d => Some (pos, d)
  | None =>
      match s with
      | String _ r => search_index (S pos) r
      | EmptyString => None
      end
  end.

(** [int(d)] for a string of digits. *)
Definition int_of_digits (d : string) : nat :=
  fold_left (fun acc c => (10 * acc + (nat_of_ascii c - 48))%nat)
            (list_ascii_of_string d) 0%nat.

Definition no_attr_found (name : string) : exc :=
  Exc MayaAttributeError
      [VStr (String.append "No '" (String.append name "' attr found"))].

Definition no_getShape : exc :=
  Exc AttributeError [VStr "object has no attribute 'getShape'"].

(** The plug that [attr] finds for [attrname]: on the node, or else, when
    [checkShape] is set, on the node's first shape. *)
Definition find_plug (n : node) (name attrname : string) (checkShape : bool)
    : result string :=
  match findPlug a (n_obj n) attrname with
  | Some p => Ok p
  | None =>
      p ← (if checkShape then
             if is_bound n "getShape" then
               shape ← first_shape a (n_obj n);
               match shape with
               | Some s => Ok (findPlug a s attrname)
               | None => Ok None
               end
             else Raise no_getShape
           else Ok None);
      match p with
      | Some p => Ok p
      | None => Raise (no_attr_found name)
      end
  end.

(** [_Node.attr]: the attribute object, and the node with its cache as the
    call leaves it. *)
Definition attr (n : node) (name : string) (checkShape : bool)
    : result (attribute * node) :=
  match n_attrs n !! name with
  | Some at_ => Ok (at_, n)
  | None =>
      let '(attrname, idx) :=
        match search_index 0 name with
        | Some (start, d) =>
            (String.substring 0 start name, Some (int_of_digits d))
        | None => (name, None)
        end in
      p ← find_plug n name attrname checkShape;
      '(at_, built) ←
        match idx with
        | Some i =>
            q ← plug_element a p i;
            Ok (Attribute (S (n_built n)) q, S (S (n_built n)))
        | None => Ok (Attribute (n_built n) p, S (n_built n))
        end;
      Ok (at_,
          MkNode (<[ name := at_ ]> (n_attrs n)) (n_obj n) (n_is_transform n)
                 (n_dagpath n) (n_api_mfn n) (n_bound n) built)
  end.

(** An [attr] call as a step on the node: the node stays as it was when
    the call raises. *)
Definition attr_step (n : node) (name : string) (checkShape : bool) : node :=
  match attr n name checkShape with
  | Ok (_, n') => n'
  | Raise _ => n
  end.

(** *** [_NodeTypes] *)

(** A class object: one written in the module ([SoftMod], [Joint], ...)
    or given by the caller, or the [_New] class that [registerClass]
    builds, with its identity and its [__name__]. *)
Inductive pyclass :=
| Declared (name : string)
| Generated (id : nat) (clsname : string).

#[global] Instance pyclass_eq_dec : EqDecision pyclass.
Proof. solve_decision. Defined.

(** The singleton's state: the dict [__types], and the count of classes
    built so far. *)
Record types_state := TypesState {
  types : gmap string pyclass;
  classes_built : nat
}.

(** [c.upper()] for an ASCII character. *)
Definition upper (c : ascii) : ascii :=
  let n := nat_of_ascii c in
  if (97 <=? n)%nat && (n <=? 122)%nat then ascii_of_nat (n - 32) else c.

Definition empty_typename : exc := Exc IndexError [VStr "string index out of range"].

(** [_NodeTypes.registerClass] *)
Definition registerClass (typename : string) (cls : option pyclass)
    (st : types_state) : result types_state :=
  match cls with
  | Some c => Ok (TypesState (<[ typename := c ]> (types st)) (classes_built st))
  | None =>
      match typename with
      | String c r =>
          let clsname := String (upper c) r in
          Ok (TypesState
                (<[ typename := Generated (classes_built st) clsname ]> (types st))
                (S (classes_built st)))
      | EmptyString => Raise empty_typename
      end
  end.

(** [_NodeTypes.getTypeClass] *)
Definition getTypeClass (typename : string) (st : types_state)
    : result (option pyclass * types_state) :=
  match types st !! typename with
  | Some c => Ok (Some c, st)
  | None =>
      if bool_decide (typename ∈ all_node_types a) then
        st' ← registerClass typename None st;
        match types st' !! typename with
        | Some c => Ok (Some c, st')
        | None => Raise (Exc KeyError [VStr typename])
        end
      else Ok (None, st)
  end.

End WithApi.

(** The registry after the module has run: the six [registerClass] calls
    with the classes written in the module. *)
Definition nt : types_state :=
  TypesState
    (<[ "joint" := Declared "Joint" ]>
    (<[ "mesh" := Declared "Mesh" ]>
    (<[ "skinCluster" := Declared "SkinCluster" ]>
    (<[ "nurbsCurve" := Declared "NurbsCurve" ]>
    (<[ "objectSet" := Declared "ObjectSet" ]>
    (<[ "softMod" := Declared "SoftMod" ]> ∅)))))) 0.

(** The operations on the registry. *)
Inductive types_op :=
| OpRegister (typename : string) (cls : option pyclass)
| OpGetTypeClass (typename : string).

Definition types_step (a : api) (st : types_state) (op : types_op) : types_state :=
  match op with
  | OpRegister t c =>
      match registerClass t c st with Ok st' => st' | Raise _ => st end
  | OpGetTypeClass t =>
      match getTypeClass a t st with Ok (_, st') => st' | Raise _ => st end
  end.

End Node.

(** ** [shifter/game_tools_fbx/anim_clip_widgets.py] *)

Module AnimClip.
Import Py PyOps Host.

(** What the panel asks of its collaborators and changes in the scene:
    calls on the export node, and [cmds.warning]. *)
Inductive ecall :=
| GetOrCreateExportNode
| AddAnimationClip (root_joint : pyval)
| UpdateAnimationClip (root_joint : pyval) (previous_name : string)
    (anim_clip_data : gmap string pyval)
| DeleteAnimationClip (root_joint : pyval) (clip_name : string)
| DeleteAllAnimationClips
| Warning (msg : string).

(** A clip as the export node gives it back, with the keys that the panel
    reads: [title] and [animLayer] are strings and [enabled] is a flag where
    present, as the Qt setters demand. *)
Record stored_clip := StoredClip {
  sc_title : option string;
  sc_start_frame : option pyval;
  sc_end_frame : option pyval;
  sc_enabled : option bool;
  sc_animLayer : option string
}.

(** The collaborators, each answer after the calls of the log: the FBX
    exporter window ([get_root_joint], ...), [FbxExportNode.get()] (true
    when it gives a node), the export node's queries, the template
    [FbxExportNode.ANIM_CLIP_DATA], [fbx_utils.all_anim_layers_ordered]
    and [str()] on values other than strings, numbers and [None]. *)
Record collaborators := {
  get_root_joint : list ecall -> pyval;
  get_export_path : list ecall -> pyval;
  get_file_name : list ecall -> pyval;
  export_node_get : list ecall -> bool;
  ANIM_CLIP_DATA : gmap string pyval;
  get_animation_clips : list ecall -> pyval -> list stored_clip;
  find_animation_clip : list ecall -> pyval -> string -> stored_clip;
  add_animation_clip : list ecall -> pyval -> option string;
  delete_animation_clip : list ecall -> pyval -> string -> bool;
  all_anim_layers_ordered : list ecall -> list string;
  show : pyval -> string
}.

(** Computations over the log of collaborator calls. *)
Abbreviation E := (Eff ecall).

Definition tell (c : ecall) : E unit := fun log => (Ok tt, log ++ [c]).

(** *** [int()] and [str()] *)

Definition is_space (c : ascii) : bool :=
  let n := nat_of_ascii c in
  bool_decide (n = 32%nat) || ((9 <=? n)%nat && (n <=? 13)%nat).

Fixpoint lstrip (l : list ascii) : list ascii :=
  match l with
  | c :: r => if is_space c then lstrip r else l
  | [] => []
  end.

Definition strip (l : list ascii) : list ascii :=
  rev (lstrip (rev (lstrip l))).

(** Decimal digits, with single underscores between digits. *)
Fixpoint digits_value (acc : Z) (after_digit : bool) (l : list ascii)
    : option Z :=
  match l with
  | [] => if after_digit then Some acc else None
  | c :: r =>
      if Node.is_digit c then
        digits_value (10 * acc + Z.of_nat (nat_of_ascii c - 48)) true r
      else if bool_decide (c = "_"%char) && after_digit then
        digits_value acc false r
      else None
  end.

Definition invalid_literal (s : string) : exc :=
  Exc ValueError [VStr (String.append "invalid literal for int() with base 10: " s)].

(** [int(s)] for a string of ASCII characters. *)
Definition py_int (s : string) : result Z :=
  let parsed :=
    match strip (list_ascii_of_string s) with
    | "+"%char :: r => digits_value 0 false r
    | "-"%char :: r => Z.opp <$> digits_value 0 false r
    | l => digits_value 0 false l
    end in
  match parsed with
  | Some n => Ok n
  | None => Raise (invalid_literal s)
  end.

(** [str(v)] *)
Definition py_str (show : pyval -> string) (v : pyval) : string :=
  match v with
  | VStr s => s
  | VInt n => DecimalString.NilZero.string_of_int (Z.to_int n)
  | VBool true => "True"
  | VBool false => "False"
  | VNone => "None"
  | _ => show v
  end.

(** *** [AnimClipWidget] *)

(** The row of one clip: the two names it keeps and what its child
    widgets hold (the texts of the three line edits, the items and the
    current text of the combo box, the check box). *)
Record AnimClipWidget := ClipRow {
  _fbx_exporter : bool;
  _clip_name : string;
  _previous_name : string;
  _clip_name_lineedit : string;
  _anim_layer_combo : list string;
  _anim_layer_current : string;
  _start_frame_box : string;
  _end_frame_box : string;
  _export_checkbox : bool
}.

Definition with_previous_name (w : AnimClipWidget) (n : string) : AnimClipWidget :=
  ClipRow (_fbx_exporter w) (_clip_name w) n (_clip_name_lineedit w)
          (_anim_layer_combo w) (_anim_layer_current w) (_start_frame_box w)
          (_end_frame_box w) (_export_checkbox w).

Definition with_title (w : AnimClipWidget) (t : string) : AnimClipWidget :=
  ClipRow (_fbx_exporter w) (_clip_name w) (_previous_name w) t
          (_anim_layer_combo w) (_anim_layer_current w) (_start_frame_box w)
          (_end_frame_box w) (_export_checkbox w).

Definition with_start (w : AnimClipWidget) (t : string) : AnimClipWidget :=
  ClipRow (_fbx_exporter w) (_clip_name w) (_previous_name w)
          (_clip_name_lineedit w) (_anim_layer_combo w) (_anim_layer_current w)
          t (_end_frame_box w) (_export_checkbox w).

Definition with_end (w : AnimClipWidget) (t : string) : AnimClipWidget :=
  ClipRow (_fbx_exporter w) (_clip_name w) (_previous_name w)
          (_clip_name_lineedit w) (_anim_layer_combo w) (_anim_layer_current w)
          (_start_frame_box w) t (_export_checkbox w).

Definition with_checked (w : AnimClipWidget) (b : bool) : AnimClipWidget :=
  ClipRow (_fbx_exporter w) (_clip_name w) (_previous_name w)
          (_clip_name_lineedit w) (_anim_layer_combo w) (_anim_layer_current w)
          (_start_frame_box w) (_end_frame_box w) b.

Definition with_layers (w : AnimClipWidget) (items : list string)
    (current : string) : AnimClipWidget :=
  ClipRow (_fbx_exporter w) (_clip_name w) (_previous_name w)
          (_clip_name_lineedit w) items current
          (_start_frame_box w) (_end_frame_box w) (_export_checkbox w).

Section WithCollaborators.
Context (c : collaborators).

(** The record that [_on_update_anim_clip] fills: a copy of the template
    with the five assignments of the source, in their order. *)
Definition filled_clip_data (title : string) (enabled : bool)
    (start_frame end_frame : Z) (anim_layer : string) : gmap string pyval :=
  <[ "animLayer" :=
       VStr (if truthy (VStr anim_layer)
                && negb (bool_decide (anim_layer = "None"))
             then anim_layer else "") ]>
  (<[ "end_frame" := VInt end_frame ]>
  (<[ "start_frame" := VInt start_frame ]>
  (<[ "enabled" := VBool enabled ]>
  (<[ "title" := VStr title ]> (ANIM_CLIP_DATA c))))).

(** [AnimClipWidget._on_update_anim_clip] *)
Definition _on_update_anim_clip (w : AnimClipWidget) : E AnimClipWidget :=
  log ← get_log;
  let root_joint := if _fbx_exporter w then get_root_joint c log else VNone in
  if negb (truthy root_joint) then mret w
  else if negb (export_node_get c log) then mret w
  else
    let title := _clip_name_lineedit w in
    let enabled := _export_checkbox w in
    start_frame ← lift (py_int (_start_frame_box w));
    end_frame ← lift (py_int (_end_frame_box w));
    let anim_clip_data :=
      filled_clip_data title enabled start_frame end_frame
                       (_anim_layer_current w) in
    _ ← tell (UpdateAnimationClip root_joint (_previous_name w) anim_clip_data);
    mret (with_previous_name w title).

(** A signal that reaches [_on_update_anim_clip]: an exception raised in
    the slot does not come back to the code that changed the widget. *)
Definition emit (changed : bool) (w : AnimClipWidget) : E AnimClipWidget :=
  fun log =>
    if changed then
      match _on_update_anim_clip w log with
      | (Ok w', log') => (Ok w', log')
      | (Raise _, log') => (Ok w, log')
      end
    else (Ok w, log).

(** [AnimClipWidget._clear]: the setters run with the signals connected. *)
Definition _clear (w : AnimClipWidget) : E AnimClipWidget :=
  w ← emit (negb (bool_decide (_clip_name_lineedit w = "Untitled")))
           (with_title w "Untitled");
  w ← emit (negb (bool_decide (_start_frame_box w = ""))) (with_start w "");
  w ← emit (negb (bool_decide (_end_frame_box w = ""))) (with_end w "");
  emit (_export_checkbox w) (with_checked w false).

(** [setCurrentText] on a combo box that is not editable: the item with
    that text becomes current, if there is one. *)
Definition set_current_text (items : list string) (current text : string)
    : string :=
  if bool_decide (text ∈ items) then text else current.

(** [AnimClipWidget.refresh] *)
Definition refresh (w : AnimClipWidget) : E AnimClipWidget :=
  log ← get_log;
  if negb (export_node_get c log && _fbx_exporter w) then _clear w
  else
    let root_joint := get_root_joint c log in
    let anim_clip_data := find_animation_clip c log root_joint (_clip_name w) in
    let w := with_title w (default "Untitled" (sc_title anim_clip_data)) in
    let w := with_start w (py_str (show c)
                             (default (VStr "") (sc_start_frame anim_clip_data))) in
    let w := with_end w (py_str (show c)
                           (default (VStr "") (sc_end_frame anim_clip_data))) in
    let w := with_checked w (default true (sc_enabled anim_clip_data)) in
    let items := "None" :: all_anim_layers_ordered c log in
    mret (with_layers w items
            (set_current_text items "None"
               (default "None" (sc_animLayer anim_clip_data)))).

(** [AnimClipWidget.__init__] *)
Definition AnimClipWidget_init (clip_name : string) (parent : bool)
    : E AnimClipWidget :=
  refresh (ClipRow parent clip_name clip_name "" [] "" "" "" true).

(** [AnimClipWidget.set_enabled] *)
Definition set_enabled (flag : bool) (w : AnimClipWidget) : E AnimClipWidget :=
  emit (negb (bool_decide (_export_checkbox w = flag))) (with_checked w flag).

(** *** [AnimClipsListWidget] *)

Record AnimClipsListWidget := ClipsList {
  l_fbx_exporter : bool;
  _root_joint : pyval;
  _export_path : pyval;
  _file_name : pyval;
  _anim_clips_checkbox : bool;
  _clips_layout : list AnimClipWidget
}.

Definition with_rows (lw : AnimClipsListWidget) (rows : list AnimClipWidget)
    : AnimClipsListWidget :=
  ClipsList (l_fbx_exporter lw) (_root_joint lw) (_export_path lw)
            (_file_name lw) (_anim_clips_checkbox lw) rows.

(** The titles of the rows of the list, top to bottom. *)
Definition row_names (lw : AnimClipsListWidget) : list string :=
  _clip_name <$> _clips_layout lw.

(** [AnimClipsListWidget._add_animation_clip] *)
Definition _add_animation_clip (clip_name : string) (lw : AnimClipsListWidget)
    : E (AnimClipWidget * AnimClipsListWidget) :=
  anim_clip_widget ← AnimClipWidget_init clip_name (l_fbx_exporter lw);
  mret (anim_clip_widget, with_rows lw (_clips_layout lw ++ [anim_clip_widget])).

Definition no_exporter : exc :=
  Exc AttributeError
      [VStr "'NoneType' object has no attribute 'get_or_create_export_node'"].

(** [AnimClipsListWidget._on_add_animation_clip_button_clicked] *)
Definition _on_add_animation_clip_button_clicked (lw : AnimClipsListWidget)
    : E AnimClipsListWidget :=
  if negb (truthy (_root_joint lw)) then
    _ ← tell (Warning "Could not add animation clip because no root joint is defined!");
    mret lw
  else if negb (l_fbx_exporter lw) then raise no_exporter
  else
    _ ← tell GetOrCreateExportNode;
    log ← get_log;
    let anim_clip_name := add_animation_clip c log (_root_joint lw) in
    _ ← tell (AddAnimationClip (_root_joint lw));
    match anim_clip_name with
    | Some n =>
        if bool_decide (n = "") then
          _ ← tell (Warning "Was not possible to add new animation clip");
          mret lw
        else
          r ← _add_animation_clip n lw;
          mret (snd r)
    | None =>
        _ ← tell (Warning "Was not possible to add new animation clip");
        mret lw
    end.

(** The loop of [AnimClipsListWidget.refresh] over the stored clips. *)
Fixpoint add_stored (clips : list stored_clip) (lw : AnimClipsListWidget)
    : E AnimClipsListWidget :=
  match clips with
  | [] => mret lw
  | d :: r =>
      match sc_title d with
      | Some n =>
          if bool_decide (n = "") then add_stored r lw
          else
            _add_animation_clip n lw ≫= λ p : AnimClipWidget * AnimClipsListWidget,
            add_stored r (snd p)
      | None => add_stored r lw
      end
  end.

(** [AnimClipsListWidget.refresh] *)
Definition list_refresh (lw : AnimClipsListWidget) : E AnimClipsListWidget :=
  let lw := with_rows lw [] in
  if negb (l_fbx_exporter lw) then mret lw
  else
    log ← get_log;
    let lw := ClipsList (l_fbx_exporter lw) (get_root_joint c log)
                        (get_export_path c log) (get_file_name c log)
                        (_anim_clips_checkbox lw) (_clips_layout lw) in
    if negb (truthy (_root_joint lw)) then mret lw
    else if negb (export_node_get c log) then mret lw
    else add_stored (get_animation_clips c log (_root_joint lw)) lw.

(** [AnimClipsListWidget._on_delete_all_animation_clips_button_clicked] *)
Definition _on_delete_all_animation_clips_button_clicked
    (lw : AnimClipsListWidget) : E AnimClipsListWidget :=
  if negb (truthy (_root_joint lw)) then mret lw
  else
    log ← get_log;
    if negb (export_node_get c log) then mret lw
    else
      _ ← tell DeleteAllAnimationClips;
      list_refresh lw.

End WithCollaborators.

End AnimClip.

(** ** Values that the re-wrapping step accepts *)

Module Shape.
Import Py PyOps Cmd.

(** Every set inside lists and tuples of [v] holds hashable elements, as
    every set that Python has built does. *)
Fixpoint sets_hashable (v : pyval) : bool :=
  match v with
  | VList l | VTuple l => forallb sets_hashable l
  | VSet l => forallb hashable l
  | _ => true
  end.

(** The re-wrapping of a result as the specification words it: [None]
    stays [None]; a string becomes the handle it binds to, or stays the
    string when binding fails; lists, tuples and sets are mapped element by
    element and keep their class; any other value is given back as it is.
    [binds s] is the outcome of binding for the string [s]. *)
Inductive rewraps (binds : string -> option handle) : pyval -> pyval -> Prop :=
| rewraps_none : rewraps binds VNone VNone
| rewraps_bound (s : string) (o : handle) :
    binds s = Some o -> rewraps binds (VStr s) (VObj o)
| rewraps_unbound (s : string) :
    binds s = None -> rewraps binds (VStr s) (VStr s)
| rewraps_list (l l' : list pyval) :
    Forall2 (rewraps binds) l l' -> rewraps binds (VList l) (VList l')
| rewraps_tuple (l l' : list pyval) :
    Forall2 (rewraps binds) l l' -> rewraps binds (VTuple l) (VTuple l')
| rewraps_set (l l' : list pyval) :
    Forall2 (rewraps binds) l l' ->
    rewraps binds (VSet l) (VSet (py_dedup [] l'))
| rewraps_other (v : pyval) :
    is_none v = false -> is_str v = false -> is_seq v = false ->
    rewraps binds v v.

End Shape.

(** ** Sample hosts *)

Module Samples.
Import Py PyOps Host Cmd Node.

Definition no_such_attribute : exc :=
  Exc RuntimeError [VStr "No object matches name: pCube1.tx"].

Definition no_such_node : exc :=
  Exc RuntimeError [VStr "(kInvalidParameter): Object does not exist"].

Definition bad_type_query : exc :=
  Exc RuntimeError [VStr "The type of this attribute cannot be queried"].

Definition quiet (respond : list call -> call -> result pyval) : host :=
  {| respond := respond;
     selection := fun _ => [];
     has_cmd := fun _ => true;
     PyNode := fun _ _ => None;
     dt_new := fun c l => Ok (VData c l);
     str_of := fun _ => "";
     repr_of := fun _ => "" |}.

(** A scene with the mesh [pCubeShape1]: every command lists it next to a
    name that does not bind. *)
Definition cube_scene : host :=
  {| respond := fun _ _ => Ok (VList [VStr "pCubeShape1"; VStr "ghost"]);
     selection := fun _ => [];
     has_cmd := fun _ => true;
     PyNode := fun _ s =>
       if bool_decide (s = "pCubeShape1")
       then Some (Handle KNode "pCubeShape1" []) else None;
     dt_new := fun c l => Ok (VData c l);
     str_of := fun _ => "";
     repr_of := fun _ => "" |}.

(** A scene in which [pCube1.tx] is driven by [anim.output] and [pCube1.ty]
    drives [cond.firstTerm]: the answers of [listConnections] with
    [connections] and [plugs] set, by the side that is asked for. *)
Definition connected_scene : host :=
  quiet (fun _ c =>
           match c_kwargs c !! "source" with
           | Some (VBool true) =>
               Ok (VList [VStr "pCube1.tx"; VStr "anim.output"])
           | _ => Ok (VList [VStr "pCube1.ty"; VStr "cond.firstTerm"])
           end).

(** The keyword arguments [c=True, p=True]. *)
Definition connections_and_plugs : gmap string pyval :=
  <[ "p" := VBool true ]> {[ "c" := VBool true ]}.

(** A host without commands, in which [whatIs] finds every name as a
    procedure of a script file. *)
Definition scripts_only : host :=
  {| respond := fun _ _ => Ok (VStr "Mel procedure found in: /scripts/rig.mel");
     selection := fun _ => [];
     has_cmd := fun _ => false;
     PyNode := fun _ _ => None;
     dt_new := fun c l => Ok (VData c l);
     str_of := fun _ => "";
     repr_of := fun _ => "" |}.

(** A host that answers every command with [None]. *)
Definition silent_host : host := quiet (fun _ _ => Ok VNone).

(** A scene without [pCube1.tx]: every command raises. *)
Definition failing_host : host := quiet (fun _ _ => Raise no_such_attribute).

(** A host that answers the value query of [getAttr] with a list and
    raises on the type query that follows. *)
Definition type_query_fails : host :=
  quiet (fun _ c =>
           match c_kwargs c !! "type" with
           | Some _ => Raise bad_type_query
           | None => Ok (VList [VInt 1; VInt 2; VInt 3])
           end).

(** An API in which no name selects an object. *)
Definition empty_scene : api :=
  {| select := fun _ _ => Raise no_such_node;
     findPlug := fun _ _ => None;
     first_shape := fun _ => Ok None;
     plug_element := fun p _ => Ok p;
     all_node_types := [] |}.

(** A scene with the transform [pCube1] and nothing else. *)
Definition pCube1 : MObject := MObj 1 [kTransform] "pCube1".

Definition cube_api : api :=
  {| select := fun _ n =>
       if bool_decide (n = "pCube1") then Ok pCube1 else Raise no_such_node;
     findPlug := fun _ p =>
       if bool_decide (p = "translateX") then Some "pCube1.translateX" else None;
     first_shape := fun _ => Ok None;
     plug_element := fun p _ => Ok p;
     all_node_types := ["transform"; "joint"; "mesh"] |}.

(** The handle that [_Node("pCube1")] builds in that scene. *)
Definition pCube1_node : node :=
  MkNode ∅ pCube1 true (Some 1%nat) FnDag (bind_transform (bind_dag ∅)) 0.

(** The attribute object that [attr("translateX")] builds on that handle,
    and the handle with the object in its cache. *)
Definition pCube1_attr : attribute * node :=
  (Attribute 0 "pCube1.translateX",
   MkNode {[ "translateX" := Attribute 0 "pCube1.translateX" ]} pCube1 true
          (Some 1%nat) FnDag (bind_transform (bind_dag ∅)) 1).

End Samples.

(** ** Pairs of a flat connection list *)

Module Pairing.
Import Py.

(** The consecutive pairs [(l[0], l[1]), (l[2], l[3]), ...] of a list. *)
Fixpoint pairs (l : list pyval) : list (pyval * pyval) :=
  match l with
  | a :: b :: r => (a, b) :: pairs r
  | _ => []
  end.

(** The pair [(a, b)] given out in place, and given out swapped. *)
Definition in_place (p : pyval * pyval) : pyval := VTuple [fst p; snd p].
Definition swapped (p : pyval * pyval) : pyval := VTuple [snd p; fst p].

End Pairing.

(** ** Runs of lookups *)

Module Runs.
Import Py Host Cmd Node.

(** Lookups on the [mel] proxy one after the other, each against the host
    of its moment. *)
Fixpoint mel_lookups (steps : list (host * string)) (st : mel_state)
    (log : list call) : mel_state * list call :=
  match steps with
  | [] => (st, log)
  | (h, name) :: r =>
      let '(_, st', log') := mel_lookup h name st log in
      mel_lookups r st' log'
  end.

(** [attr] calls on a node one after the other. *)
Definition attr_steps (a : api) (n : node) (calls : list (string * bool)) : node :=
  foldl (fun n c => attr_step a n (fst c) (snd c)) n calls.

(** Operations on the type registry one after the other. *)
Definition types_steps (a : api) (st : types_state) (ops : list types_op)
    : types_state :=
  foldl (types_step a) st ops.

(** The operation is a [registerClass] call for the type name [t]. *)
Definition registers (t : string) (op : types_op) : Prop :=
  match op with
  | OpRegister t' _ => t' = t
  | OpGetTypeClass _ => False
  end.

End Runs.

(** ** The methods that construction binds *)

Module Methods.

(** The attributes bound for a DAG node. *)
Definition dag_methods : list string :=
  ["getParent"; "getChildren"; "addChild"].

(** The attributes bound for a transform. *)
Definition transform_methods : list string :=
  ["getBoundingBox"; "getPivots"; "setTransformation"; "getTransformation";
   "getShape"; "getShapes"; "setMatrix"; "getMatrix"; "getTranslation";
   "setTranslation"; "setRotation"; "getRotation"; "getScale"; "setScale"].

End Methods.

(** ** The fields of a clip record, and a sample panel *)

Module Clips.
Import Py AnimClip.

(** The keys that the update handler assigns. *)
Definition clip_fields : list string :=
  ["title"; "start_frame"; "end_frame"; "enabled"; "animLayer"].

(** An exporter window with the root joint [root], an export node, and the
    template of the clip record. *)
Definition studio : collaborators :=
  {| get_root_joint := fun _ => VStr "root";
     get_export_path := fun _ => VStr "/tmp";
     get_file_name := fun _ => VStr "hero";
     export_node_get := fun _ => true;
     ANIM_CLIP_DATA :=
       <[ "end_frame" := VInt 24 ]>
       (<[ "start_frame" := VInt 1 ]>
       (<[ "enabled" := VBool true ]>
       {[ "title" := VStr "Untitled" ]}));
     get_animation_clips := fun _ _ => [];
     find_animation_clip := fun _ _ n =>
       StoredClip (Some n) (Some (VInt 1)) (Some (VInt 24)) (Some true) None;
     add_animation_clip := fun _ _ => Some "Clip";
     delete_animation_clip := fun _ _ _ => true;
     all_anim_layers_ordered := fun _ => ["Walk"; "Run"];
     show := fun _ => "" |}.

(** A row for the clip [Clip], edited to the name [Idle], frames 10 to 40,
    on the layer [Walk]. *)
Definition edited_row : AnimClipWidget :=
  ClipRow true "Clip" "Clip" "Idle" ["None"; "Walk"; "Run"] "Walk" "10" "40" true.

(** A list with one row for the clip [Clip]. *)
Definition one_clip : AnimClipsListWidget :=
  ClipsList true (VStr "root") (VStr "/tmp") (VStr "hero") true
    [ClipRow true "Clip" "Clip" "Clip" ["None"; "Walk"; "Run"] "None"
             "1" "24" true].

End Clips.

(** ** Strings *)

Module PyStr.

(** [s.split(sep)] for a separator of one character: the pieces between
    its occurrences, one more than there are occurrences. *)
Fixpoint split (sep : ascii) (s : string) : list string :=
  match s with
  | EmptyString => [EmptyString]
  | String c r =>
      if bool_decide (c = sep) then EmptyString :: split sep r
      else
        match split sep r with
        | p :: ps => String c p :: ps
        | [] => [String c EmptyString]
        end
  end.

(** [sep.join(l)] *)
Definition join (sep : ascii) (l : list string) : string :=
  String.concat (String sep EmptyString) l.

(** [c in s] for a string [c] of one character. *)
Fixpoint has_char (c : ascii) (s : string) : bool :=
  match s with
  | EmptyString => false
  | String d r => bool_decide (d = c) || has_char c r
  end.

(** [l[-1]] on the result of a [split], which is never empty. *)
Definition last_piece (l : list string) : string := List.last l EmptyString.

(** [l[:-1]] *)
Definition but_last (l : list string) : list string :=
  take (List.length l - 1) l.

(** [s.replace(c, "")] for a string [c] of one character. *)
Fixpoint remove_char (c : ascii) (s : string) : string :=
  match s with
  | EmptyString => EmptyString
  | String d r =>
      if bool_decide (d = c) then remove_char c r
      else String d (remove_char c r)
  end.

End PyStr.

(** ** More of [pymaya/cmd.py] *)

Module CmdMore.
Import Py PyOps Host Cmd PyStr.

(** No handle is left in the value: not as the value itself, and not in
    its lists, tuples, sets and dict values. *)
Fixpoint handle_free (v : pyval) : bool :=
  let fix values (d : list (pyval * pyval)) : bool :=
    match d with
    | [] => true
    | (_, x) :: r => handle_free x && values r
    end in
  match v with
  | VList l | VTuple l | VSet l => forallb handle_free l
  | VDict d => values d
  | VObj _ => false
  | _ => true
  end.

(** A list in which no element equals an earlier one. *)
Definition distinct (l : list pyval) : Prop :=
  forall i x, l !! i = Some x -> py_mem x (take i l) = false.

(** Lists and tuples of node and attribute handles, each of which binds
    back from its own name. *)
Fixpoint handles_of (bind : string -> option handle) (v : pyval) : bool :=
  match v with
  | VList l | VTuple l => forallb (handles_of bind) l
  | VObj o =>
      negb (bool_decide (h_kind o = KGeom))
      && bool_decide (bind (h_name o) = Some o)
  | _ => false
  end.

(** The number of components that [_dt_to_value] reads from an instance
    of each class. *)
Definition components (c : dt_class) : nat :=
  match c with Vector => 3 | Point => 4 | Matrix => 16 end.

(** The flags of [sets] that name a set to work with, and those that
    work on one set. *)
Definition _set_set_flags : list string :=
  ["subtract"; "sub"; "union"; "un"; "intersection"; "int";
   "isIntersecting"; "ii"; "isMember"; "im"; "split"; "sp";
   "addElement"; "add"; "include"; "in"; "remove"; "rm";
   "forceElement"; "fe"].

Definition _set_flags : list string :=
  ["copy"; "cp"; "clear"; "cl"; "flatten"; "fl"].

(** [tuple(value)], [(value,)] or [()], by the type of the flag's
    value. *)
Definition members_of (value : pyval) : list pyval :=
  match value with
  | VTuple l | VList l | VSet l => l
  | VStr _ => [value]
  | _ => []
  end.

(** The loop of [sets] over the keyword arguments, in the order of the
    call: at the first flag of one of the two kinds the positional and the
    keyword arguments are regrouped, and the loop ends. *)
Fixpoint sets_regroup (items : list (string * pyval)) (args : list pyval)
    (kwargs : gmap string pyval) : result (list pyval * gmap string pyval) :=
  match items with
  | [] => Ok (args, kwargs)
  | (flag, value) :: r =>
      if bool_decide (flag ∈ _set_set_flags) then
        a0 ← item_of args 0;
        Ok (members_of value, <[ flag := a0 ]> kwargs)
      else if bool_decide (flag ∈ _set_flags) then
        a0 ← item_of args 0;
        Ok ([], <[ flag := a0 ]> kwargs)
      else sets_regroup r args kwargs
  end.

(** A keyword argument that the loop of [sets] passes over. *)
Definition unflagged (kv : string * pyval) : Prop :=
  (fst kv ∉ _set_set_flags) /\ (fst kv ∉ _set_flags).

(** [_obj_to_name(kwargs)] on keyword arguments kept in the order of the
    call. *)
Definition _obj_to_name_items (items : list (string * pyval))
    : result (list (string * pyval)) :=
  mapR (fun kv => v' ← _obj_to_name (snd kv); Ok (fst kv, v')) items.

Definition no_replace : exc :=
  Exc AttributeError [VStr "object has no attribute 'replace'"].

(** [str(i)] for a count. *)
Definition str_of_nat (i : nat) : string :=
  DecimalString.NilZero.string_of_uint (Nat.to_uint i).

(** The names that [curve] gives to the shapes: for a single shape, and
    for the [i]-th of several. *)
Definition single_shape_name (transform_name : string) : string :=
  String.append (remove_char "|" transform_name) "Shape".

Definition indexed_shape_name (transform_name : string) (i : nat) : string :=
  remove_char "|"
    (String.append transform_name (String.append "Shape" (str_of_nat i))).

(** A [rename] call that gives a name without a path separator. *)
Definition renames_plainly (c : call) : Prop :=
  c_fn c = Cmds "rename" ->
  exists old s, c_args c = [old; VStr s] /\ has_char "|" s = false.

Section WithHost.
Context (h : host).

(** [sets]; the keyword arguments are given in the order of the call. *)
Definition sets (args : list pyval) (kwargs : list (string * pyval))
    : M pyval :=
  args ← lift (_obj_to_name_args args);
  kwargs ← lift (_obj_to_name_items kwargs);
  grouped ← lift (sets_regroup kwargs args (list_to_map kwargs));
  res ← host_call h (Cmds "sets") (fst grouped) (snd grouped);
  name_to_obj h SCOPE_NODE None res.

(** The loop of [curve] over several shapes, counting from [i]. *)
Fixpoint rename_shapes (transform_name : string) (i : nat)
    (shapes : list pyval) : M unit :=
  match shapes with
  | [] => mret tt
  | shape :: r =>
      host_call h (Cmds "rename")
        [shape; VStr (indexed_shape_name transform_name i)] ∅ ≫= λ _ : pyval,
      rename_shapes transform_name (S i) r
  end.

(** [curve] *)
Definition curve (args : list pyval) (kwargs : gmap string pyval) : M pyval :=
  curve_obj ← host_call h (Cmds "curve") args kwargs;
  found ← host_call h (Cmds "ls") [curve_obj] {[ "long" := VBool false ]};
  transform_name ← lift (py_item found 0);
  listed ← host_call h (Cmds "listRelatives") [transform_name]
             (<[ "fullPath" := VBool true ]> {[ "shapes" := VBool true ]});
  let shapes := py_or listed (VList []) in
  n ← lift (py_len shapes);
  _ ← (if bool_decide (n = 1%nat) then
         shape ← lift (py_item shapes 0);
         match transform_name with
         | VStr t =>
             _ ← host_call h (Cmds "rename")
                   [shape; VStr (single_shape_name t)] ∅;
             mret tt
         | _ => raise no_replace
         end
       else
         l ← lift (py_iter shapes);
         rename_shapes
           (match transform_name with VStr t => t | v => str_of h v end) 1 l);
  name_to_obj h SCOPE_NODE None transform_name.

(** The loop of [hasAttr] over the shapes, with its [break]. *)
Fixpoint hasAttr_shapes (attr has : pyval) (shapes : list pyval) : M pyval :=
  match shapes with
  | [] => mret has
  | s :: r =>
      host_call h (Cmds "attributeQuery") [attr]
        (<[ "ex" := VBool true ]> {[ "n" := s ]}) ≫= λ has : pyval,
      if truthy has then mret has else hasAttr_shapes attr has r
  end.

(** The elements of a list up to the first that passes a test, that one
    included: what a loop with [break] gets to see. *)
Fixpoint up_to {A : Type} (p : A -> bool) (l : list A) : list A :=
  match l with
  | [] => []
  | x :: r => if p x then [x] else x :: up_to p r
  end.

(** The query that [hasAttr] sends for the node or for one shape. *)
Definition attribute_query (attr n : pyval) : call :=
  Call (Cmds "attributeQuery") [attr]
    (<[ "ex" := VBool true ]> {[ "n" := n ]}).

(** [hasAttr] *)
Definition hasAttr (obj attr checkShape : pyval) : M pyval :=
  obj ← lift (_obj_to_name obj);
  has ← host_call h (Cmds "attributeQuery") [attr]
          (<[ "ex" := VBool true ]> {[ "n" := obj ]});
  if negb (truthy has) && truthy checkShape then
    shapes ← host_call h (Cmds "listRelatives") [obj] {[ "s" := VBool true ]};
    shapes ← lift (py_iter (py_or shapes (VList [])));
    hasAttr_shapes attr has shapes
  else mret has.

(** [isinstance(t, (int, float))] *)
Definition is_number (v : pyval) : bool :=
  match v with VBool _ | VInt _ | VFloat _ => true | _ => false end.

(** [t = kwargs.pop("time", kwargs.pop("k", None))]: the value, and the
    dict after the two pops. *)
Definition pop_time (kwargs : gmap string pyval) : pyval * gmap string pyval :=
  let k := default VNone (kwargs !! "k") in
  let kwargs := delete "k" kwargs in
  (default k (kwargs !! "time"), delete "time" kwargs).

(** The keyword arguments that [keyframe] and [cutKey] send. *)
Definition with_time (kwargs : gmap string pyval) : gmap string pyval :=
  let '(t, kwargs) := pop_time kwargs in
  if is_none t then kwargs
  else <[ "time" := if is_number t then VTuple [t] else t ]> kwargs.

(** [keyframe] *)
Definition keyframe (args : list pyval) (kwargs : gmap string pyval) : M pyval :=
  args ← lift (_obj_to_name_args args);
  kwargs ← lift (_obj_to_name_kwargs kwargs);
  host_call h (Cmds "keyframe") args (with_time kwargs).

(** [cutKey] *)
Definition cutKey (args : list pyval) (kwargs : gmap string pyval) : M pyval :=
  nargs ← lift (_obj_to_name_args args);
  nkwargs ← lift (_obj_to_name_kwargs kwargs);
  host_call h (Cmds "cutKey") nargs (with_time nkwargs).

(** A [for] loop whose body calls the host. *)
Fixpoint forM {A : Type} (l : list A) (body : A -> M unit) : M unit :=
  match l with
  | [] => mret tt
  | x :: r => body x ≫= λ _ : unit, forM r body
  end.

(** The keyword arguments of the two queries of [disconnectAttr]. *)
Definition plugs_of_side (source : bool) : gmap string pyval :=
  <[ "c" := VBool true ]>
  (<[ "p" := VBool true ]>
  (<[ "d" := VBool (negb source) ]> {[ "s" := VBool source ]})).

(** [disconnectAttr] *)
Definition disconnectAttr (args : list pyval) (kwargs : gmap string pyval)
    : M unit :=
  args ← lift (_obj_to_name_args args);
  kwargs ← lift (_obj_to_name_kwargs kwargs);
  match args with
  | [a] =>
      c ← host_call h (Cmds "listConnections") [a] (plugs_of_side true);
      let cons := py_or c (VList []) in
      n ← lift (py_len cons);
      _ ← forM (range_step n 2) (fun i =>
             x ← lift (py_item cons (i + 1));
             y ← lift (py_item cons i);
             _ ← host_call h (Cmds "disconnectAttr") [x; y] kwargs;
             mret tt);
      c ← host_call h (Cmds "listConnections") [a] (plugs_of_side false);
      let cons := py_or c (VList []) in
      n ← lift (py_len cons);
      forM (range_step n 2) (fun i =>
        x ← lift (py_item cons i);
        y ← lift (py_item cons (i + 1));
        _ ← host_call h (Cmds "disconnectAttr") [x; y] kwargs;
        mret tt)
  | _ =>
      _ ← host_call h (Cmds "disconnectAttr") args kwargs;
      mret tt
  end.

End WithHost.

End CmdMore.

(** ** More of [pymaya/node.py] *)

Module NodeMore.
Import Py PyOps Host Node PyStr.

(** *** Names *)

(** [_Node.namespace], of the node's [name()]: the second definition in
    the class, which replaces the first. *)
Definition namespace (name : string) : string :=
  let nss := but_last (split ":" (last_piece (split "|" name))) in
  match nss with
  | [] => EmptyString
  | _ => String.append (join ":" nss) ":"
  end.

(** [_Node.stripNamespace], of the node's [name()]. *)
Definition stripNamespace (name : string) : string :=
  join "|" ((fun x => last_piece (split ":" x)) <$> split "|" name).

(** *** Names with an index *)

(** A string of decimal digits. *)
Fixpoint all_digits (s : string) : bool :=
  match s with
  | EmptyString => true
  | String c r => is_digit c && all_digits r
  end.

(** [base + "[" + d + "]" + rest] *)
Definition indexed_name (base d rest : string) : string :=
  String.append base (String "[" (String.append d (String "]" rest))).

(** *** [_getParent] for [generations] other than 1 *)




(** *** Shapes *)

(** [_getShapes]: [cmd.listRelatives] is the wrapper that the module
    [cmd] installs for the command. *)
Definition _getShapes (h : host) (node : pyval) (kwargs : gmap string pyval)
    : M pyval :=
  let kwargs := delete "shapes" (delete "s" kwargs) in
  let kwargs := <[ "shapes" := VBool true ]> kwargs in
  Cmd.module_wrapper h "listRelatives" [node] kwargs.

(** [_getShape], with [node.getShapes] as [__init__] binds it. *)
Definition _getShape (h : host) (node : pyval) (kwargs : gmap string pyval)
    : M pyval :=
  shapes ← _getShapes h node kwargs;
  if truthy shapes then lift (py_item shapes 0) else mret VNone.

(** *** [_NodeTypes.__getattribute__] *)

(** [c.lower()] for an ASCII character. *)
Definition lower (c : ascii) : ascii :=
  let n := nat_of_ascii c in
  if (65 <=? n)%nat && (n <=? 90)%nat then ascii_of_nat (n + 32) else c.

(** Names that ordinary lookup finds on the registry: on the instance, on
    the class or on [object]. *)
Definition registry_attrs : list string :=
  ["_NodeTypes__types"; "_NodeTypes__Instance"; "__new__"; "registerClass";
   "getTypeClass"; "__getattribute__"; "__init__"; "__module__"; "__dict__";
   "__weakref__"; "__doc__"].

Definition registry_ordinary (name : string) : bool :=
  bool_decide (name ∈ registry_attrs ++ Cmd.object_attrs).

Inductive registry_attr :=
| Plain (name : string)
| Class (c : pyclass).

Definition no_registry_attribute (name : string) : exc :=
  Exc AttributeError
      [VStr (String.append "'_NodeTypes' object has no attribute '"
               (String.append name "'"))].

(** [_NodeTypes.__getattribute__] *)
Definition _NodeTypes_getattribute (a : api) (name : string) (st : types_state)
    : result (registry_attr * types_state) :=
  if registry_ordinary name then Ok (Plain name, st)
  else
    match name with
    | EmptyString => Raise empty_typename
    | String c r =>
        '(tcls, st') ← getTypeClass a (String (lower c) r) st;
        match tcls with
        | Some cls => Ok (Class cls, st')
        | None => Raise (no_registry_attribute name)
        end
    end.

End NodeMore.

(** ** More of [shifter/game_tools_fbx/anim_clip_widgets.py] *)

Module AnimClipMore.
Import Py PyOps Host AnimClip.

Definition no_root_joint_attribute : exc :=
  Exc AttributeError
      [VStr "'AnimClipWidget' object has no attribute '_root_joint'"].

Section WithCollaborators.
Context (c : collaborators).

(** [AnimClipWidget._on_delete_button_clicked]: true when the row takes
    itself out of its parent ([setParent(None)], [deleteLater()]). *)
Definition _on_delete_button_clicked (w : AnimClipWidget) : E bool :=
  log ← get_log;
  if negb (export_node_get c log) then mret false
  else
    let root_joint := if _fbx_exporter w then get_root_joint c log else VNone in
    if negb (truthy root_joint) then mret false
    else
      _ ← tell (DeleteAnimationClip root_joint (_clip_name w));
      mret true.

(** [AnimClipWidget._on_delete_anim_clip], the [Delete] entry of the
    context menu.  The row has no attribute [_root_joint]: [__init__] and
    [create_layout] set none, and the arguments of the call are evaluated
    before the call. *)
Definition _on_delete_anim_clip (w : AnimClipWidget) : E bool :=
  log ← get_log;
  if negb (export_node_get c log) then mret false
  else raise no_root_joint_attribute.

(** The loop of [_on_toggled_anim_clips_checkbox] over the rows. *)
Fixpoint set_enabled_rows (flag : bool) (rows : list AnimClipWidget)
    : E (list AnimClipWidget) :=
  match rows with
  | [] => mret []
  | w :: r =>
      set_enabled c flag w ≫= λ w' : AnimClipWidget,
      set_enabled_rows flag r ≫= λ r' : list AnimClipWidget,
      mret (w' :: r')
  end.

(** [AnimClipsListWidget._on_toggled_anim_clips_checkbox] *)
Definition _on_toggled_anim_clips_checkbox (flag : bool)
    (lw : AnimClipsListWidget) : E AnimClipsListWidget :=
  rows ← set_enabled_rows flag (_clips_layout lw);
  mret (with_rows lw rows).

End WithCollaborators.

(** The clips of the export node that get a row: those with a title that
    is not empty. *)
Definition titled (clips : list stored_clip) : list string :=
  omap (fun d => match sc_title d with
                 | Some n => if bool_decide (n = "") then None else Some n
                 | None => None
                 end) clips.

(** The value of a decimal numeral, read digit by digit from [acc]. *)
Fixpoint uint_value (d : Decimal.uint) (acc : Z) : Z :=
  match d with
  | Decimal.Nil => acc
  | Decimal.D0 l => uint_value l (10 * acc)
  | Decimal.D1 l => uint_value l (10 * acc + 1)
  | Decimal.D2 l => uint_value l (10 * acc + 2)
  | Decimal.D3 l => uint_value l (10 * acc + 3)
  | Decimal.D4 l => uint_value l (10 * acc + 4)
  | Decimal.D5 l => uint_value l (10 * acc + 5)
  | Decimal.D6 l => uint_value l (10 * acc + 6)
  | Decimal.D7 l => uint_value l (10 * acc + 7)
  | Decimal.D8 l => uint_value l (10 * acc + 8)
  | Decimal.D9 l => uint_value l (10 * acc + 9)
  end.

(** An update of a clip on the export node. *)
Definition is_update (e : ecall) : bool :=
  match e with UpdateAnimationClip _ _ _ => true | _ => false end.

End AnimClipMore.

(** ** Well-formed states *)

Module Invariants.
Import Py Host Cmd.

(** What holds of the cache of the [mel] proxy in every state it can be
    in: a cached function calls the command or the procedure of the name
    it is cached under, never re-wrapping results; it was built before
    the count of the state; no two names share a function; and no name
    that ordinary lookup finds is in the cache. *)
Definition mel_wf (st : mel_state) : Prop :=
  (forall name f, mel_cmds st !! name = Some f ->
     (fn_id f < mel_built st)%nat
     /\ (fn_body f = CmdWrap name false SCOPE_NODE \/ fn_body f = MelProc name)
     /\ ordinary_attr name = false)
  /\ (forall n1 n2 f1 f2,
        mel_cmds st !! n1 = Some f1 -> mel_cmds st !! n2 = Some f2 ->
        fn_id f1 = fn_id f2 -> n1 = n2).

End Invariants.

(** ** More sample scenes *)

Module MoreSamples.
Import Py PyOps Host Cmd.

(** The faces of a cube, as a geometry handle. *)
Definition cube_faces : handle :=
  Handle KGeom "pCube1.f[0:5]" ["pCube1.f[0:5]"].

Definition pCube1_handle : handle := Handle KNode "pCube1" [].
Definition pCube1_tx : handle := Handle KAttr "pCube1.tx" [].

(** [bind.PyNode] in a scene with [pCube1] and its [tx]. *)
Definition cube_bind (s : string) : option handle :=
  if bool_decide (s = "pCube1") then Some pCube1_handle
  else if bool_decide (s = "pCube1.tx") then Some pCube1_tx
  else None.

(** A scene in which [pCube1.t] is a [double3] at (1, 2, 3): the value
    query answers a list of one tuple, the type query the type's name. *)
Definition translate_scene : host :=
  Samples.quiet (fun _ c =>
    match c_kwargs c !! "type" with
    | Some _ => Ok (VStr "double3")
    | None => Ok (VList [VTuple [VInt 1; VInt 2; VInt 3]])
    end).

(** A transform [pCube1] with the shapes [pCubeShape1] and
    [pCubeShape1Orig]; only [pCubeShape1] has the attribute asked for. *)
Definition shapes_scene : host :=
  Samples.quiet (fun _ c =>
    match c_kwargs c !! "n" with
    | Some (VStr n) => Ok (VBool (bool_decide (n = "pCubeShape1")))
    | _ => Ok (VList [VStr "pCubeShape1"; VStr "pCubeShape1Orig"])
    end).

(** A scene in which [pCube1.tx] is driven by [anim.output] and drives
    [cond.firstTerm]: [listConnections] with plugs and connections, by the
    side asked for. *)
Definition driven_scene : host :=
  Samples.quiet (fun _ c =>
    match c_kwargs c !! "s" with
    | Some (VBool true) => Ok (VList [VStr "pCube1.tx"; VStr "anim.output"])
    | Some _ => Ok (VList [VStr "pCube1.tx"; VStr "cond.firstTerm"])
    | None => Ok VNone
    end).


(** A skin cluster whose [weightList] plug has elements. *)
Definition skin_api : Node.api :=
  {| Node.select := fun _ _ => Raise Samples.no_such_node;
     Node.findPlug := fun _ p =>
       if bool_decide (p = "weightList") then Some "skinCluster1.weightList"
       else None;
     Node.first_shape := fun _ => Ok None;
     Node.plug_element := fun p i =>
       Ok (String.append p
             (if bool_decide (i = 12%nat) then "[12]" else "[?]"));
     Node.all_node_types := ["skinCluster"; "locator"] |}.

Definition skinCluster1 : Node.node :=
  Node.MkNode ∅ (Node.MObj 7 [Node.kDependencyNode] "skinCluster1") false None
    Node.FnDg ∅ 0.

(** A scene in which [curve] makes [|grp|curve1] with the one shape
    [|grp|curve1|curveShape1]. *)
Definition curve_scene : host :=
  Samples.quiet (fun _ c =>
    match c_kwargs c !! "shapes" with
    | Some _ => Ok (VList [VStr "|grp|curve1|curveShape1"])
    | None =>
        match c_kwargs c !! "long" with
        | Some _ => Ok (VList [VStr "|grp|curve1"])
        | None => Ok (VStr "curve1")
        end
    end).

End MoreSamples.

(** * Properties *)

Import Py PyOps Host Cmd Shape.

(** ** Running the monad *)

Lemma bind_ok {L A B : Type} (m : Eff L A) (k : A -> Eff L B)
    (log log' : list L) (a : A) :
  m log = (Ok a, log') -> (m ≫= k) log = k a log'.
Proof. intros H. unfold mbind, Eff_bind. now rewrite H. Qed.

Ltac run_eff :=
  unfold mbind, mret, Eff_bind, Eff_ret, lift, raise, try_except, host_call,
    get_log in *; cbn [fst snd] in *.

(** ** Induction on values *)

Lemma pyval_nested_ind (P : pyval -> Prop) :
  P VNone ->
  (forall b, P (VBool b)) ->
  (forall n, P (VInt n)) ->
  (forall b, P (VFloat b)) ->
  (forall s, P (VStr s)) ->
  (forall l, Forall P l -> P (VList l)) ->
  (forall l, Forall P l -> P (VTuple l)) ->
  (forall l, Forall P l -> P (VSet l)) ->
  (forall d, Forall (fun kv => P (snd kv)) d -> P (VDict d)) ->
  (forall o, P (VObj o)) ->
  (forall c l, P (VData c l)) ->
  forall v, P v.
Proof.
  intros HN HB HI HF HS HL HT HSet HD HO HDt.
  fix IH 1. intros v.
  pose (all := fix all (l : list pyval) : Forall P l :=
          match l with
          | [] => List.Forall_nil P
          | x :: r => List.Forall_cons P x r (IH x) (all r)
          end).
  destruct v as [| b | n | b | s | l | l | l | d | o | c l].
  - exact HN.
  - apply HB.
  - apply HI.
  - apply HF.
  - apply HS.
  - apply HL, all.
  - apply HT, all.
  - apply HSet, all.
  - apply HD.
    exact ((fix alld (d : list (pyval * pyval))
              : Forall (fun kv => P (snd kv)) d :=
              match d with
              | [] => List.Forall_nil _
              | (k, x) :: r => List.Forall_cons _ (k, x) r (IH x) (alld r)
              end) d).
  - apply HO.
  - apply HDt.
Qed.

(** ** Comprehensions that may raise *)

Lemma mapR_ok_Forall2 {A B : Type} (f : A -> result B) (l : list A)
    (l' : list B) :
  mapR f l = Ok l' <-> Forall2 (fun x y => f x = Ok y) l l'.
Proof.
  revert l'. induction l as [| x r IH]; intros l'; cbn.
  - split.
    + intros [= <-]. constructor.
    + intros H. inversion H. reflexivity.
  - split.
    + destruct (f x) as [y | e] eqn:Hx; cbn; [| discriminate].
      destruct (mapR f r) as [ys | e] eqn:Hr; cbn; [| discriminate].
      intros [= <-]. constructor; [exact Hx |]. now apply IH.
    + intros H. inversion H as [| x0 y r0 ys Hx Hr]; subst.
      rewrite Hx. cbn. apply IH in Hr. rewrite Hr. reflexivity.
Qed.

Lemma mapR_total {A B : Type} (f : A -> result B) (Q : B -> Prop)
    (l : list A) :
  Forall (fun x => exists y, f x = Ok y /\ Q y) l ->
  exists l', mapR f l = Ok l' /\ Forall Q l'.
Proof.
  induction 1 as [| x r (y & Hx & Hq) _ (ys & Hr & Hqs)]; cbn.
  - exists []. split; [reflexivity | constructor].
  - exists (y :: ys). rewrite Hx. cbn. rewrite Hr. cbn.
    split; [reflexivity | now constructor].
Qed.

(** ** The re-wrapping step *)



Section Rewrap.
Context (bind : string -> option handle) (str_of : pyval -> string)
        (sc : scope) (known_node : option pyval).

Local Abbreviation rewrap := (_name_to_obj bind str_of sc known_node).
Local Abbreviation binds := (fun s => bind (bound_name str_of sc known_node s)).

Lemma fmap_result_ok {A B : Type} (f : A -> B) (r : result A) (b : B) :
  f <$> r = Ok b -> exists a, r = Ok a /\ b = f a.
Proof. destruct r as [a | e]; cbn; [| discriminate]. intros [= <-]. eauto. Qed.

Lemma Forall2_rewrap_rewraps (l l' : list pyval) :
  Forall (fun v => forall v', rewrap v = Ok v' -> rewraps binds v v') l ->
  mapR rewrap l = Ok l' ->
  Forall2 (rewraps binds) l l'.
Proof.
  intros HF HM. apply mapR_ok_Forall2 in HM.
  induction HM as [| x y r ys Hxy _ IH]; [constructor |].
  inversion HF; subst. constructor; auto.
Qed.

(** What [_name_to_obj] returns is a re-wrapping in the sense of
    [rewraps]. *)
Lemma name_to_obj_rewraps (v v' : pyval) :
  rewrap v = Ok v' -> rewraps binds v v'.
Proof.
  revert v'. induction v using pyval_nested_ind; intros v' Hv; cbn in Hv;
    try (injection Hv as <-; now constructor).
  - destruct (bind _) as [o |] eqn:Hb; injection Hv as <-.
    + now constructor.
    + now constructor.
  - apply fmap_result_ok in Hv as (l' & Hl & ->).
    constructor. eapply Forall2_rewrap_rewraps; eauto.
  - apply fmap_result_ok in Hv as (l' & Hl & ->).
    constructor. eapply Forall2_rewrap_rewraps; eauto.
  - destruct (mapR rewrap l) as [l' | e] eqn:Hl; cbn in Hv; [| discriminate].
    unfold py_set in Hv. destruct (forallb hashable l'); [| discriminate].
    injection Hv as <-. constructor. eapply Forall2_rewrap_rewraps; eauto.
Qed.

Lemma hashable_rewrap (v : pyval) :
  hashable v = true -> exists v', rewrap v = Ok v' /\ hashable v' = true.
Proof.
  induction v using pyval_nested_ind; cbn; intros Hh; try discriminate;
    try (eexists; split; [reflexivity | reflexivity]).
  - destruct (bind _); eexists; split; reflexivity.
  - destruct (mapR_total rewrap (fun y => hashable y = true) l) as (l' & Hl & Hq).
    { rewrite Forall_forall in H. apply Forall_forall. intros x Hx.
      apply H; [exact Hx |].
      rewrite forallb_forall in Hh. apply Hh. now apply list_elem_of_In. }
    rewrite Hl. cbn. eexists; split; [reflexivity |].
    cbn. apply forallb_forall. intros x Hx.
    rewrite Forall_forall in Hq. apply Hq. now apply list_elem_of_In.
Qed.

(** [_name_to_obj] returns on every value whose sets are well formed. *)
Lemma name_to_obj_total (v : pyval) :
  sets_hashable v = true -> exists v', rewrap v = Ok v'.
Proof.
  induction v using pyval_nested_ind; cbn; intros Hs;
    try (eexists; reflexivity).
  - destruct (bind _); eexists; reflexivity.
  - destruct (mapR_total rewrap (fun _ => True) l) as (l' & Hl & _).
    { rewrite Forall_forall in H. apply Forall_forall. intros x Hx.
      rewrite forallb_forall in Hs.
      destruct (H x Hx) as (y & Hy); [apply Hs; now apply list_elem_of_In |].
      eauto. }
    rewrite Hl. eexists; reflexivity.
  - destruct (mapR_total rewrap (fun _ => True) l) as (l' & Hl & _).
    { rewrite Forall_forall in H. apply Forall_forall. intros x Hx.
      rewrite forallb_forall in Hs.
      destruct (H x Hx) as (y & Hy); [apply Hs; now apply list_elem_of_In |].
      eauto. }
    rewrite Hl. eexists; reflexivity.
  - destruct (mapR_total rewrap (fun y => hashable y = true) l) as (l' & Hl & Hq).
    { apply Forall_forall. intros x Hx. apply hashable_rewrap.
      rewrite forallb_forall in Hs. apply Hs. now apply list_elem_of_In. }
    rewrite Hl. cbn. unfold py_set.
    replace (forallb hashable l') with true; [eexists; reflexivity |].
    symmetry. apply forallb_forall. intros x Hx.
    rewrite Forall_forall in Hq. apply Hq. now apply list_elem_of_In.
Qed.

End Rewrap.

(** ** What [_obj_to_name] gives back *)

Lemma py_dedup_subset (acc l : list pyval) (P : pyval -> Prop) :
  Forall P acc -> Forall P l -> Forall P (py_dedup acc l).
Proof.
  revert acc. induction l as [| x r IH]; intros acc Ha Hl; cbn; [exact Ha |].
  inversion Hl; subst.
  destruct (py_mem x acc); apply IH; auto.
  apply Forall_app. split; [exact Ha | now constructor].
Qed.

Lemma py_set_sets_hashable (l : list pyval) (v : pyval) :
  py_set l = Ok v -> sets_hashable v = true.
Proof.
  unfold py_set. destruct (forallb hashable l) eqn:Hh; [| discriminate].
  intros [= <-]. cbn. apply forallb_forall. intros x Hx.
  assert (HF : Forall (fun y => hashable y = true) (py_dedup [] l)).
  { apply py_dedup_subset; [constructor |].
    apply Forall_forall. intros y Hy. rewrite forallb_forall in Hh.
    apply Hh. now apply list_elem_of_In. }
  rewrite Forall_forall in HF. apply HF. now apply list_elem_of_In.
Qed.

Lemma mapR_sets_hashable (f : pyval -> result pyval) (l l' : list pyval) :
  Forall (fun v => forall v', f v = Ok v' -> sets_hashable v' = true) l ->
  mapR f l = Ok l' ->
  forallb sets_hashable l' = true.
Proof.
  intros HF HM. apply mapR_ok_Forall2 in HM.
  induction HM as [| x y r ys Hxy _ IH]; [reflexivity |].
  inversion HF; subst. cbn. rewrite (H1 _ Hxy). cbn. now apply IH.
Qed.

(** The sets in a value that [_obj_to_name] returns are well formed. *)
Lemma obj_to_name_sets_hashable (v v' : pyval) :
  _obj_to_name v = Ok v' -> sets_hashable v' = true.
Proof.
  revert v'. induction v using pyval_nested_ind; intros v' Hv; cbn in Hv;
    try (injection Hv as <-; reflexivity).
  - apply fmap_result_ok in Hv as (l' & Hl & ->). cbn.
    eapply mapR_sets_hashable; eauto.
  - apply fmap_result_ok in Hv as (l' & Hl & ->). cbn.
    eapply mapR_sets_hashable; eauto.
  - destruct (mapR _obj_to_name l) as [l' | e]; cbn in Hv; [| discriminate].
    eapply py_set_sets_hashable; eauto.
  - apply fmap_result_ok in Hv as (d' & _ & ->). reflexivity.
  - destruct (h_kind o); injection Hv as <-; cbn; try reflexivity.
    induction (h_strings o); cbn; auto.
Qed.

Lemma obj_to_name_args_sets_hashable (args args' : list pyval) :
  _obj_to_name_args args = Ok args' -> forallb sets_hashable args' = true.
Proof.
  unfold _obj_to_name_args. apply mapR_sets_hashable.
  apply Forall_forall. intros x _ v'. apply obj_to_name_sets_hashable.
Qed.

(** ** The wrapper's [known_node] *)

(** On converted arguments the search for [known_node] returns; it makes
    no call but, for an empty argument list, the selection query. *)
Lemma wrapper_known_node_returns (h : host) (args : list pyval)
    (log : list call) :
  forallb sets_hashable args = true ->
  exists kn log', wrapper_known_node h args log = (Ok kn, log').
Proof.
  intros Hs. unfold wrapper_known_node.
  destruct args as [| a r].
  - unfold ls_selected, name_to_obj. run_eff.
    destruct (selection h log) as [| s sel]; cbn; [eauto |].
    destruct (PyNode h _ s); cbn; eauto.
  - cbn in Hs. apply andb_true_iff in Hs as [Ha _].
    unfold name_to_obj. run_eff. cbn.
    destruct (name_to_obj_total (PyNode h log) (str_of h) SCOPE_NODE None a Ha)
      as (o & Ho).
    rewrite Ho. eauto.
Qed.

(** ** Errors of the host *)

(** The forwarded call of [getAttr] raises: the wrapper raises
    [MayaAttributeError] with the same arguments, after that one call. *)
Lemma getAttr_translates (h : host) (args args' : list pyval)
    (kwargs kwargs' : gmap string pyval) (log : list call) (e : exc) :
  _obj_to_name_args args = Ok args' ->
  _obj_to_name_kwargs kwargs = Ok kwargs' ->
  respond h log (Call (Cmds "getAttr") args' kwargs') = Raise e ->
  getAttr h args kwargs log
  = (Raise (Exc MayaAttributeError (exc_args e)),
     log ++ [Call (Cmds "getAttr") args' kwargs']).
Proof.
  intros Ha Hk Hr. unfold getAttr. rewrite Ha, Hk. run_eff.
  rewrite Hr. reflexivity.
Qed.

(** The same for [setAttr]. *)
Lemma setAttr_translates (h : host) (args args1 args2 : list pyval)
    (kwargs kwargs' : gmap string pyval) (log : list call) (e : exc) :
  _obj_to_name_args args = Ok args1 ->
  _dt_to_value_args args1 = Ok args2 ->
  _obj_to_name_kwargs kwargs = Ok kwargs' ->
  let fargs := flatten_args args2 in
  let sent := if string_type_wanted fargs kwargs'
              then <[ "type" := VStr "string" ]> kwargs' else kwargs' in
  respond h log (Call (Cmds "setAttr") fargs sent) = Raise e ->
  setAttr h args kwargs log
  = (Raise (Exc MayaAttributeError (exc_args e)),
     log ++ [Call (Cmds "setAttr") fargs sent]).
Proof.
  intros Ha Hd Hk fargs sent Hr. unfold setAttr. rewrite Ha. run_eff.
  rewrite Hd, Hk. fold fargs. fold sent. rewrite Hr. reflexivity.
Qed.

(** A name that selects no object: [__init__] raises [MayaNodeError]
    after the one attempt. *)
Lemma Node_init_no_such_node (a : Node.api) (nodename : string)
    (log : list call) (e : exc) :
  Node.select a log nodename = Raise e ->
  exc_cls e = RuntimeError ->
  Node._Node_init a (inl nodename) log
  = (Raise (Exc MayaNodeError [VStr (Node.quoted "No such node " nodename)]),
     log ++ [Call SelectionAdd [VStr nodename] ∅]).
Proof.
  intros Hs Hc.
  unfold Node._Node_init, Node.init_object, Node.getObjectFromName,
    Node.selection_add.
  run_eff. rewrite Hs, Hc. reflexivity.
Qed.

(** ** Errors are translated (C1) *)

(** C1, as the code has it: when the forwarded host call of [getAttr]
    ([cmds.getAttr( *args, **kwargs )]) or of [setAttr]
    ([cmds.setAttr( *fargs, **kwargs )]) raises, the wrapper raises
    [exception.MayaAttributeError] with the host error's arguments; a node
    handle built from a name that selects no scene object raises
    [exception.MayaNodeError]; and in each of the three error branches the
    failing call is the last one made, so nothing is retried or recovered. *)
Theorem C1_host_errors_translated (h : host) (a : Node.api) (log : list call) :
  (forall args args' kwargs kwargs' e,
      _obj_to_name_args args = Ok args' ->
      _obj_to_name_kwargs kwargs = Ok kwargs' ->
      respond h log (Call (Cmds "getAttr") args' kwargs') = Raise e ->
      getAttr h args kwargs log
      = (Raise (Exc MayaAttributeError (exc_args e)),
         log ++ [Call (Cmds "getAttr") args' kwargs']))
  /\ (forall args args1 args2 kwargs kwargs' e,
      _obj_to_name_args args = Ok args1 ->
      _dt_to_value_args args1 = Ok args2 ->
      _obj_to_name_kwargs kwargs = Ok kwargs' ->
      respond h log
        (Call (Cmds "setAttr") (flatten_args args2)
           (if string_type_wanted (flatten_args args2) kwargs'
            then <[ "type" := VStr "string" ]> kwargs' else kwargs')) = Raise e ->
      setAttr h args kwargs log
      = (Raise (Exc MayaAttributeError (exc_args e)),
         log ++ [Call (Cmds "setAttr") (flatten_args args2)
                   (if string_type_wanted (flatten_args args2) kwargs'
                    then <[ "type" := VStr "string" ]> kwargs' else kwargs')]))
  /\ (forall nodename e,
      Node.select a log nodename = Raise e ->
      exc_cls e = RuntimeError ->
      Node._Node_init a (inl nodename) log
      = (Raise (Exc MayaNodeError [VStr (Node.quoted "No such node " nodename)]),
         log ++ [Call SelectionAdd [VStr nodename] ∅])).
Proof.
  split; [| split].
  - intros. now apply getAttr_translates.
  - intros args args1 args2 kwargs kwargs' e H1 H2 H3 H4.
    now apply (setAttr_translates h args args1 args2 kwargs kwargs' log e).
  - intros nodename e Hs Hc.
    now apply (Node_init_no_such_node a nodename log e).
Qed.

Lemma C1_witness :
  getAttr Samples.failing_host [VStr "pCube1.tx"] ∅ []
  = (Raise (Exc MayaAttributeError [VStr "No object matches name: pCube1.tx"]),
     [Call (Cmds "getAttr") [VStr "pCube1.tx"] ∅])
  /\ setAttr Samples.failing_host [VStr "pCube1.tx"; VInt 3] ∅ []
     = (Raise (Exc MayaAttributeError [VStr "No object matches name: pCube1.tx"]),
        [Call (Cmds "setAttr") [VStr "pCube1.tx"; VInt 3] ∅])
  /\ Node._Node_init Samples.empty_scene (inl "ghost") []
     = (Raise (Exc MayaNodeError [VStr "No such node 'ghost'"]),
        [Call SelectionAdd [VStr "ghost"] ∅]).
Proof.
  destruct (C1_host_errors_translated Samples.failing_host Samples.empty_scene [])
    as (G & S & N).
  split; [| split].
  - apply (G [VStr "pCube1.tx"] [VStr "pCube1.tx"] ∅ ∅ Samples.no_such_attribute);
      vm_compute; reflexivity.
  - apply (S [VStr "pCube1.tx"; VInt 3] [VStr "pCube1.tx"; VInt 3]
             [VStr "pCube1.tx"; VInt 3] ∅ ∅ Samples.no_such_attribute);
      vm_compute; reflexivity.
  - apply (N "ghost" Samples.no_such_node); vm_compute; reflexivity.
Defined.

(** C1 as stated fails: the host answers the value query of [getAttr] with
    a list and raises on the type query that follows, and the wrapper lets
    that [RuntimeError] through as it is. *)
Lemma C1_counterexample :
  respond Samples.type_query_fails
    [Call (Cmds "getAttr") [VStr "pCube1.translate"] ∅]
    (Call (Cmds "getAttr") [VStr "pCube1.translate"] {[ "type" := VBool true ]})
  = Raise Samples.bad_type_query
  /\ getAttr Samples.type_query_fails [VStr "pCube1.translate"] ∅ []
     = (Raise Samples.bad_type_query,
        [Call (Cmds "getAttr") [VStr "pCube1.translate"] ∅;
         Call (Cmds "getAttr") [VStr "pCube1.translate"] {[ "type" := VBool true ]}])
  /\ exc_cls Samples.bad_type_query <> MayaAttributeError.
Proof.
  split; [| split].
  - vm_compute. reflexivity.
  - vm_compute. reflexivity.
  - discriminate.
Qed.

(** ** List commands and [None] (C2) *)

Lemma constraint_result_none (func : string) (kwargs : gmap string pyval) :
  constraint_result func kwargs VNone = Ok VNone.
Proof. unfold constraint_result. now destruct (_ && _). Qed.

Lemma wrapper_list_none (h : host) (func : string) (wrap_object : bool)
    (sc : scope) (args args' : list pyval) (kwargs kwargs' : gmap string pyval)
    (log : list call) :
  startswith "list" func = true ->
  _obj_to_name_args args = Ok args' ->
  _obj_to_name_kwargs kwargs = Ok kwargs' ->
  respond h log (Call (Cmds func) args' kwargs') = Ok VNone ->
  fst (_pymaya_cmd_wrap h func wrap_object sc args kwargs log) = Ok (VList []).
Proof.
  intros Hl Ha Hk Hr. unfold _pymaya_cmd_wrap. rewrite Ha, Hk. run_eff.
  rewrite Hr, constraint_result_none.
  unfold list_result. rewrite Hl. cbn [is_none andb].
  destruct wrap_object; [| reflexivity].
  destruct sc; [| reflexivity].
  destruct (wrapper_known_node_returns h args' (log ++ [Call (Cmds func) args' kwargs']))
    as (kn & log' & Hkn).
  { eapply obj_to_name_args_sets_hashable; eauto. }
  rewrite Hkn. reflexivity.
Qed.

Lemma listHistory_none (h : host) (args args' : list pyval)
    (type exactType : pyval) (kwargs kwargs' : gmap string pyval)
    (log : list call) :
  _obj_to_name_args args = Ok args' ->
  _obj_to_name_kwargs kwargs = Ok kwargs' ->
  respond h log (Call (Cmds "listHistory") args' kwargs') = Ok VNone ->
  fst (listHistory h args type exactType kwargs log) = Ok (VList []).
Proof.
  intros Ha Hk Hr. unfold listHistory. rewrite Ha, Hk. run_eff. rewrite Hr.
  cbn. destruct (truthy exactType); [reflexivity |].
  destruct (truthy type); reflexivity.
Qed.

Lemma listConnections_none (h : host) (args args' : list pyval)
    (sourceFirst : pyval) (kwargs kwargs' : gmap string pyval)
    (log : list call) :
  truthy sourceFirst = false ->
  _obj_to_name_args args = Ok args' ->
  _obj_to_name_kwargs kwargs = Ok kwargs' ->
  respond h log (Call (Cmds "listConnections") args' kwargs') = Ok VNone ->
  fst (listConnections h args sourceFirst kwargs log) = Ok (VList []).
Proof.
  intros Hs Ha Hk Hr. unfold listConnections. rewrite Ha, Hk, Hs. run_eff.
  rewrite Hr. reflexivity.
Qed.

Lemma listConnections_sourceFirst_none (h : host) (args args' : list pyval)
    (sourceFirst : pyval) (kwargs kwargs' : gmap string pyval)
    (log : list call) :
  truthy sourceFirst = true ->
  _obj_to_name_args args = Ok args' ->
  _obj_to_name_kwargs kwargs = Ok kwargs' ->
  respond h log
    (Call (Cmds "listConnections") args' (source_side_kwargs kwargs')) = Ok VNone ->
  respond h
    (log ++ [Call (Cmds "listConnections") args' (source_side_kwargs kwargs')])
    (Call (Cmds "listConnections") args'
       (destination_side_kwargs (source_side_kwargs kwargs'))) = Ok VNone ->
  fst (listConnections h args sourceFirst kwargs log) = Ok (VList []).
Proof.
  intros Hs Ha Hk Hr1 Hr2. unfold listConnections. rewrite Ha, Hk, Hs. run_eff.
  rewrite Hr1. cbn. rewrite Hr2. reflexivity.
Qed.

(** C2: a wrapped host command whose name starts with ["list"] gives an
    empty list when the host returns [None] (whatever [wrap_object] and
    the scope are, so also through the [mel] proxy), and [listHistory] and
    [listConnections] give an empty list when the host returns [None]
    (for [listConnections] with [sourceFirst], when both queries do). *)
Theorem C2_list_none_normalised (h : host) (args args' : list pyval)
    (kwargs kwargs' : gmap string pyval) (log : list call) :
  _obj_to_name_args args = Ok args' ->
  _obj_to_name_kwargs kwargs = Ok kwargs' ->
  (forall func wrap_object sc,
      startswith "list" func = true ->
      respond h log (Call (Cmds func) args' kwargs') = Ok VNone ->
      fst (_pymaya_cmd_wrap h func wrap_object sc args kwargs log) = Ok (VList []))
  /\ (forall type exactType,
      respond h log (Call (Cmds "listHistory") args' kwargs') = Ok VNone ->
      fst (listHistory h args type exactType kwargs log) = Ok (VList []))
  /\ (forall sourceFirst,
      truthy sourceFirst = false ->
      respond h log (Call (Cmds "listConnections") args' kwargs') = Ok VNone ->
      fst (listConnections h args sourceFirst kwargs log) = Ok (VList []))
  /\ (forall sourceFirst,
      truthy sourceFirst = true ->
      respond h log
        (Call (Cmds "listConnections") args' (source_side_kwargs kwargs'))
      = Ok VNone ->
      respond h
        (log ++ [Call (Cmds "listConnections") args' (source_side_kwargs kwargs')])
        (Call (Cmds "listConnections") args'
           (destination_side_kwargs (source_side_kwargs kwargs'))) = Ok VNone ->
      fst (listConnections h args sourceFirst kwargs log) = Ok (VList [])).
Proof.
  intros Ha Hk. repeat split.
  - intros. eapply wrapper_list_none; eauto.
  - intros. eapply listHistory_none; eauto.
  - intros. eapply listConnections_none; eauto.
  - intros. eapply listConnections_sourceFirst_none; eauto.
Qed.

Lemma C2_witness :
  fst (_pymaya_cmd_wrap Samples.silent_host "listRelatives" true SCOPE_NODE
         [VObj (Handle KNode "pCube1" [])] {[ "shapes" := VBool true ]} [])
  = Ok (VList [])
  /\ fst (_pymaya_cmd_wrap Samples.silent_host "listAttr" true SCOPE_ATTR
            [VObj (Handle KNode "pCube1" [])] {[ "shapes" := VBool true ]} [])
     = Ok (VList [])
  /\ fst (listHistory Samples.silent_host [VObj (Handle KNode "pCube1" [])]
            (VStr "skinCluster") VNone {[ "shapes" := VBool true ]} [])
     = Ok (VList [])
  /\ fst (listConnections Samples.silent_host [VObj (Handle KNode "pCube1" [])]
            (VBool false) {[ "shapes" := VBool true ]} [])
     = Ok (VList [])
  /\ fst (listConnections Samples.silent_host [VObj (Handle KNode "pCube1" [])]
            (VBool true) {[ "shapes" := VBool true ]} [])
     = Ok (VList []).
Proof.
  destruct (C2_list_none_normalised Samples.silent_host
              [VObj (Handle KNode "pCube1" [])] [VStr "pCube1"]
              {[ "shapes" := VBool true ]} {[ "shapes" := VBool true ]} [])
    as (W & H & C & S); [vm_compute; reflexivity | vm_compute; reflexivity |].
  split; [| split; [| split; [| split]]].
  - apply W; vm_compute; reflexivity.
  - apply W; vm_compute; reflexivity.
  - apply H; vm_compute; reflexivity.
  - apply C; vm_compute; reflexivity.
  - apply S; vm_compute; reflexivity.
Defined.

(** ** Results are re-wrapped (C3) *)

(** With [wrap_object] set the wrapper returns [_name_to_obj] of the
    adjusted result, with the binder as it is after the wrapper's calls. *)
Lemma wrapper_returns_rewrapped (h : host) (func : string) (sc : scope)
    (args args' : list pyval) (kwargs kwargs' : gmap string pyval)
    (log : list call) (res res1 : pyval) :
  _obj_to_name_args args = Ok args' ->
  _obj_to_name_kwargs kwargs = Ok kwargs' ->
  respond h log (Call (Cmds func) args' kwargs') = Ok res ->
  constraint_result func kwargs' res = Ok res1 ->
  exists kn log',
    (sc = SCOPE_NODE -> kn = None)
    /\ fst (_pymaya_cmd_wrap h func true sc args kwargs log)
       = _name_to_obj (PyNode h log') (str_of h) sc kn (list_result func res1).
Proof.
  intros Ha Hk Hr Hc. unfold _pymaya_cmd_wrap. rewrite Ha, Hk. run_eff.
  rewrite Hr, Hc. destruct sc.
  - destruct (wrapper_known_node_returns h args'
                (log ++ [Call (Cmds func) args' kwargs'])) as (kn & log' & Hkn).
    { eapply obj_to_name_args_sets_hashable; eauto. }
    rewrite Hkn. exists kn, log'. split; [discriminate | reflexivity].
  - exists None, (log ++ [Call (Cmds func) args' kwargs']).
    split; reflexivity.
Qed.

Lemma list_result_sets_hashable (func : string) (res : pyval) :
  sets_hashable res = true -> sets_hashable (list_result func res) = true.
Proof. unfold list_result. now destruct (_ && _). Qed.

Lemma plain_command_result (func : string) (kwargs : gmap string pyval)
    (res res1 : pyval) :
  endswith "Constraint" func = false ->
  startswith "list" func = false ->
  constraint_result func kwargs res = Ok res1 ->
  list_result func res1 = res.
Proof.
  unfold constraint_result, list_result. intros -> ->. cbn. congruence.
Qed.

(** C3: a wrapper made with [wrap_object=True] returns the re-wrapping of
    the result that reaches its last step ([res] after the constraint and
    list adjustments; [res] itself for a command that is neither): in the
    sense of [rewraps], [None] stays [None], a string on which binding
    succeeds becomes the handle and one on which it fails stays the string,
    lists, sets and tuples are mapped element by element and keep their
    class.  The wrapper does return when the sets in the result are well
    formed. *)
Theorem C3_results_rewrapped (h : host) (func : string) (sc : scope)
    (args args' : list pyval) (kwargs kwargs' : gmap string pyval)
    (log : list call) (res res1 : pyval) :
  _obj_to_name_args args = Ok args' ->
  _obj_to_name_kwargs kwargs = Ok kwargs' ->
  respond h log (Call (Cmds func) args' kwargs') = Ok res ->
  constraint_result func kwargs' res = Ok res1 ->
  exists kn log',
    (sc = SCOPE_NODE -> kn = None)
    /\ (forall v',
          fst (_pymaya_cmd_wrap h func true sc args kwargs log) = Ok v' ->
          rewraps (fun s => PyNode h log' (bound_name (str_of h) sc kn s))
                  (list_result func res1) v')
    /\ (sets_hashable res1 = true ->
        exists v', fst (_pymaya_cmd_wrap h func true sc args kwargs log) = Ok v')
    /\ (endswith "Constraint" func = false ->
        startswith "list" func = false ->
        list_result func res1 = res).
Proof.
  intros Ha Hk Hr Hc.
  destruct (wrapper_returns_rewrapped h func sc args args' kwargs kwargs' log
              res res1 Ha Hk Hr Hc) as (kn & log' & Hn & Hw).
  exists kn, log'. split; [exact Hn |]. split; [| split].
  - intros v' Hv. rewrite Hw in Hv. now apply name_to_obj_rewraps in Hv.
  - intros Hs. rewrite Hw. apply name_to_obj_total.
    now apply list_result_sets_hashable.
  - intros He Hl. eapply plain_command_result; eauto.
Qed.

Lemma C3_witness :
  exists kn log',
    (SCOPE_NODE = SCOPE_NODE -> kn = None)
    /\ (forall v',
          fst (_pymaya_cmd_wrap Samples.cube_scene "ls" true SCOPE_NODE
                 [] {[ "type" := VStr "mesh" ]} []) = Ok v' ->
          rewraps (fun s => PyNode Samples.cube_scene log'
                              (bound_name (str_of Samples.cube_scene)
                                 SCOPE_NODE kn s))
                  (list_result "ls" (VList [VStr "pCubeShape1"; VStr "ghost"]))
                  v')
    /\ (sets_hashable (VList [VStr "pCubeShape1"; VStr "ghost"]) = true ->
        exists v',
          fst (_pymaya_cmd_wrap Samples.cube_scene "ls" true SCOPE_NODE
                 [] {[ "type" := VStr "mesh" ]} []) = Ok v')
    /\ (endswith "Constraint" "ls" = false ->
        startswith "list" "ls" = false ->
        list_result "ls" (VList [VStr "pCubeShape1"; VStr "ghost"])
        = VList [VStr "pCubeShape1"; VStr "ghost"]).
Proof.
  apply (C3_results_rewrapped Samples.cube_scene "ls" SCOPE_NODE
           [] [] {[ "type" := VStr "mesh" ]} {[ "type" := VStr "mesh" ]} []
           (VList [VStr "pCubeShape1"; VStr "ghost"])
           (VList [VStr "pCubeShape1"; VStr "ghost"]));
    vm_compute; reflexivity.
Defined.

(** The same run, evaluated: the name that binds comes back as a handle,
    the other one as the string, in a list. *)
Example wrapper_rewraps_run :
  fst (_pymaya_cmd_wrap Samples.cube_scene "ls" true SCOPE_NODE
         [] {[ "type" := VStr "mesh" ]} [])
  = Ok (VList [VObj (Handle KNode "pCubeShape1" []); VStr "ghost"]).
Proof. vm_compute. reflexivity. Qed.

(** ** The string type flag of [setAttr] (C9) *)

Lemma foldl_flatten (acc args : list pyval) :
  foldl (fun fargs arg =>
           match arg with
           | VList l | VSet l | VTuple l => fargs ++ l
           | _ => fargs ++ [arg]
           end) acc args
  = acc ++ (args ≫= fun arg =>
              match arg with
              | VList l | VSet l | VTuple l => l
              | _ => [arg]
              end).
Proof.
  revert acc. induction args as [| x r IH]; intros acc; cbn.
  - now rewrite app_nil_r.
  - destruct x; rewrite IH, <- app_assoc; reflexivity.
Qed.

(** The loop of [setAttr] opens each list, set or tuple argument by one
    level and keeps the other arguments, in order. *)
Lemma flatten_args_bind (args : list pyval) :
  flatten_args args
  = args ≫= fun arg =>
      match arg with
      | VList l | VSet l | VTuple l => l
      | _ => [arg]
      end.
Proof. unfold flatten_args. now rewrite foldl_flatten. Qed.

Lemma string_type_wanted_spec (fargs : list pyval) (kwargs : gmap string pyval) :
  string_type_wanted fargs kwargs = true
  <-> List.length fargs = 2%nat
      /\ (exists s, fargs !! 1%nat = Some (VStr s))
      /\ kwargs !! "typ" = None
      /\ kwargs !! "type" = None.
Proof.
  unfold string_type_wanted. rewrite !andb_true_iff, !negb_true_iff,
    !bool_decide_eq_false, bool_decide_eq_true.
  split.
  - intros (((Hl & Hs) & Ht) & Hy). repeat split; try assumption.
    + destruct (fargs !! 1%nat) as [[]|]; try discriminate. eauto.
    + destruct (kwargs !! "typ") eqn:E; [| reflexivity].
      exfalso. apply Ht. eauto.
    + destruct (kwargs !! "type") eqn:E; [| reflexivity].
      exfalso. apply Hy. eauto.
  - intros (Hl & (s & Hs) & Ht & Hy). rewrite Hs, Ht, Hy.
    repeat split; try assumption; intros [? ?]; discriminate.
Qed.

(** [setAttr] calls the host once, with the flattened arguments. *)
Lemma setAttr_calls_once (h : host) (args args1 args2 : list pyval)
    (kwargs kwargs' : gmap string pyval) (log : list call) :
  _obj_to_name_args args = Ok args1 ->
  _dt_to_value_args args1 = Ok args2 ->
  _obj_to_name_kwargs kwargs = Ok kwargs' ->
  snd (setAttr h args kwargs log)
  = log ++ [Call (Cmds "setAttr") (flatten_args args2)
              (if string_type_wanted (flatten_args args2) kwargs'
               then <[ "type" := VStr "string" ]> kwargs' else kwargs')].
Proof.
  intros Ha Hd Hk. unfold setAttr. rewrite Ha. run_eff. rewrite Hd, Hk.
  destruct (respond h log _); reflexivity.
Qed.

(** C9: [setAttr] hands the host the flattened positional arguments and
    the converted keyword arguments; it adds [type="string"] to them when
    the flattened arguments are exactly two, the second is a string and
    neither ["typ"] nor ["type"] is a keyword, and it forwards them as
    they are in every other case. *)
Theorem C9_setAttr_string_type (h : host) (args args1 args2 : list pyval)
    (kwargs kwargs' : gmap string pyval) (log : list call) :
  _obj_to_name_args args = Ok args1 ->
  _dt_to_value_args args1 = Ok args2 ->
  _obj_to_name_kwargs kwargs = Ok kwargs' ->
  let fargs := args2 ≫= fun arg =>
                 match arg with
                 | VList l | VSet l | VTuple l => l
                 | _ => [arg]
                 end in
  let wanted := List.length fargs = 2%nat
                /\ (exists s, fargs !! 1%nat = Some (VStr s))
                /\ kwargs' !! "typ" = None
                /\ kwargs' !! "type" = None in
  exists sent,
    snd (setAttr h args kwargs log) = log ++ [Call (Cmds "setAttr") fargs sent]
    /\ (wanted -> sent = <[ "type" := VStr "string" ]> kwargs')
    /\ (~ wanted -> sent = kwargs').
Proof.
  intros Ha Hd Hk fargs wanted.
  pose proof (setAttr_calls_once h args args1 args2 kwargs kwargs' log Ha Hd Hk)
    as Hs.
  rewrite flatten_args_bind in Hs. fold fargs in Hs.
  pose proof (string_type_wanted_spec fargs kwargs') as Hw.
  destruct (string_type_wanted fargs kwargs') eqn:E.
  - exists (<[ "type" := VStr "string" ]> kwargs'). split; [exact Hs |].
    split; [reflexivity |]. intros Hn. exfalso. apply Hn. now apply Hw.
  - exists kwargs'. split; [exact Hs |]. split; [| reflexivity].
    intros Hy. apply Hw in Hy. discriminate.
Qed.

Lemma C9_witness :
  exists sent,
    snd (setAttr Samples.silent_host
           [VObj (Handle KAttr "pCube1.notes" []); VStr "hello"] ∅ [])
    = [] ++ [Call (Cmds "setAttr") [VStr "pCube1.notes"; VStr "hello"] sent]
    /\ (List.length [VStr "pCube1.notes"; VStr "hello"] = 2%nat
        /\ (exists s, [VStr "pCube1.notes"; VStr "hello"] !! 1%nat = Some (VStr s))
        /\ (∅ : gmap string pyval) !! "typ" = None
        /\ (∅ : gmap string pyval) !! "type" = None ->
        sent = <[ "type" := VStr "string" ]> ∅)
    /\ (~ (List.length [VStr "pCube1.notes"; VStr "hello"] = 2%nat
           /\ (exists s, [VStr "pCube1.notes"; VStr "hello"] !! 1%nat = Some (VStr s))
           /\ (∅ : gmap string pyval) !! "typ" = None
           /\ (∅ : gmap string pyval) !! "type" = None) ->
        sent = ∅).
Proof.
  apply (C9_setAttr_string_type Samples.silent_host
           [VObj (Handle KAttr "pCube1.notes" []); VStr "hello"]
           [VStr "pCube1.notes"; VStr "hello"]
           [VStr "pCube1.notes"; VStr "hello"] ∅ ∅ []);
    vm_compute; reflexivity.
Defined.

(** ** [listConnections] with [sourceFirst] (C10) *)

Import Pairing.

Lemma range_step_even (k : nat) :
  range_step (2 * k) 2 = range_from 0 2 k.
Proof.
  unfold range_step. f_equal.
  symmetry. apply (Nat.div_unique _ 2 k 1); lia.
Qed.

Lemma item_of_some (l : list pyval) (i : nat) (v : pyval) :
  l !! i = Some v -> item_of l i = Ok v.
Proof. unfold item_of. now intros ->. Qed.

(** The comprehension over the indices [length p, length p + 2, ...] of
    [p ++ l] gives the pairs of [l]. *)
Lemma pairs_by_index (mk : pyval -> pyval -> pyval) (first_plus_one : bool)
    (k : nat) :
  forall (p l : list pyval),
    List.length l = (2 * k)%nat ->
    mapR (fun i =>
            if first_plus_one then
              a ← item_of (p ++ l) (i + 1); b ← item_of (p ++ l) i; Ok (mk b a)
            else
              a ← item_of (p ++ l) i; b ← item_of (p ++ l) (i + 1); Ok (mk a b))
         (range_from (List.length p) 2 k)
    = Ok ((fun q => mk (fst q) (snd q)) <$> pairs l).
Proof.
  induction k as [| k IH]; intros p l Hl.
  - destruct l; [reflexivity | discriminate].
  - destruct l as [| a [| b r]]; try (cbn in Hl; lia).
    assert (Ha : (p ++ a :: b :: r) !! List.length p = Some a).
    { rewrite lookup_app_r by lia. now rewrite Nat.sub_diag. }
    assert (Hb : (p ++ a :: b :: r) !! (List.length p + 1)%nat = Some b).
    { rewrite lookup_app_r by lia.
      now replace (List.length p + 1 - List.length p)%nat with 1%nat by lia. }
    assert (Hr : List.length r = (2 * k)%nat) by (cbn in Hl; lia).
    specialize (IH (p ++ [a; b]) r Hr).
    rewrite <- app_assoc in IH. cbn [app] in IH.
    replace (List.length (p ++ [a; b])) with (List.length p + 2)%nat in IH
      by (rewrite length_app; reflexivity).
    destruct first_plus_one; cbn [range_from mapR pairs fmap list_fmap] in *.
    + rewrite (item_of_some _ _ _ Hb), (item_of_some _ _ _ Ha). cbn.
      rewrite IH. reflexivity.
    + rewrite (item_of_some _ _ _ Ha), (item_of_some _ _ _ Hb). cbn.
      rewrite IH. reflexivity.
Qed.

Lemma res_source_of_pairs (l : list pyval) (k : nat) :
  List.length l = (2 * k)%nat ->
  res_source_of (VList l) = Ok (swapped <$> pairs l).
Proof.
  intros Hl. unfold res_source_of, py_len, py_item.
  unfold mbind at 1. unfold result_bind at 1. rewrite Hl, range_step_even.
  exact (pairs_by_index (fun a b => VTuple [b; a]) true k [] l Hl).
Qed.

Lemma res_destination_of_pairs (l : list pyval) (k : nat) :
  List.length l = (2 * k)%nat ->
  res_destination_of (VList l) = Ok (in_place <$> pairs l).
Proof.
  intros Hl. unfold res_destination_of, py_len, py_item.
  unfold mbind at 1. unfold result_bind at 1. rewrite Hl, range_step_even.
  exact (pairs_by_index (fun a b => VTuple [a; b]) false k [] l Hl).
Qed.

Lemma source_side_kwargs_flags (kwargs : gmap string pyval) :
  (exists v, source_side_kwargs kwargs !! "source" = Some v /\ truthy v = true)
  /\ (exists v, source_side_kwargs kwargs !! "destination" = Some v
                /\ truthy v = false).
Proof.
  unfold source_side_kwargs.
  set (kw := match kwargs !! "source" with
             | Some v => if truthy v then kwargs
                         else <[ "source" := VBool true ]> kwargs
             | None => <[ "source" := VBool true ]> kwargs
             end).
  assert (Hs : exists v, kw !! "source" = Some v /\ truthy v = true).
  { subst kw. destruct (kwargs !! "source") as [v |] eqn:E.
    - destruct (truthy v) eqn:T; [eauto |].
      exists (VBool true). now rewrite lookup_insert_eq.
    - exists (VBool true). now rewrite lookup_insert_eq. }
  destruct Hs as (v & Hv & Tv).
  destruct (kw !! "destination") as [d |] eqn:D.
  - destruct (truthy d) eqn:Td.
    + split.
      * exists v. rewrite lookup_insert_ne by discriminate. auto.
      * exists (VBool false). now rewrite lookup_insert_eq.
    + split; eauto.
  - split.
    + exists v. rewrite lookup_insert_ne by discriminate. auto.
    + exists (VBool false). now rewrite lookup_insert_eq.
Qed.

Lemma destination_side_kwargs_flags (kwargs : gmap string pyval) :
  destination_side_kwargs kwargs !! "source" = Some (VBool false)
  /\ destination_side_kwargs kwargs !! "destination" = Some (VBool true).
Proof.
  unfold destination_side_kwargs. split.
  - rewrite lookup_insert_ne by discriminate. now rewrite lookup_insert_eq.
  - now rewrite lookup_insert_eq.
Qed.

(** C10: with [sourceFirst] set, [listConnections] first queries the
    source side (a true [source], a false [destination]) and pairs the
    flat answer swapped, then queries the destination side ([source]
    false, [destination] true) and pairs that answer in place; what it
    re-wraps and returns is the destination pairs followed by the source
    pairs. *)
Theorem C10_listConnections_sourceFirst (h : host) (args args' : list pyval)
    (sourceFirst : pyval) (kwargs kwargs' : gmap string pyval)
    (log : list call) (cs cd : pyval) (ls ld : list pyval) (ks kd : nat) :
  truthy sourceFirst = true ->
  _obj_to_name_args args = Ok args' ->
  _obj_to_name_kwargs kwargs = Ok kwargs' ->
  let first := Call (Cmds "listConnections") args' (source_side_kwargs kwargs') in
  let second := Call (Cmds "listConnections") args'
                  (destination_side_kwargs (source_side_kwargs kwargs')) in
  respond h log first = Ok cs ->
  respond h (log ++ [first]) second = Ok cd ->
  py_or cs (VList []) = VList ls ->
  py_or cd (VList []) = VList ld ->
  List.length ls = (2 * ks)%nat ->
  List.length ld = (2 * kd)%nat ->
  listConnections h args sourceFirst kwargs log
  = (_name_to_obj (PyNode h (log ++ [first; second])) (str_of h) SCOPE_NODE None
       (VList ((in_place <$> pairs ld) ++ (swapped <$> pairs ls))),
     log ++ [first; second])
  /\ (exists v, c_kwargs first !! "source" = Some v /\ truthy v = true)
  /\ (exists v, c_kwargs first !! "destination" = Some v /\ truthy v = false)
  /\ c_kwargs second !! "source" = Some (VBool false)
  /\ c_kwargs second !! "destination" = Some (VBool true).
Proof.
  intros Hs Ha Hk first second Hr1 Hr2 Ho1 Ho2 Hl1 Hl2.
  split.
  - unfold listConnections. rewrite Ha, Hk, Hs. run_eff.
    fold first. rewrite Hr1, Ho1, (res_source_of_pairs ls ks Hl1).
    fold second. rewrite Hr2, Ho2, (res_destination_of_pairs ld kd Hl2).
    unfold name_to_obj. run_eff. rewrite <- app_assoc. reflexivity.
  - destruct (source_side_kwargs_flags kwargs') as (S1 & S2).
    destruct (destination_side_kwargs_flags (source_side_kwargs kwargs'))
      as (D1 & D2).
    repeat split; assumption.
Qed.

Lemma C10_witness :
  listConnections Samples.connected_scene [VStr "pCube1"] (VBool true)
    Samples.connections_and_plugs []
  = (_name_to_obj
       (PyNode Samples.connected_scene
          ([] ++ [Call (Cmds "listConnections") [VStr "pCube1"]
                    (source_side_kwargs Samples.connections_and_plugs);
                  Call (Cmds "listConnections") [VStr "pCube1"]
                    (destination_side_kwargs
                       (source_side_kwargs Samples.connections_and_plugs))]))
       (str_of Samples.connected_scene) SCOPE_NODE None
       (VList ((in_place <$> pairs [VStr "pCube1.ty"; VStr "cond.firstTerm"])
               ++ (swapped <$> pairs [VStr "pCube1.tx"; VStr "anim.output"]))),
     [] ++ [Call (Cmds "listConnections") [VStr "pCube1"]
              (source_side_kwargs Samples.connections_and_plugs);
            Call (Cmds "listConnections") [VStr "pCube1"]
              (destination_side_kwargs
                 (source_side_kwargs Samples.connections_and_plugs))])
  /\ (exists v,
        source_side_kwargs Samples.connections_and_plugs !! "source" = Some v
        /\ truthy v = true)
  /\ (exists v,
        source_side_kwargs Samples.connections_and_plugs !! "destination" = Some v
        /\ truthy v = false)
  /\ destination_side_kwargs (source_side_kwargs Samples.connections_and_plugs)
       !! "source" = Some (VBool false)
  /\ destination_side_kwargs (source_side_kwargs Samples.connections_and_plugs)
       !! "destination" = Some (VBool true).
Proof.
  apply (C10_listConnections_sourceFirst Samples.connected_scene
           [VStr "pCube1"] [VStr "pCube1"] (VBool true)
           Samples.connections_and_plugs Samples.connections_and_plugs []
           (VList [VStr "pCube1.tx"; VStr "anim.output"])
           (VList [VStr "pCube1.ty"; VStr "cond.firstTerm"])
           [VStr "pCube1.tx"; VStr "anim.output"]
           [VStr "pCube1.ty"; VStr "cond.firstTerm"] 1 1);
    vm_compute; reflexivity.
Defined.

(** That run, evaluated: the destination pair first, each pair as
    (source, destination). *)
Example listConnections_sourceFirst_run :
  fst (listConnections Samples.connected_scene [VStr "pCube1"] (VBool true)
         Samples.connections_and_plugs [])
  = Ok (VList [VTuple [VStr "pCube1.ty"; VStr "cond.firstTerm"];
               VTuple [VStr "anim.output"; VStr "pCube1.tx"]]).
Proof. vm_compute. reflexivity. Qed.

(** ** The cache of the [mel] proxy (C7) *)

Import Runs.

Lemma mel_function_not_ordinary (h : host) (name : string) (st st' : mel_state)
    (log log' : list call) (f : fnobj) :
  _Mel_getattribute h name st log = (Ok (Function f, st'), log') ->
  ordinary_attr name = false.
Proof.
  unfold _Mel_getattribute. destruct (ordinary_attr name); [| reflexivity].
  run_eff. discriminate.
Qed.

(** A hit: the cached object comes back, the state and the log stay. *)
Lemma mel_cache_hit (h : host) (name : string) (st : mel_state)
    (log : list call) (f : fnobj) :
  ordinary_attr name = false ->
  mel_cmds st !! name = Some f ->
  _Mel_getattribute h name st log = (Ok (Function f, st), log).
Proof.
  intros Ho Hc. unfold _Mel_getattribute. rewrite Ho, Hc. reflexivity.
Qed.

(** A lookup that gives a function leaves it in the cache under its name;
    on a miss the function is a new object. *)
Lemma mel_lookup_stores (h : host) (name : string) (st st' : mel_state)
    (log log' : list call) (f : fnobj) :
  _Mel_getattribute h name st log = (Ok (Function f, st'), log') ->
  mel_cmds st' !! name = Some f
  /\ (mel_cmds st !! name = None ->
      fn_id f = mel_built st /\ mel_built st' = S (mel_built st))
  /\ (forall g, mel_cmds st !! name = Some g -> f = g /\ st' = st /\ log' = log).
Proof.
  unfold _Mel_getattribute. destruct (ordinary_attr name); run_eff;
    [discriminate |].
  destruct (mel_cmds st !! name) as [g |] eqn:Hc.
  - intros [= -> -> ->]. split; [exact Hc |]. split; [discriminate |].
    intros g' [= <-]. auto.
  - destruct (bool_decide (name = "eval")); [discriminate |].
    destruct (has_cmd h name).
    + intros [= <- <- <-]. cbn. rewrite lookup_insert_eq.
      split; [reflexivity |]. split; [auto | discriminate].
    + destruct (respond h log _) as [[] | e]; try discriminate.
      destruct (endswith ".mel" s); [| discriminate].
      intros [= <- <- <-]. cbn. rewrite lookup_insert_eq.
      split; [reflexivity |]. split; [auto | discriminate].
Qed.

(** No lookup removes or replaces an entry of the cache. *)
Lemma mel_lookup_preserves (h : host) (n name : string) (st : mel_state)
    (log : list call) (f : fnobj) :
  mel_cmds st !! name = Some f ->
  mel_cmds (snd (fst (mel_lookup h n st log))) !! name = Some f.
Proof.
  intros Hc. unfold mel_lookup, _Mel_getattribute.
  destruct (ordinary_attr n); run_eff; [exact Hc |].
  destruct (mel_cmds st !! n) as [g |] eqn:Hn; [exact Hc |].
  assert (Hne : n <> name) by congruence.
  destruct (bool_decide (n = "eval")); [exact Hc |].
  destruct (has_cmd h n).
  - cbn. now rewrite lookup_insert_ne.
  - destruct (respond h log _) as [[] | e]; try exact Hc.
    destruct (endswith ".mel" s); cbn.
    + now rewrite lookup_insert_ne.
    + exact Hc.
Qed.

Lemma mel_lookups_preserve (steps : list (host * string)) (name : string)
    (st : mel_state) (log : list call) (f : fnobj) :
  mel_cmds st !! name = Some f ->
  mel_cmds (fst (mel_lookups steps st log)) !! name = Some f.
Proof.
  revert st log. induction steps as [| [h n] r IH]; intros st log Hc; cbn;
    [exact Hc |].
  pose proof (mel_lookup_preserves h n name st log f Hc) as Hp.
  destruct (mel_lookup h n st log) as [[res st'] log']. cbn in Hp.
  now apply IH.
Qed.

(** C7: a name that the proxy resolves to a host command or to a MEL
    procedure gets a new function object, stored in the cache under the
    name; every later lookup of the name, after any other lookups and
    whatever the host has become, gives back that same object, without
    building one, without a host call and without a change of the cache. *)
Theorem C7_mel_proxy_caches (h : host) (name : string) (st : mel_state)
    (log : list call) :
  (ordinary_attr name = false ->
   mel_cmds st !! name = None ->
   has_cmd h name = true ->
   exists st',
     _Mel_getattribute h name st log
     = (Ok (Function (FnObj (mel_built st) (CmdWrap name false SCOPE_NODE)), st'),
        log))
  /\ (forall s,
        ordinary_attr name = false ->
        mel_cmds st !! name = None ->
        has_cmd h name = false ->
        respond h log (Call MelEval [VStr (String.append "whatIs " name)] ∅)
        = Ok (VStr s) ->
        endswith ".mel" s = true ->
        exists st' log',
          _Mel_getattribute h name st log
          = (Ok (Function (FnObj (mel_built st) (MelProc name)), st'), log'))
  /\ (forall f st' log',
        _Mel_getattribute h name st log = (Ok (Function f, st'), log') ->
        mel_cmds st' !! name = Some f
        /\ (mel_cmds st !! name = None ->
            fn_id f = mel_built st /\ mel_built st' = S (mel_built st))
        /\ (forall steps log1 h2 log2,
              let st2 := fst (mel_lookups steps st' log1) in
              _Mel_getattribute h2 name st2 log2 = (Ok (Function f, st2), log2))).
Proof.
  split; [| split].
  - intros Ho Hc Hh. unfold _Mel_getattribute. rewrite Ho, Hc, Hh.
    assert (Hne : bool_decide (name = "eval") = false).
    { apply bool_decide_eq_false. intros ->. discriminate. }
    rewrite Hne. eexists. reflexivity.
  - intros s Ho Hc Hh Hr He. unfold _Mel_getattribute. rewrite Ho, Hc, Hh.
    assert (Hne : bool_decide (name = "eval") = false).
    { apply bool_decide_eq_false. intros ->. discriminate. }
    rewrite Hne. run_eff. rewrite Hr, He. eexists _, _. reflexivity.
  - intros f st' log' Hf.
    pose proof (mel_function_not_ordinary _ _ _ _ _ _ _ Hf) as Ho.
    destruct (mel_lookup_stores _ _ _ _ _ _ _ Hf) as (Hs & Hn & _).
    split; [exact Hs |]. split; [exact Hn |].
    intros steps log1 h2 log2 st2. apply mel_cache_hit; [exact Ho |].
    subst st2. now apply mel_lookups_preserve.
Qed.

Lemma C7_witness :
  (exists st',
     _Mel_getattribute Samples.silent_host "polyCube" mel_new []
     = (Ok (Function (FnObj (mel_built mel_new)
                        (CmdWrap "polyCube" false SCOPE_NODE)), st'), []))
  /\ (exists st' log',
        _Mel_getattribute Samples.scripts_only "rigBuild" mel_new []
        = (Ok (Function (FnObj (mel_built mel_new) (MelProc "rigBuild")), st'),
           log'))
  /\ (mel_cmds (MelState {[ "polyCube" := FnObj 0 (CmdWrap "polyCube" false SCOPE_NODE) ]} 1)
        !! "polyCube"
      = Some (FnObj 0 (CmdWrap "polyCube" false SCOPE_NODE))
      /\ (mel_cmds mel_new !! "polyCube" = None ->
          fn_id (FnObj 0 (CmdWrap "polyCube" false SCOPE_NODE)) = mel_built mel_new
          /\ mel_built (MelState {[ "polyCube" := FnObj 0 (CmdWrap "polyCube" false SCOPE_NODE) ]} 1)
             = S (mel_built mel_new))
      /\ (forall steps log1 h2 log2,
            let st2 :=
              fst (mel_lookups steps
                     (MelState {[ "polyCube" := FnObj 0 (CmdWrap "polyCube" false SCOPE_NODE) ]} 1)
                     log1) in
            _Mel_getattribute h2 "polyCube" st2 log2
            = (Ok (Function (FnObj 0 (CmdWrap "polyCube" false SCOPE_NODE)), st2),
               log2))).
Proof.
  split; [| split].
  - apply (proj1 (C7_mel_proxy_caches Samples.silent_host "polyCube" mel_new []));
      vm_compute; reflexivity.
  - apply (proj1 (proj2 (C7_mel_proxy_caches Samples.scripts_only "rigBuild"
                           mel_new []))
             "Mel procedure found in: /scripts/rig.mel");
      vm_compute; reflexivity.
  - apply (proj2 (proj2 (C7_mel_proxy_caches Samples.silent_host "polyCube"
                           mel_new []))
             (FnObj 0 (CmdWrap "polyCube" false SCOPE_NODE))
             (MelState {[ "polyCube" := FnObj 0 (CmdWrap "polyCube" false SCOPE_NODE) ]} 1)
             []).
    vm_compute. reflexivity.
Defined.

(** Two lookups one after the other give one object, and the second makes
    no host call. *)
Example mel_two_lookups :
  mel_lookup Samples.silent_host "polyCube"
    (snd (fst (mel_lookup Samples.silent_host "polyCube" mel_new []))) []
  = (fst (fst (mel_lookup Samples.silent_host "polyCube" mel_new [])),
     snd (fst (mel_lookup Samples.silent_host "polyCube" mel_new [])), []).
Proof. vm_compute. reflexivity. Qed.

(** ** Methods bound at construction (C4) *)

Import Node Methods.

(** An object with the transform function set has the DAG-node one. *)
Lemma hasFn_transform_dag (o : MObject) :
  hasFn o kTransform = true -> hasFn o kDagNode = true.
Proof.
  unfold hasFn. rewrite !existsb_exists.
  intros (g & Hin & Hg). exists g. split; [exact Hin |].
  destruct g; try discriminate. reflexivity.
Qed.

(** What the second part of [__init__] leaves in the handle. *)
Lemma init_handle_bound (x : string + MObject) (o : MObject)
    (log log' : list call) (n : node) :
  init_handle x o log = (Ok n, log') ->
  n_obj n = o
  /\ hasFn o kDependencyNode = true
  /\ n_bound n
     = (if hasFn o kDagNode
        then (if hasFn o kTransform
              then bind_transform (bind_dag ∅) else bind_dag ∅)
        else ∅).
Proof.
  unfold init_handle. run_eff.
  destruct (hasFn o kDependencyNode); cbn; [| discriminate].
  destruct (hasFn o kDagNode); [destruct (hasFn o kTransform) |];
    intros [= <- <-]; auto.
Qed.

(** What a successful [__init__] leaves in the handle. *)
Lemma Node_init_bound (a : api) (x : string + MObject) (log log' : list call)
    (n : node) :
  _Node_init a x log = (Ok n, log') ->
  hasFn (n_obj n) kDependencyNode = true
  /\ n_bound n
     = (if hasFn (n_obj n) kDagNode
        then (if hasFn (n_obj n) kTransform
              then bind_transform (bind_dag ∅) else bind_dag ∅)
        else ∅).
Proof.
  unfold _Node_init. intros H.
  destruct (init_object a x log) as [[o | e] log1] eqn:Ho.
  - rewrite (bind_ok _ _ _ _ _ Ho) in H.
    apply init_handle_bound in H as (-> & Hd & Hb). auto.
  - unfold mbind, Eff_bind in H. rewrite Ho in H. discriminate.
Qed.

Lemma dag_methods_in_bind_dag (m : string) :
  m ∈ dag_methods -> is_Some (bind_dag ∅ !! m).
Proof.
  unfold dag_methods. rewrite !elem_of_cons, elem_of_nil.
  intros [-> | [-> | [-> | []]]]; vm_compute; eauto.
Qed.

Lemma dag_methods_in_bind_transform (m : string) :
  m ∈ dag_methods -> is_Some (bind_transform (bind_dag ∅) !! m).
Proof.
  unfold dag_methods. rewrite !elem_of_cons, elem_of_nil.
  intros [-> | [-> | [-> | []]]]; vm_compute; eauto.
Qed.

Lemma transform_methods_in_bind_transform (m : string) :
  m ∈ transform_methods -> is_Some (bind_transform (bind_dag ∅) !! m).
Proof.
  unfold transform_methods. rewrite !elem_of_cons, elem_of_nil.
  intros H. repeat (destruct H as [-> | H]; [vm_compute; eauto |]).
  destruct H.
Qed.

Lemma transform_methods_not_in_bind_dag (m : string) :
  m ∈ transform_methods -> bind_dag ∅ !! m = None.
Proof.
  unfold transform_methods. rewrite !elem_of_cons, elem_of_nil.
  intros H. repeat (destruct H as [-> | H]; [vm_compute; reflexivity |]).
  destruct H.
Qed.

Lemma is_bound_true (n : node) (m : string) :
  is_bound n m = true <-> is_Some (n_bound n !! m).
Proof. unfold is_bound. apply bool_decide_eq_true. Qed.

(** C4: on every handle that [_Node.__init__] has built, [getParent],
    [getChildren] and [addChild] are bound exactly when the object has the
    DAG-node function set, the transform methods are bound exactly when it
    has the transform function set, and a plain dependency node has no
    attribute bound. *)
Theorem C4_methods_bound_by_capability (a : api) (x : string + MObject)
    (log log' : list call) (n : node) :
  _Node_init a x log = (Ok n, log') ->
  (forall m, m ∈ dag_methods ->
             (is_bound n m = true <-> hasFn (n_obj n) kDagNode = true))
  /\ (forall m, m ∈ transform_methods ->
                (is_bound n m = true <-> hasFn (n_obj n) kTransform = true))
  /\ (hasFn (n_obj n) kDagNode = false -> forall m, is_bound n m = false).
Proof.
  intros Hi. destruct (Node_init_bound a x log log' n Hi) as (_ & Hb).
  pose proof (hasFn_transform_dag (n_obj n)) as Hh.
  split; [| split].
  - intros m Hm. rewrite is_bound_true, Hb.
    destruct (hasFn (n_obj n) kDagNode); [destruct (hasFn (n_obj n) kTransform) |].
    + split; [auto | intros _; now apply dag_methods_in_bind_transform].
    + split; [auto | intros _; now apply dag_methods_in_bind_dag].
    + rewrite lookup_empty. split; [intros [? ?]; discriminate | discriminate].
  - intros m Hm. rewrite is_bound_true, Hb.
    destruct (hasFn (n_obj n) kDagNode); [destruct (hasFn (n_obj n) kTransform) |].
    + split; [auto | intros _; now apply transform_methods_in_bind_transform].
    + rewrite (transform_methods_not_in_bind_dag m Hm).
      split; [intros [? ?]; discriminate | discriminate].
    + rewrite lookup_empty.
      split; [intros [? ?]; discriminate | intros Ht; now apply Hh in Ht].
  - intros Hg m. unfold is_bound. rewrite Hb, Hg, lookup_empty.
    apply bool_decide_eq_false. intros [? ?]. discriminate.
Qed.

Lemma C4_witness :
  (forall m, m ∈ dag_methods ->
             (is_bound Samples.pCube1_node m = true
              <-> hasFn (n_obj Samples.pCube1_node) kDagNode = true))
  /\ (forall m, m ∈ transform_methods ->
                (is_bound Samples.pCube1_node m = true
                 <-> hasFn (n_obj Samples.pCube1_node) kTransform = true))
  /\ (hasFn (n_obj Samples.pCube1_node) kDagNode = false ->
      forall m, is_bound Samples.pCube1_node m = false).
Proof.
  apply (C4_methods_bound_by_capability Samples.cube_api (inl "pCube1") []
           [Call SelectionAdd [VStr "pCube1"] ∅] Samples.pCube1_node).
  vm_compute. reflexivity.
Defined.

(** A locator shape is a DAG node and no transform: its handle has the
    three DAG methods and none of the transform methods. *)
Example shape_handle_methods :
  fmap (fun n => (is_bound n "getParent", is_bound n "getShape"))
       (fst (_Node_init Samples.cube_api
               (inr (MObj 2 [kDagNode] "locatorShape1")) []))
  = Ok (true, false).
Proof. vm_compute. reflexivity. Qed.

(** ** The attribute cache and the type registry (C8) *)

(** A hit of the attribute cache: the cached object, and the node as it
    was. *)
Lemma attr_hit (a : api) (n : node) (name : string) (checkShape : bool)
    (at_ : attribute) :
  n_attrs n !! name = Some at_ -> attr a n name checkShape = Ok (at_, n).
Proof. intros H. unfold attr. now rewrite H. Qed.

(** What [attr] returns is in the cache under the name it was asked for. *)
Lemma attr_stores (a : api) (n n' : node) (name : string) (checkShape : bool)
    (at_ : attribute) :
  attr a n name checkShape = Ok (at_, n') ->
  n_attrs n' !! name = Some at_.
Proof.
  unfold attr. destruct (n_attrs n !! name) as [g |] eqn:Hc.
  - intros [= <- <-]. exact Hc.
  - destruct (match search_index 0 name with
              | Some (start, d) => _
              | None => _
              end) as [attrname idx].
    destruct (find_plug a n name attrname checkShape) as [p | e]; cbn;
      [| discriminate].
    destruct idx as [i |].
    + destruct (plug_element a p i) as [q | e]; cbn; [| discriminate].
      intros [= <- <-]. cbn. apply lookup_insert_eq.
    + cbn. intros [= <- <-]. cbn. apply lookup_insert_eq.
Qed.

(** No [attr] call removes or replaces an entry of the cache. *)
Lemma attr_step_preserves (a : api) (n : node) (name k : string)
    (checkShape : bool) (x : attribute) :
  n_attrs n !! k = Some x ->
  n_attrs (attr_step a n name checkShape) !! k = Some x.
Proof.
  intros Hk. unfold attr_step, attr.
  destruct (n_attrs n !! name) as [g |] eqn:Hc; [exact Hk |].
  assert (Hne : name <> k) by congruence.
  destruct (match search_index 0 name with
            | Some (start, d) => _
            | None => _
            end) as [attrname idx].
  destruct (find_plug a n name attrname checkShape) as [p | e]; cbn;
    [| exact Hk].
  destruct idx as [i |].
  - destruct (plug_element a p i) as [q | e]; cbn; [| exact Hk].
    now rewrite lookup_insert_ne.
  - cbn. now rewrite lookup_insert_ne.
Qed.

Lemma attr_steps_preserve (a : api) (calls : list (string * bool)) (n : node)
    (k : string) (x : attribute) :
  n_attrs n !! k = Some x ->
  n_attrs (attr_steps a n calls) !! k = Some x.
Proof.
  revert n. induction calls as [| [name cs] r IH]; intros n Hk; cbn;
    [exact Hk |].
  apply IH. now apply attr_step_preserves.
Qed.

(** A hit of the type registry. *)
Lemma getTypeClass_hit (a : api) (t : string) (st : types_state) (c : pyclass) :
  types st !! t = Some c -> getTypeClass a t st = Ok (Some c, st).
Proof. intros H. unfold getTypeClass. now rewrite H. Qed.

(** An operation other than [registerClass] for the name [t] leaves the
    class registered for [t] in place. *)
Lemma types_step_preserves (a : api) (st : types_state) (op : types_op)
    (t : string) (c : pyclass) :
  types st !! t = Some c ->
  ~ registers t op ->
  types (types_step a st op) !! t = Some c.
Proof.
  intros Ht Hr. destruct op as [t' cls | t']; cbn in *.
  - unfold registerClass. destruct cls as [c' |]; cbn.
    + now rewrite lookup_insert_ne.
    + destruct t' as [| ch r]; cbn; [exact Ht |]. now rewrite lookup_insert_ne.
  - unfold getTypeClass. destruct (types st !! t') as [c' |] eqn:Ht'; [exact Ht |].
    assert (Hne : t' <> t) by congruence.
    destruct (bool_decide (t' ∈ all_node_types a)); [| exact Ht].
    unfold registerClass. destruct t' as [| ch r]; cbn; [exact Ht |].
    rewrite lookup_insert_eq. cbn. now rewrite lookup_insert_ne.
Qed.

Lemma types_steps_preserve (a : api) (ops : list types_op) (st : types_state)
    (t : string) (c : pyclass) :
  types st !! t = Some c ->
  Forall (fun op => ~ registers t op) ops ->
  types (types_steps a st ops) !! t = Some c.
Proof.
  revert st. induction ops as [| op r IH]; intros st Ht Hf; cbn; [exact Ht |].
  inversion Hf; subst. apply IH; [| assumption].
  now apply types_step_preserves.
Qed.

(** What [getTypeClass] returns is registered under the name. *)
Lemma getTypeClass_stores (a : api) (t : string) (st st' : types_state)
    (c : pyclass) :
  getTypeClass a t st = Ok (Some c, st') -> types st' !! t = Some c.
Proof.
  unfold getTypeClass. destruct (types st !! t) as [c' |] eqn:Ht.
  - intros [= <- <-]. exact Ht.
  - destruct (bool_decide (t ∈ all_node_types a)); [| discriminate].
    destruct (registerClass t None st) as [st1 | e]; cbn; [| discriminate].
    destruct (types st1 !! t) as [c1 |] eqn:H1; [| discriminate].
    intros [= <- <-]. exact H1.
Qed.

(** C8, as the code has it: [attr] and [getTypeClass] fill their caches on
    misses only and never remove or replace an entry.  Once [attr(name)]
    has stored an attribute object, every later [attr(name)] on the handle
    gives that object back and leaves the handle as it is; once a class is
    registered for a type name, [getTypeClass] gives that class back after
    any operations on the registry among which there is no [registerClass]
    call for that same name. *)
Theorem C8_caches_kept (a : api) :
  (forall n name checkShape at_ n',
      attr a n name checkShape = Ok (at_, n') ->
      n_attrs n' !! name = Some at_
      /\ forall a2 calls checkShape2,
           attr a2 (attr_steps a2 n' calls) name checkShape2
           = Ok (at_, attr_steps a2 n' calls))
  /\ (forall n name checkShape k x,
        n_attrs n !! k = Some x ->
        n_attrs (attr_step a n name checkShape) !! k = Some x)
  /\ (forall st t c ops,
        types st !! t = Some c ->
        Forall (fun op => ~ registers t op) ops ->
        getTypeClass a t (types_steps a st ops)
        = Ok (Some c, types_steps a st ops))
  /\ (forall st t c st',
        getTypeClass a t st = Ok (Some c, st') ->
        types st' !! t = Some c
        /\ forall g, types st !! t = Some g -> c = g /\ st' = st).
Proof.
  split; [| split; [| split]].
  - intros n name cs at_ n' Ha.
    pose proof (attr_stores a n n' name cs at_ Ha) as Hs.
    split; [exact Hs |]. intros a2 calls cs2.
    apply attr_hit. now apply attr_steps_preserve.
  - intros. now apply attr_step_preserves.
  - intros st t c ops Ht Hf. apply getTypeClass_hit.
    now apply types_steps_preserve.
  - intros st t c st' Hg. split; [eapply getTypeClass_stores; eauto |].
    intros g Hgt. rewrite (getTypeClass_hit a t st g Hgt) in Hg.
    injection Hg as <- <-. auto.
Qed.

Lemma C8_witness :
  (n_attrs (snd (Samples.pCube1_attr)) !! "translateX"
   = Some (fst Samples.pCube1_attr)
   /\ forall a2 calls checkShape2,
        attr a2 (attr_steps a2 (snd Samples.pCube1_attr) calls) "translateX"
          checkShape2
        = Ok (fst Samples.pCube1_attr,
              attr_steps a2 (snd Samples.pCube1_attr) calls))
  /\ getTypeClass Samples.cube_api "joint"
       (types_steps Samples.cube_api nt
          [OpGetTypeClass "transform"; OpRegister "mesh" None;
           OpGetTypeClass "joint"])
     = Ok (Some (Declared "Joint"),
           types_steps Samples.cube_api nt
             [OpGetTypeClass "transform"; OpRegister "mesh" None;
              OpGetTypeClass "joint"]).
Proof.
  destruct (C8_caches_kept Samples.cube_api) as (A & _ & T & _).
  split.
  - apply (A Samples.pCube1_node "translateX" true).
    vm_compute. reflexivity.
  - apply T; [vm_compute; reflexivity |].
    repeat constructor; cbn; intros H; discriminate || exact H.
Defined.

(** C8 as stated fails for the registry: [registerClass] for a name that
    has a class replaces it, and [getTypeClass] gives the new class from
    then on. *)
Lemma C8_counterexample :
  getTypeClass Samples.cube_api "joint" nt = Ok (Some (Declared "Joint"), nt)
  /\ getTypeClass Samples.cube_api "joint"
       (types_step Samples.cube_api nt
          (OpRegister "joint" (Some (Declared "RigJoint"))))
     = Ok (Some (Declared "RigJoint"),
           types_step Samples.cube_api nt
             (OpRegister "joint" (Some (Declared "RigJoint"))))
  /\ Declared "RigJoint" <> Declared "Joint".
Proof.
  split; [| split].
  - vm_compute. reflexivity.
  - vm_compute. reflexivity.
  - discriminate.
Qed.

(** ** The record of the update handler (C5) *)

Import AnimClip Clips.

(** The record that the handler fills: the five keys hold the values of
    the row, every other key holds what the template holds. *)
Lemma filled_clip_data_lookup (c : collaborators) (title : string)
    (enabled : bool) (s e : Z) (layer : string) :
  let data := filled_clip_data c title enabled s e layer in
  data !! "title" = Some (VStr title)
  /\ data !! "start_frame" = Some (VInt s)
  /\ data !! "end_frame" = Some (VInt e)
  /\ data !! "enabled" = Some (VBool enabled)
  /\ (exists v, data !! "animLayer" = Some (VStr v)
                /\ (layer = "" \/ layer = "None" -> v = "")
                /\ (layer <> "" -> layer <> "None" -> v = layer))
  /\ (forall k, k ∉ clip_fields -> data !! k = ANIM_CLIP_DATA c !! k)
  /\ dom data = dom (ANIM_CLIP_DATA c) ∪ list_to_set clip_fields.
Proof.
  intros data. subst data. unfold filled_clip_data.
  repeat split.
  - now rewrite !lookup_insert_ne, lookup_insert_eq by discriminate.
  - now rewrite !lookup_insert_ne, lookup_insert_eq by discriminate.
  - now rewrite !lookup_insert_ne, lookup_insert_eq by discriminate.
  - now rewrite !lookup_insert_ne, lookup_insert_eq by discriminate.
  - eexists. rewrite lookup_insert_eq. split; [reflexivity |]. split.
    + intros [-> | ->]; reflexivity.
    + intros H1 H2. cbn.
      rewrite (bool_decide_eq_false_2 (layer = "") H1).
      rewrite (bool_decide_eq_false_2 (layer = "None") H2). reflexivity.
  - intros k Hk. unfold clip_fields in Hk.
    rewrite !not_elem_of_cons in Hk. destruct Hk as (H1 & H2 & H3 & H4 & H5 & _).
    rewrite !lookup_insert_ne by congruence. reflexivity.
  - rewrite !dom_insert_L. unfold clip_fields. cbn.
    apply set_eq. intros k. rewrite !elem_of_union, !elem_of_singleton.
    rewrite elem_of_empty. tauto.
Qed.

(** The handler either sends nothing or sends one record, built by
    [filled_clip_data] from the row. *)
Lemma on_update_sends (c : collaborators) (w : AnimClipWidget)
    (log : list ecall) :
  snd (_on_update_anim_clip c w log) = log
  \/ exists s e,
       py_int (_start_frame_box w) = Ok s
       /\ py_int (_end_frame_box w) = Ok e
       /\ _on_update_anim_clip c w log
          = (Ok (with_previous_name w (_clip_name_lineedit w)),
             log ++ [UpdateAnimationClip (get_root_joint c log) (_previous_name w)
                       (filled_clip_data c (_clip_name_lineedit w)
                          (_export_checkbox w) s e (_anim_layer_current w))]).
Proof.
  unfold _on_update_anim_clip. run_eff.
  destruct (_fbx_exporter w); cbn; [| now left].
  destruct (truthy (get_root_joint c log)); cbn; [| now left].
  destruct (export_node_get c log); cbn; [| now left].
  destruct (py_int (_start_frame_box w)) as [s | x]; cbn; [| now left].
  destruct (py_int (_end_frame_box w)) as [e | x]; cbn; [| now left].
  right. exists s, e. auto.
Qed.

(** When the guards pass and both frame texts are integers, the handler
    does send. *)
Lemma on_update_sends_when_ready (c : collaborators) (w : AnimClipWidget)
    (log : list ecall) (s e : Z) :
  _fbx_exporter w = true ->
  truthy (get_root_joint c log) = true ->
  export_node_get c log = true ->
  py_int (_start_frame_box w) = Ok s ->
  py_int (_end_frame_box w) = Ok e ->
  _on_update_anim_clip c w log
  = (Ok (with_previous_name w (_clip_name_lineedit w)),
     log ++ [UpdateAnimationClip (get_root_joint c log) (_previous_name w)
               (filled_clip_data c (_clip_name_lineedit w)
                  (_export_checkbox w) s e (_anim_layer_current w))]).
Proof.
  intros He Hr Hn Hs Hf. unfold _on_update_anim_clip. run_eff.
  rewrite He, Hr, Hn, Hs. cbn. rewrite Hf. reflexivity.
Qed.

(** C5: the update handler sends the export node at most one record; the
    record is the template with exactly the keys [title], [start_frame],
    [end_frame], [enabled] and [animLayer] assigned from the row (the title
    text, the two frame texts as integers, the check box, and the chosen
    layer or the empty string when the choice is empty or ["None"]), and
    every other key as the template has it; and it does send when the
    guards pass and the frame texts are integers. *)
Theorem C5_update_writes_clip_fields (c : collaborators) (w : AnimClipWidget)
    (log : list ecall) :
  (snd (_on_update_anim_clip c w log) = log
   \/ exists s e data,
        py_int (_start_frame_box w) = Ok s
        /\ py_int (_end_frame_box w) = Ok e
        /\ snd (_on_update_anim_clip c w log)
           = log ++ [UpdateAnimationClip (get_root_joint c log)
                       (_previous_name w) data]
        /\ data !! "title" = Some (VStr (_clip_name_lineedit w))
        /\ data !! "start_frame" = Some (VInt s)
        /\ data !! "end_frame" = Some (VInt e)
        /\ data !! "enabled" = Some (VBool (_export_checkbox w))
        /\ (exists v, data !! "animLayer" = Some (VStr v)
                      /\ (_anim_layer_current w = ""
                          \/ _anim_layer_current w = "None" -> v = "")
                      /\ (_anim_layer_current w <> "" ->
                          _anim_layer_current w <> "None" ->
                          v = _anim_layer_current w))
        /\ (forall k, k ∉ clip_fields -> data !! k = ANIM_CLIP_DATA c !! k)
        /\ dom data = dom (ANIM_CLIP_DATA c) ∪ list_to_set clip_fields)
  /\ (forall s e,
        _fbx_exporter w = true ->
        truthy (get_root_joint c log) = true ->
        export_node_get c log = true ->
        py_int (_start_frame_box w) = Ok s ->
        py_int (_end_frame_box w) = Ok e ->
        exists data,
          snd (_on_update_anim_clip c w log)
          = log ++ [UpdateAnimationClip (get_root_joint c log)
                      (_previous_name w) data]).
Proof.
  split.
  - destruct (on_update_sends c w log) as [H | (s & e & Hs & He & H)];
      [now left | right].
    exists s, e, (filled_clip_data c (_clip_name_lineedit w)
                    (_export_checkbox w) s e (_anim_layer_current w)).
    split; [exact Hs |]. split; [exact He |]. split; [now rewrite H |].
    apply filled_clip_data_lookup.
  - intros s e H1 H2 H3 H4 H5. eexists.
    rewrite (on_update_sends_when_ready c w log s e H1 H2 H3 H4 H5).
    reflexivity.
Qed.

Lemma C5_witness :
  exists data,
    snd (_on_update_anim_clip studio edited_row [])
    = [] ++ [UpdateAnimationClip (get_root_joint studio [])
               (_previous_name edited_row) data].
Proof.
  apply (proj2 (C5_update_writes_clip_fields studio edited_row []) 10 40);
    vm_compute; reflexivity.
Defined.

(** That run, evaluated. *)
Example on_update_run :
  snd (_on_update_anim_clip studio edited_row [])
  = [UpdateAnimationClip (VStr "root") "Clip"
       (<[ "animLayer" := VStr "Walk" ]>
       (<[ "end_frame" := VInt 40 ]>
       (<[ "start_frame" := VInt 10 ]>
       (<[ "enabled" := VBool true ]>
       {[ "title" := VStr "Idle" ]}))))].
Proof. vm_compute. reflexivity. Qed.

(** ** Adding clip rows (C6) *)

(** The handler keeps the clip name of the row. *)
Lemma on_update_keeps_clip_name (c : collaborators) (w w' : AnimClipWidget)
    (log log' : list ecall) :
  _on_update_anim_clip c w log = (Ok w', log') -> _clip_name w' = _clip_name w.
Proof.
  unfold _on_update_anim_clip. run_eff.
  destruct (negb (truthy _)); cbn; [now intros [= <- <-] |].
  destruct (negb (export_node_get c log)); cbn; [now intros [= <- <-] |].
  destruct (py_int (_start_frame_box w)) as [s | x]; cbn; [| discriminate].
  destruct (py_int (_end_frame_box w)) as [e | x]; cbn; [| discriminate].
  now intros [= <- <-].
Qed.

(** A signal returns, with the clip name of the row it was sent for. *)
Lemma emit_returns (c : collaborators) (changed : bool) (w : AnimClipWidget)
    (log : list ecall) :
  exists w' log',
    emit c changed w log = (Ok w', log') /\ _clip_name w' = _clip_name w.
Proof.
  unfold emit. destruct changed; [| eauto].
  destruct (_on_update_anim_clip c w log) as [[w' | e] log'] eqn:H; [| eauto].
  exists w', log'. split; [reflexivity |].
  eapply on_update_keeps_clip_name; eauto.
Qed.

Lemma clear_returns (c : collaborators) (w : AnimClipWidget) (log : list ecall) :
  exists w' log',
    _clear c w log = (Ok w', log') /\ _clip_name w' = _clip_name w.
Proof.
  unfold _clear.
  destruct (emit_returns c (negb (bool_decide (_clip_name_lineedit w = "Untitled")))
              (with_title w "Untitled") log) as (w1 & l1 & E1 & N1).
  rewrite (bind_ok _ _ _ _ _ E1).
  destruct (emit_returns c (negb (bool_decide (_start_frame_box w1 = "")))
              (with_start w1 "") l1) as (w2 & l2 & E2 & N2).
  rewrite (bind_ok _ _ _ _ _ E2).
  destruct (emit_returns c (negb (bool_decide (_end_frame_box w2 = "")))
              (with_end w2 "") l2) as (w3 & l3 & E3 & N3).
  rewrite (bind_ok _ _ _ _ _ E3).
  destruct (emit_returns c (_export_checkbox w3) (with_checked w3 false) l3)
    as (w4 & l4 & E4 & N4).
  exists w4, l4. split; [exact E4 |].
  cbn in N1, N2, N3, N4. congruence.
Qed.

(** The constructor of a row returns, for every clip name. *)
Lemma AnimClipWidget_init_returns (c : collaborators) (clip_name : string)
    (parent : bool) (log : list ecall) :
  exists w log',
    AnimClipWidget_init c clip_name parent log = (Ok w, log')
    /\ _clip_name w = clip_name.
Proof.
  unfold AnimClipWidget_init, refresh. run_eff. cbn [_fbx_exporter].
  destruct (negb (export_node_get c log && parent)).
  - apply (clear_returns c (ClipRow parent clip_name clip_name "" [] "" "" "" true)).
  - eexists _, _. split; reflexivity.
Qed.

(** [_add_animation_clip] returns and puts one row with the given name at
    the end of the list, whatever the list holds. *)
Lemma add_animation_clip_appends (c : collaborators) (clip_name : string)
    (lw : AnimClipsListWidget) (log : list ecall) :
  exists row log',
    _add_animation_clip c clip_name lw log
    = (Ok (row, with_rows lw (_clips_layout lw ++ [row])), log')
    /\ _clip_name row = clip_name.
Proof.
  unfold _add_animation_clip.
  destruct (AnimClipWidget_init_returns c clip_name (l_fbx_exporter lw) log)
    as (w & log' & Hw & Hn).
  rewrite (bind_ok _ _ _ _ _ Hw). exists w, log'. split; [reflexivity | exact Hn].
Qed.

Lemma row_names_with_rows (lw : AnimClipsListWidget) (row : AnimClipWidget) :
  row_names (with_rows lw (_clips_layout lw ++ [row]))
  = row_names lw ++ [_clip_name row].
Proof. unfold row_names, with_rows. cbn. now rewrite fmap_app. Qed.

(** C6: [_add_animation_clip] appends a row for the name it is given,
    whether or not the list has a row of that name already, so a name
    that is present ends up twice; the Add Clip button does the same with
    the name that the export node hands out, once it has a root joint and
    a name. *)
Theorem C6_add_clip_unconditional (c : collaborators) (lw : AnimClipsListWidget)
    (log : list ecall) :
  (forall clip_name,
      exists row lw' log',
        _add_animation_clip c clip_name lw log = (Ok (row, lw'), log')
        /\ row_names lw' = row_names lw ++ [clip_name]
        /\ (clip_name ∈ row_names lw -> ~ NoDup (row_names lw')))
  /\ (forall n,
        truthy (_root_joint lw) = true ->
        l_fbx_exporter lw = true ->
        add_animation_clip c (log ++ [GetOrCreateExportNode]) (_root_joint lw)
        = Some n ->
        n <> "" ->
        exists lw' log',
          _on_add_animation_clip_button_clicked c lw log = (Ok lw', log')
          /\ row_names lw' = row_names lw ++ [n]
          /\ (n ∈ row_names lw -> ~ NoDup (row_names lw'))).
Proof.
  assert (Hdup : forall (names : list string) n,
             n ∈ names -> ~ NoDup (names ++ [n])).
  { intros names n Hin Hnd. apply NoDup_app in Hnd as (_ & Hd & _).
    apply (Hd n Hin). constructor. }
  split.
  - intros clip_name.
    destruct (add_animation_clip_appends c clip_name lw log)
      as (row & log' & Ha & Hn).
    exists row, (with_rows lw (_clips_layout lw ++ [row])), log'.
    split; [exact Ha |]. rewrite row_names_with_rows, Hn.
    split; [reflexivity | apply Hdup].
  - intros n Hr He Hadd Hne.
    unfold _on_add_animation_clip_button_clicked. rewrite Hr, He. cbn [negb].
    unfold tell. run_eff. rewrite Hadd.
    rewrite (bool_decide_eq_false_2 (n = "") Hne).
    destruct (add_animation_clip_appends c n lw
                ((log ++ [GetOrCreateExportNode])
                 ++ [AddAnimationClip (_root_joint lw)]))
      as (row & log' & Ha & Hn).
    rewrite Ha. cbn. eexists _, _. split; [reflexivity |].
    rewrite row_names_with_rows, Hn. split; [reflexivity | apply Hdup].
Qed.

Lemma C6_witness :
  exists lw' log',
    _on_add_animation_clip_button_clicked studio one_clip [] = (Ok lw', log')
    /\ row_names lw' = row_names one_clip ++ ["Clip"]
    /\ ("Clip" ∈ row_names one_clip -> ~ NoDup (row_names lw')).
Proof.
  apply (proj2 (C6_add_clip_unconditional studio one_clip []) "Clip");
    vm_compute; (reflexivity || discriminate).
Defined.

(** That run, evaluated: the list shows the name twice. *)
Example add_clip_button_run :
  row_names <$> fst (_on_add_animation_clip_button_clicked studio one_clip [])
  = Ok ["Clip"; "Clip"].
Proof. vm_compute. reflexivity. Qed.

(** * Further properties *)

Import CmdMore.

(** ** The conversions of arguments *)

Lemma mapR_fixed {A : Type} (f : A -> result A) (l : list A) :
  Forall (fun x => f x = Ok x) l -> mapR f l = Ok l.
Proof.
  induction 1 as [| x r Hx _ IH]; cbn; [reflexivity |].
  rewrite Hx. cbn. rewrite IH. reflexivity.
Qed.

Lemma mapR_Forall_out {A B : Type} (f : A -> result B) (Q : B -> Prop)
    (l : list A) (l' : list B) :
  Forall (fun x => forall y, f x = Ok y -> Q y) l ->
  mapR f l = Ok l' -> Forall Q l'.
Proof.
  intros HF HM. apply mapR_ok_Forall2 in HM.
  induction HM as [| x y r ys Hxy _ IH]; [constructor |].
  inversion HF; subst. constructor; auto.
Qed.

Lemma forallb_Forall_true {A : Type} (p : A -> bool) (l : list A) :
  forallb p l = true <-> Forall (fun x => p x = true) l.
Proof.
  induction l as [| x r IH]; cbn.
  - split; [constructor | reflexivity].
  - rewrite andb_true_iff, IH. split.
    + intros [? ?]. now constructor.
    + intros H. inversion H. auto.
Qed.

(** [_obj_to_name] on a dict, as a comprehension over its items. *)
Lemma obj_to_name_dict (d : list (pyval * pyval)) :
  _obj_to_name (VDict d)
  = VDict <$> mapR (fun kv => v' ← _obj_to_name (snd kv); Ok (fst kv, v')) d.
Proof.
  cbn. f_equal. induction d as [| [k v] r IH]; [reflexivity |].
  cbn. destruct (_obj_to_name v) as [v' | e]; cbn; [| reflexivity].
  rewrite IH. reflexivity.
Qed.

Lemma distinct_snoc (acc : list pyval) (x : pyval) :
  distinct acc -> py_mem x acc = false -> distinct (acc ++ [x]).
Proof.
  intros Ha Hx i y Hi.
  destruct (decide (i < List.length acc)%nat) as [Hlt | Hge].
  - rewrite lookup_app_l in Hi by exact Hlt.
    rewrite take_app_le by lia. now apply Ha.
  - rewrite lookup_app_r in Hi by lia.
    destruct (i - List.length acc)%nat as [| n] eqn:Hn; cbn in Hi; [| discriminate].
    injection Hi as <-. assert (i = List.length acc) as -> by lia.
    rewrite take_app_length. exact Hx.
Qed.

Lemma py_dedup_distinct (acc l : list pyval) :
  distinct acc -> distinct (py_dedup acc l).
Proof.
  revert acc. induction l as [| x r IH]; intros acc Ha; cbn; [exact Ha |].
  destruct (py_mem x acc) eqn:Hx; [now apply IH |].
  apply IH. now apply distinct_snoc.
Qed.

Lemma py_dedup_of_distinct (acc l : list pyval) :
  distinct (acc ++ l) -> py_dedup acc l = acc ++ l.
Proof.
  revert acc. induction l as [| x r IH]; intros acc Hd; cbn.
  - now rewrite app_nil_r.
  - assert (Hx : py_mem x acc = false).
    { specialize (Hd (List.length acc) x).
      rewrite take_app_length in Hd. apply Hd.
      rewrite lookup_app_r by lia. now rewrite Nat.sub_diag. }
    rewrite Hx. rewrite IH; rewrite <- app_assoc; [reflexivity | exact Hd].
Qed.

Lemma py_dedup_idempotent (l : list pyval) :
  py_dedup [] (py_dedup [] l) = py_dedup [] l.
Proof.
  apply (py_dedup_of_distinct [] (py_dedup [] l)). cbn.
  apply py_dedup_distinct. intros i x Hi. discriminate.
Qed.

(** Converting twice is converting once. *)
Lemma obj_to_name_idempotent (v v' : pyval) :
  _obj_to_name v = Ok v' -> _obj_to_name v' = Ok v'.
Proof.
  revert v'. induction v using pyval_nested_ind; intros v' Hv;
    try (cbn in Hv; injection Hv as <-; reflexivity).
  - cbn in Hv. apply fmap_result_ok in Hv as (l' & Hl & ->). cbn.
    rewrite (mapR_fixed _obj_to_name l'); [reflexivity |].
    eapply mapR_Forall_out; [| exact Hl]. exact H.
  - cbn in Hv. apply fmap_result_ok in Hv as (l' & Hl & ->). cbn.
    rewrite (mapR_fixed _obj_to_name l'); [reflexivity |].
    eapply mapR_Forall_out; [| exact Hl]. exact H.
  - cbn in Hv.
    destruct (mapR _obj_to_name l) as [l' | e] eqn:Hl; cbn in Hv; [| discriminate].
    unfold py_set in Hv. destruct (forallb hashable l') eqn:Hh; [| discriminate].
    injection Hv as <-. cbn.
    assert (Hfix : Forall (fun y => _obj_to_name y = Ok y) l').
    { eapply mapR_Forall_out; [| exact Hl]. exact H. }
    rewrite (mapR_fixed _obj_to_name (py_dedup [] l')).
    2:{ apply py_dedup_subset; [constructor | exact Hfix]. }
    cbn. unfold py_set.
    replace (forallb hashable (py_dedup [] l')) with true.
    + now rewrite py_dedup_idempotent.
    + symmetry. apply forallb_Forall_true.
      apply py_dedup_subset; [constructor |]. now apply forallb_Forall_true.
  - rewrite obj_to_name_dict in Hv.
    apply fmap_result_ok in Hv as (d' & Hd & ->).
    rewrite obj_to_name_dict.
    rewrite mapR_fixed; [reflexivity |].
    apply mapR_ok_Forall2 in Hd.
    induction Hd as [| [k x] [k' y] r ys Hxy _ IH]; [constructor |].
    inversion H as [| ? ? Hx Hr]; subst. constructor; [| now apply IH].
    cbn in *. destruct (_obj_to_name x) as [x' | e] eqn:Ex; cbn in Hxy; [| discriminate].
    injection Hxy as <- <-. rewrite (Hx _ eq_refl). reflexivity.
  - cbn in Hv. destruct (h_kind o); injection Hv as <-; try reflexivity.
    cbn. rewrite mapR_fixed; [reflexivity |].
    apply Forall_forall. intros x Hx. apply list_elem_of_fmap in Hx as (s & -> & _).
    reflexivity.
Qed.

(** No handle is left in what [_obj_to_name] returns. *)
Lemma obj_to_name_handle_free (v v' : pyval) :
  _obj_to_name v = Ok v' -> handle_free v' = true.
Proof.
  revert v'. induction v using pyval_nested_ind; intros v' Hv;
    try (cbn in Hv; injection Hv as <-; reflexivity).
  - cbn in Hv. apply fmap_result_ok in Hv as (l' & Hl & ->). cbn.
    apply forallb_Forall_true. eapply mapR_Forall_out; [| exact Hl]. exact H.
  - cbn in Hv. apply fmap_result_ok in Hv as (l' & Hl & ->). cbn.
    apply forallb_Forall_true. eapply mapR_Forall_out; [| exact Hl]. exact H.
  - cbn in Hv.
    destruct (mapR _obj_to_name l) as [l' | e] eqn:Hl; cbn in Hv; [| discriminate].
    unfold py_set in Hv. destruct (forallb hashable l'); [| discriminate].
    injection Hv as <-. cbn. apply forallb_Forall_true.
    apply py_dedup_subset; [constructor |].
    eapply mapR_Forall_out; [| exact Hl]. exact H.
  - rewrite obj_to_name_dict in Hv.
    apply fmap_result_ok in Hv as (d' & Hd & ->).
    apply mapR_ok_Forall2 in Hd.
    induction Hd as [| [k x] [k' y] r ys Hxy _ IH]; [reflexivity |].
    inversion H as [| ? ? Hx Hr]; subst.
    cbn in Hxy, Hx. destruct (_obj_to_name x) as [x' | e] eqn:Ex; cbn in Hxy; [| discriminate].
    injection Hxy as <- <-. specialize (IH Hr). cbn in IH |- *.
    rewrite (Hx _ eq_refl). exact IH.
  - cbn in Hv. destruct (h_kind o); injection Hv as <-; try reflexivity.
    cbn. induction (h_strings o); cbn; auto.
Qed.

Lemma mapR_app {A B : Type} (f : A -> result B) (l1 l2 : list A)
    (l1' l2' : list B) :
  mapR f l1 = Ok l1' -> mapR f l2 = Ok l2' ->
  mapR f (l1 ++ l2) = Ok (l1' ++ l2').
Proof.
  intros H1 H2. apply mapR_ok_Forall2. apply Forall2_app.
  - now apply mapR_ok_Forall2.
  - now apply mapR_ok_Forall2.
Qed.

(** X2: A geometry handle in a set becomes a list of names, which no set can
    hold: when every element converts, the conversion of the set raises
    [TypeError]. *)
Theorem obj_to_name_set_of_geometry (o : handle) (l1 l2 l1' l2' : list pyval) :
  h_kind o = KGeom ->
  mapR _obj_to_name l1 = Ok l1' ->
  mapR _obj_to_name l2 = Ok l2' ->
  _obj_to_name (VSet (l1 ++ VObj o :: l2)) = Raise unhashable.
Proof.
  intros Hk H1 H2. cbn.
  rewrite (mapR_app _obj_to_name l1 (VObj o :: l2) l1'
             (VList (VStr <$> h_strings o) :: l2') H1).
  2:{ cbn. rewrite Hk. cbn. rewrite H2. reflexivity. }
  cbn. unfold py_set. rewrite forallb_app. cbn.
  now rewrite andb_false_r.
Qed.

(** X3: Handles that bind back from their names survive the way to the host
    and back: [_name_to_obj] undoes [_obj_to_name] on lists and tuples of
    node and attribute handles. *)
Theorem name_to_obj_undoes_obj_to_name (bind : string -> option handle)
    (str_of : pyval -> string) (sc : scope) (v : pyval) :
  handles_of bind v = true ->
  exists names,
    _obj_to_name v = Ok names
    /\ _name_to_obj bind str_of sc None names = Ok v.
Proof.
  induction v using pyval_nested_ind; cbn; intros Hv; try discriminate.
  - apply forallb_Forall_true in Hv.
    assert (Hall : exists l', mapR _obj_to_name l = Ok l'
                    /\ mapR (_name_to_obj bind str_of sc None) l' = Ok l).
    { clear -H Hv. induction H as [| x r Hx _ IH]; [exists []; split; reflexivity |].
      inversion Hv; subst. destruct (Hx H1) as (y & Hy & Hback).
      destruct (IH H2) as (ys & Hys & Hbacks).
      exists (y :: ys). cbn. rewrite Hy. cbn. rewrite Hys. cbn.
      rewrite Hback. cbn. rewrite Hbacks. split; reflexivity. }
    destruct Hall as (l' & Hl & Hb). exists (VList l'). rewrite Hl. cbn.
    rewrite Hb. split; reflexivity.
  - apply forallb_Forall_true in Hv.
    assert (Hall : exists l', mapR _obj_to_name l = Ok l'
                    /\ mapR (_name_to_obj bind str_of sc None) l' = Ok l).
    { clear -H Hv. induction H as [| x r Hx _ IH]; [exists []; split; reflexivity |].
      inversion Hv; subst. destruct (Hx H1) as (y & Hy & Hback).
      destruct (IH H2) as (ys & Hys & Hbacks).
      exists (y :: ys). cbn. rewrite Hy. cbn. rewrite Hys. cbn.
      rewrite Hback. cbn. rewrite Hbacks. split; reflexivity. }
    destruct Hall as (l' & Hl & Hb). exists (VTuple l'). rewrite Hl. cbn.
    rewrite Hb. split; reflexivity.
  - apply andb_true_iff in Hv as [Hk Hb].
    apply negb_true_iff, bool_decide_eq_false in Hk.
    apply bool_decide_eq_true in Hb.
    exists (VStr (h_name o)). split.
    + destruct (h_kind o); [reflexivity | reflexivity | congruence].
    + cbn. destruct sc; cbn; rewrite Hb; reflexivity.
Qed.

Lemma obj_to_name_set_of_geometry_witness :
  _obj_to_name
    (VSet ([VStr "pSphere1"] ++ VObj MoreSamples.cube_faces :: [VInt 2]))
  = Raise unhashable.
Proof.
  apply (obj_to_name_set_of_geometry MoreSamples.cube_faces
           [VStr "pSphere1"] [VInt 2] [VStr "pSphere1"] [VInt 2]);
    reflexivity.
Defined.

Lemma name_to_obj_undoes_obj_to_name_witness :
  exists names,
    _obj_to_name (VList [VObj MoreSamples.pCube1_handle;
                         VTuple [VObj MoreSamples.pCube1_tx]]) = Ok names
    /\ _name_to_obj MoreSamples.cube_bind (fun _ => "") SCOPE_NODE None names
       = Ok (VList [VObj MoreSamples.pCube1_handle;
                    VTuple [VObj MoreSamples.pCube1_tx]]).
Proof.
  apply (name_to_obj_undoes_obj_to_name MoreSamples.cube_bind (fun _ => "")
           SCOPE_NODE). vm_compute. reflexivity.
Defined.

(** X1: What [_obj_to_name] returns holds names only: no handle is left in
    it, at any depth of lists, tuples, sets and dict values, and
    converting it again changes nothing. *)
Theorem obj_to_name_names_only (v v' : pyval) :
  _obj_to_name v = Ok v' ->
  handle_free v' = true /\ _obj_to_name v' = Ok v'.
Proof.
  intros Hv. split.
  - exact (obj_to_name_handle_free v v' Hv).
  - exact (obj_to_name_idempotent v v' Hv).
Qed.

Lemma obj_to_name_names_only_witness :
  handle_free (VList [VStr "pCube1"; VList [VStr "pCube1.f[0:5]"]]) = true
  /\ _obj_to_name (VList [VStr "pCube1"; VList [VStr "pCube1.f[0:5]"]])
     = Ok (VList [VStr "pCube1"; VList [VStr "pCube1.f[0:5]"]]).
Proof.
  apply (obj_to_name_names_only
           (VList [VObj MoreSamples.pCube1_handle; VObj MoreSamples.cube_faces])).
  reflexivity.
Defined.

(** ** Vectors, points and matrices as arguments *)

Lemma mapR_item_of_seq (l : list pyval) (i n : nat) :
  (i + n <= List.length l)%nat ->
  mapR (item_of l) (seq i n) = Ok (take n (drop i l)).
Proof.
  revert i. induction n as [| n IH]; intros i Hn; cbn; [reflexivity |].
  destruct (l !! i) as [x |] eqn:Hx.
  2:{ apply lookup_ge_None in Hx. lia. }
  assert (item_of l i = Ok x) as -> by (unfold item_of; now rewrite Hx).
  cbn. rewrite IH by lia. cbn.
  rewrite (drop_S l x i Hx). reflexivity.
Qed.

Lemma mapR_item_of_short (l : list pyval) (i n : nat) :
  (i <= List.length l < i + n)%nat ->
  mapR (item_of l) (seq i n) = Raise index_error.
Proof.
  revert i. induction n as [| n IH]; intros i Hn; cbn; [lia |].
  destruct (l !! i) as [x |] eqn:Hx.
  - assert (item_of l i = Ok x) as -> by (unfold item_of; now rewrite Hx).
    apply lookup_lt_Some in Hx. cbn. rewrite IH by lia. reflexivity.
  - assert (item_of l i = Raise index_error) as ->
      by (unfold item_of; now rewrite Hx).
    reflexivity.
Qed.

Lemma dt_to_value_data (c : dt_class) (comps : list pyval) :
  _dt_to_value (VData c comps)
  = if (components c <=? List.length comps)%nat
    then Ok (VList (take (components c) comps))
    else Raise index_error.
Proof.
  destruct (components c <=? List.length comps)%nat eqn:Hc.
  - apply Nat.leb_le in Hc.
    destruct c; cbn [_dt_to_value components] in *;
      rewrite mapR_item_of_seq by (cbn; lia); reflexivity.
  - apply Nat.leb_gt in Hc.
    destruct c; cbn [_dt_to_value components] in *;
      rewrite mapR_item_of_short by (cbn; lia); reflexivity.
Qed.

(** X4: [_dt_to_value] on a vector, point or matrix: the list of its first 3,
    4 or 16 components, and [IndexError] when it has fewer. *)
Theorem dt_to_value_components (c : dt_class) (comps : list pyval) :
  _dt_to_value (VData c comps)
  = if (components c <=? List.length comps)%nat
    then Ok (VList (take (components c) comps))
    else Raise index_error.
Proof. apply dt_to_value_data. Qed.

(** X5: [setAttr] with a name and a vector, point or matrix: the host gets the
    name followed by the components, one argument each, and the keyword
    arguments as converted, with no [type] added; a failure of the host is
    raised as [MayaAttributeError]. *)
Theorem setAttr_datatype_components (h : host) (name : string) (c : dt_class)
    (comps : list pyval) (kwargs kwargs' : gmap string pyval)
    (log : list call) :
  (components c <= List.length comps)%nat ->
  _obj_to_name_kwargs kwargs = Ok kwargs' ->
  let sent := Call (Cmds "setAttr")
                (VStr name :: take (components c) comps) kwargs' in
  setAttr h [VStr name; VData c comps] kwargs log
  = (match respond h log sent with
     | Ok _ => Ok tt
     | Raise e => Raise (as_attribute_error e)
     end, log ++ [sent]).
Proof.
  intros Hc Hk sent. unfold setAttr.
  assert (Hd : _dt_to_value_args [VStr name; VData c comps]
               = Ok [VStr name; VList (take (components c) comps)]).
  { unfold _dt_to_value_args. cbn [mapR]. rewrite dt_to_value_data.
    apply Nat.leb_le in Hc. rewrite Hc. reflexivity. }
  cbn [_obj_to_name_args mapR _obj_to_name]. run_eff. cbn [mbind result_bind].
  rewrite Hd, Hk.
  assert (Hs : string_type_wanted
                 (flatten_args [VStr name; VList (take (components c) comps)])
                 kwargs' = false).
  { unfold string_type_wanted, flatten_args. cbn [foldl app].
    rewrite bool_decide_eq_false_2; [reflexivity |].
    cbn [List.length]. rewrite length_take.
    destruct c; unfold components in *; lia. }
  rewrite Hs. unfold flatten_args. cbn [foldl app].
  fold sent. destruct (respond h log sent); reflexivity.
Qed.

Lemma setAttr_datatype_components_witness :
  setAttr Samples.silent_host
    [VStr "pCube1.t"; VData Vector [VInt 1; VInt 2; VInt 3]] ∅ []
  = (Ok tt, [Call (Cmds "setAttr") [VStr "pCube1.t"; VInt 1; VInt 2; VInt 3] ∅]).
Proof.
  apply (setAttr_datatype_components Samples.silent_host "pCube1.t" Vector
           [VInt 1; VInt 2; VInt 3] ∅ ∅ []).
  - vm_compute. lia.
  - vm_compute. reflexivity.
Defined.

(** ** How often [getAttr] asks the host *)

Lemma lift_log {A : Type} (r : result A) (log : list call) :
  snd (lift r log) = log.
Proof. reflexivity. Qed.

(** X6: [getAttr] makes at most two calls, whatever the host answers, and both
    go to [cmds.getAttr]; the conversions to [datatypes] make none. *)
Theorem getAttr_at_most_two_calls (h : host) (args : list pyval)
    (kwargs : gmap string pyval) (log : list call) :
  exists calls,
    snd (getAttr h args kwargs log) = log ++ calls
    /\ (List.length calls <= 2)%nat
    /\ Forall (fun c => c_fn c = Cmds "getAttr") calls.
Proof.
  unfold getAttr.
  destruct (_obj_to_name_args args) as [args' | e] eqn:Ha; run_eff.
  2:{ exists []. rewrite app_nil_r. repeat split; [cbn; lia | constructor]. }
  destruct (_obj_to_name_kwargs kwargs) as [kwargs' | e] eqn:Hk; cbn [fst snd].
  2:{ exists []. rewrite app_nil_r. repeat split; [cbn; lia | constructor]. }
  set (c1 := Call (Cmds "getAttr") args' kwargs').
  assert (Hone : exists calls, log ++ [c1] = log ++ calls
                   /\ (List.length calls <= 2)%nat
                   /\ Forall (fun c => c_fn c = Cmds "getAttr") calls).
  { exists [c1]. repeat split; [cbn; lia | repeat constructor]. }
  destruct (respond h log c1) as [res | e]; [| exact Hone].
  destruct res as [| | | | | l | | | | |]; try exact Hone.
  destruct l as [| r0 l]; [exact Hone |].
  unfold getAttr_convert. run_eff.
  destruct (item_of args' 0) as [a0 | e]; cbn [fst snd]; [| exact Hone].
  set (c2 := Call (Cmds "getAttr") [a0] {[ "type" := VBool true ]}).
  assert (Htwo : exists calls, (log ++ [c1]) ++ [c2] = log ++ calls
                   /\ (List.length calls <= 2)%nat
                   /\ Forall (fun c => c_fn c = Cmds "getAttr") calls).
  { exists [c1; c2]. rewrite <- app_assoc.
    repeat split; [cbn; lia | repeat constructor]. }
  destruct (respond h (log ++ [c1]) c2) as [at_ | e]; [| exact Htwo].
  cbn [item_of lookup list_lookup].
  destruct r0; try destruct (py_eqb at_ (VStr "pointArray"));
    try destruct (py_eqb at_ (VStr "vectorArray"));
    try destruct (py_eqb at_ (VStr "matrix"));
    try destruct at_; try destruct (endswith "3" _);
    cbn [fst snd]; exact Htwo.
Qed.

(** X7: A list answer whose type is none of [pointArray], [vectorArray] and
    [matrix]: a list of plain values is returned whole; of a list that
    starts with a tuple only that tuple is kept, as a [Vector] when the
    type's name ends in 3.  The type is asked of the first argument
    alone. *)
Theorem getAttr_list_answer (h : host) (args : list pyval) (a0 : pyval)
    (rest : list pyval) (kwargs kwargs' : gmap string pyval)
    (r0 : pyval) (l : list pyval) (ty : string) (log : list call) :
  _obj_to_name_args args = Ok (a0 :: rest) ->
  _obj_to_name_kwargs kwargs = Ok kwargs' ->
  let c1 := Call (Cmds "getAttr") (a0 :: rest) kwargs' in
  let c2 := Call (Cmds "getAttr") [a0] {[ "type" := VBool true ]} in
  respond h log c1 = Ok (VList (r0 :: l)) ->
  respond h (log ++ [c1]) c2 = Ok (VStr ty) ->
  ty <> "pointArray" -> ty <> "vectorArray" -> ty <> "matrix" ->
  getAttr h args kwargs log
  = (match r0 with
     | VTuple _ => if endswith "3" ty then dt_new h Vector [r0] else Ok r0
     | _ => Ok (VList (r0 :: l))
     end, (log ++ [c1]) ++ [c2]).
Proof.
  intros Ha Hk c1 c2 H1 H2 Np Nv Nm. unfold getAttr. rewrite Ha, Hk. run_eff.
  fold c1. rewrite H1. unfold getAttr_convert. run_eff.
  cbn [item_of lookup list_lookup]. fold c2. rewrite H2.
  assert (Ep : py_eqb (VStr ty) (VStr "pointArray") = false)
    by (cbn; now apply bool_decide_eq_false_2).
  assert (Ev : py_eqb (VStr ty) (VStr "vectorArray") = false)
    by (cbn; now apply bool_decide_eq_false_2).
  assert (Em : py_eqb (VStr ty) (VStr "matrix") = false)
    by (cbn; now apply bool_decide_eq_false_2).
  destruct r0; rewrite ?Ep, ?Ev, ?Em; try reflexivity.
  destruct (endswith "3" ty); reflexivity.
Qed.

Lemma getAttr_list_answer_witness :
  getAttr MoreSamples.translate_scene [VStr "pCube1.t"] ∅ []
  = (Ok (VData Vector [VTuple [VInt 1; VInt 2; VInt 3]]),
     [Call (Cmds "getAttr") [VStr "pCube1.t"] ∅;
      Call (Cmds "getAttr") [VStr "pCube1.t"] {[ "type" := VBool true ]}]).
Proof.
  apply (getAttr_list_answer MoreSamples.translate_scene [VStr "pCube1.t"]
           (VStr "pCube1.t") [] ∅ ∅ (VTuple [VInt 1; VInt 2; VInt 3]) []
           "double3" []);
    vm_compute; first [reflexivity | discriminate].
Defined.

(** ** The filters of [listHistory] *)

Lemma filterM_sublist (p : pyval -> M bool) (l kept : list pyval)
    (log log' : list call) :
  filterM p l log = (Ok kept, log') -> sublist kept l.
Proof.
  revert kept log log'. induction l as [| x r IH]; intros kept log log' H.
  - cbn in H. injection H as <- _. constructor.
  - cbn [filterM] in H. unfold mbind, Eff_bind in H.
    destruct (p x log) as [[keep | e] log1]; [| discriminate].
    destruct (filterM p r log1) as [[r' | e] log2] eqn:Hr; [| discriminate].
    unfold mret, Eff_ret in H. injection H as <- _.
    specialize (IH _ _ _ Hr).
    destruct keep; [now apply sublist_skip | now apply sublist_cons].
Qed.

(** X8: [exactType] is looked at first: when it is given, [type] plays no
    part; and the handles that a filter of [listHistory] returns are
    built from some of the names the host listed, in the host's order. *)
Theorem listHistory_filters (h : host) (args args' : list pyval)
    (type exactType : pyval) (kwargs kwargs' : gmap string pyval)
    (log : list call) (res0 : pyval) (xs : list pyval) :
  _obj_to_name_args args = Ok args' ->
  _obj_to_name_kwargs kwargs = Ok kwargs' ->
  respond h log (Call (Cmds "listHistory") args' kwargs') = Ok res0 ->
  py_iter (py_or res0 (VList [])) = Ok xs ->
  (truthy exactType = true ->
   listHistory h args type exactType kwargs log
   = listHistory h args VNone exactType kwargs log)
  /\ (truthy exactType || truthy type = true ->
      forall v log',
        listHistory h args type exactType kwargs log = (Ok v, log') ->
        exists kept log1,
          sublist kept xs
          /\ name_to_obj h SCOPE_NODE None (VList kept) log1 = (Ok v, log')).
Proof.
  intros Ha Hk Hr Hx. split.
  - intros He. unfold listHistory. rewrite Ha, Hk. run_eff.
    rewrite Hr. rewrite He. reflexivity.
  - intros Hf v log' Hrun. unfold listHistory in Hrun.
    rewrite Ha, Hk in Hrun. unfold mbind at 1 2 3, Eff_bind, lift in Hrun.
    unfold host_call at 1 in Hrun. rewrite Hr in Hrun.
    destruct (truthy exactType) eqn:He.
    + unfold mbind at 1, Eff_bind, lift in Hrun. rewrite Hx in Hrun.
      unfold mbind at 1, Eff_bind in Hrun.
      match type of Hrun with
      | context [filterM ?p xs ?lg] =>
          destruct (filterM p xs lg) as [[kept | e] log1] eqn:Hkept;
            [| discriminate]
      end.
      exists kept, log1. split; [| exact Hrun].
      eapply filterM_sublist; exact Hkept.
    + cbn in Hf. rewrite Hf in Hrun.
      unfold mbind at 1, Eff_bind, lift in Hrun. rewrite Hx in Hrun.
      unfold mbind at 1, Eff_bind in Hrun.
      match type of Hrun with
      | context [filterM ?p xs ?lg] =>
          destruct (filterM p xs lg) as [[kept | e] log1] eqn:Hkept;
            [| discriminate]
      end.
      exists kept, log1. split; [| exact Hrun].
      eapply filterM_sublist; exact Hkept.
Qed.

Lemma listHistory_filters_witness :
  listHistory Samples.cube_scene [VStr "pCube1"] (VStr "shape")
    (VStr "mesh") ∅ []
  = listHistory Samples.cube_scene [VStr "pCube1"] VNone (VStr "mesh") ∅ [].
Proof.
  refine (proj1 (listHistory_filters Samples.cube_scene [VStr "pCube1"]
                   [VStr "pCube1"] (VStr "shape") (VStr "mesh") ∅ ∅ []
                   (VList [VStr "pCubeShape1"; VStr "ghost"])
                   [VStr "pCubeShape1"; VStr "ghost"] _ _ _ _) _);
    vm_compute; reflexivity.
Defined.

(** ** [hasAttr] *)

Lemma hasAttr_shapes_run (h : host) (attr has0 : pyval) (shapes : list pyval)
    (q : pyval -> pyval) (log : list call) :
  truthy has0 = false ->
  (forall log' s, s ∈ shapes -> respond h log' (attribute_query attr s) = Ok (q s)) ->
  exists has,
    hasAttr_shapes h attr has0 shapes log
    = (Ok has, log ++ (attribute_query attr <$> up_to (fun s => truthy (q s)) shapes))
    /\ truthy has = existsb (fun s => truthy (q s)) shapes.
Proof.
  revert has0 log. induction shapes as [| s r IH]; intros has0 log H0 Hq.
  - exists has0. cbn. rewrite app_nil_r. split; [reflexivity | exact H0].
  - cbn [hasAttr_shapes up_to existsb]. run_eff.
    fold (attribute_query attr s).
    rewrite (Hq log s) by (left).
    destruct (truthy (q s)) eqn:Hs.
    + exists (q s). split; [reflexivity | exact Hs].
    + destruct (IH (q s) (log ++ [attribute_query attr s]) Hs) as (has & Hrun & Ht).
      { intros log' s' Hs'. apply Hq. now right. }
      exists has. rewrite Hrun. cbn [fmap list_fmap].
      rewrite <- app_assoc. split; [reflexivity | exact Ht].
Qed.

(** X9: The node is asked first.  When it has the attribute, or when
    [checkShape] is false, that answer is returned and nothing else is
    asked. *)
Theorem hasAttr_node_answer (h : host) (obj name attr checkShape has : pyval)
    (log : list call) :
  _obj_to_name obj = Ok name ->
  respond h log (attribute_query attr name) = Ok has ->
  truthy has || negb (truthy checkShape) = true ->
  hasAttr h obj attr checkShape log
  = (Ok has, log ++ [attribute_query attr name]).
Proof.
  intros Hn Hr Hc. unfold hasAttr. rewrite Hn. run_eff.
  fold (attribute_query attr name). rewrite Hr.
  destruct (truthy has); cbn in Hc |- *; [reflexivity |].
  apply negb_true_iff in Hc. rewrite Hc. reflexivity.
Qed.

(** X10: When the node lacks the attribute and [checkShape] is true, the shapes
    are listed and asked in turn, up to the first that has it; the result
    is true exactly when some shape has it.  The host here answers a query
    by its arguments alone. *)
Theorem hasAttr_checks_shapes_until_found (h : host)
    (obj name attr checkShape has0 rel : pyval) (shapes : list pyval)
    (q : pyval -> pyval) (log : list call) :
  _obj_to_name obj = Ok name ->
  let c0 := attribute_query attr name in
  let crel := Call (Cmds "listRelatives") [name] {[ "s" := VBool true ]} in
  respond h log c0 = Ok has0 ->
  truthy has0 = false ->
  truthy checkShape = true ->
  respond h (log ++ [c0]) crel = Ok rel ->
  py_iter (py_or rel (VList [])) = Ok shapes ->
  (forall log' s, s ∈ shapes ->
     respond h log' (attribute_query attr s) = Ok (q s)) ->
  exists has,
    hasAttr h obj attr checkShape log
    = (Ok has,
       log ++ [c0; crel]
           ++ (attribute_query attr <$> up_to (fun s => truthy (q s)) shapes))
    /\ truthy has = existsb (fun s => truthy (q s)) shapes.
Proof.
  intros Hn c0 crel Hr H0 Hc Hrel Hit Hq. unfold hasAttr. rewrite Hn. run_eff.
  fold (attribute_query attr name). fold c0. rewrite Hr, H0, Hc. cbn [negb andb].
  fold crel. rewrite Hrel, Hit.
  destruct (hasAttr_shapes_run h attr has0 shapes q ((log ++ [c0]) ++ [crel]) H0 Hq)
    as (has & Hrun & Ht).
  exists has. rewrite Hrun. split; [| exact Ht].
  f_equal. rewrite <- !app_assoc. reflexivity.
Qed.

Lemma hasAttr_node_answer_witness :
  hasAttr MoreSamples.shapes_scene (VObj (Handle KNode "pCubeShape1" []))
    (VStr "inMesh") (VBool true) []
  = (Ok (VBool true), [attribute_query (VStr "inMesh") (VStr "pCubeShape1")]).
Proof.
  apply (hasAttr_node_answer MoreSamples.shapes_scene
           (VObj (Handle KNode "pCubeShape1" [])) (VStr "pCubeShape1")
           (VStr "inMesh") (VBool true) (VBool true) []);
    vm_compute; reflexivity.
Defined.

Lemma hasAttr_checks_shapes_until_found_witness :
  exists has,
    hasAttr MoreSamples.shapes_scene (VStr "pCube1") (VStr "inMesh")
      (VBool true) []
    = (Ok has,
       [attribute_query (VStr "inMesh") (VStr "pCube1");
        Call (Cmds "listRelatives") [VStr "pCube1"] {[ "s" := VBool true ]};
        attribute_query (VStr "inMesh") (VStr "pCubeShape1")])
    /\ truthy has = true.
Proof.
  pose (q := fun s => match s with
                      | VStr n => VBool (bool_decide (n = "pCubeShape1"))
                      | _ => VNone
                      end).
  assert (Hq : forall (log' : list call) (s : pyval),
             s ∈ [VStr "pCubeShape1"; VStr "pCubeShape1Orig"] ->
             respond MoreSamples.shapes_scene log'
               (attribute_query (VStr "inMesh") s) = Ok (q s)).
  { intros log' s Hs. apply list_elem_of_In in Hs. cbn in Hs.
    destruct Hs as [<- | [<- | []]]; vm_compute; reflexivity. }
  destruct (hasAttr_checks_shapes_until_found MoreSamples.shapes_scene
              (VStr "pCube1") (VStr "pCube1") (VStr "inMesh") (VBool true)
              (VBool false)
              (VList [VStr "pCubeShape1"; VStr "pCubeShape1Orig"])
              [VStr "pCubeShape1"; VStr "pCubeShape1Orig"] q []
              eq_refl eq_refl eq_refl eq_refl eq_refl eq_refl Hq)
    as (has & Hrun & Ht).
  exists has. split; [exact Hrun | exact Ht].
Defined.

(** ** The time argument of [keyframe] and [cutKey] *)

(** The wrapped form of a time value: a number becomes a 1-tuple. *)
Lemma with_time_lookup (kwargs : gmap string pyval) :
  let t := match kwargs !! "time" with
           | Some t => t
           | None => default VNone (kwargs !! "k")
           end in
  with_time kwargs !! "k" = None
  /\ with_time kwargs !! "time"
     = (if is_none t then None
        else Some (if is_number t then VTuple [t] else t))
  /\ (forall key, key <> "k" -> key <> "time" ->
      with_time kwargs !! key = kwargs !! key).
Proof.
  intros t. unfold with_time, pop_time.
  assert (Ht : default (default VNone (kwargs !! "k"))
                 (delete "k" kwargs !! "time") = t).
  { rewrite lookup_delete_ne by discriminate.
    unfold t. destruct (kwargs !! "time"); reflexivity. }
  rewrite Ht. destruct (is_none t) eqn:Hn.
  - repeat split.
    + rewrite lookup_delete_ne by discriminate. apply lookup_delete_eq.
    + apply lookup_delete_eq.
    + intros key Hk Htm. now rewrite !lookup_delete_ne by congruence.
  - repeat split.
    + rewrite lookup_insert_ne by discriminate.
      rewrite lookup_delete_ne by discriminate. apply lookup_delete_eq.
    + apply lookup_insert_eq.
    + intros key Hk Htm. rewrite lookup_insert_ne by congruence.
      now rewrite !lookup_delete_ne by congruence.
Qed.

(** X11: [keyframe] and [cutKey] send the same keyword arguments: the key [k]
    never, [time] only as a value that is neither [None] nor a bare
    number (a number is sent as a 1-tuple), every other key as converted.
    The time is taken from [time] when that key is present, even with the
    value [None], and from [k] otherwise. *)
Theorem keyframe_cutKey_time (h : host) (args args' : list pyval)
    (kwargs kwargs' : gmap string pyval) (log : list call) :
  _obj_to_name_args args = Ok args' ->
  _obj_to_name_kwargs kwargs = Ok kwargs' ->
  exists sent,
    keyframe h args kwargs log
    = (respond h log (Call (Cmds "keyframe") args' sent),
       log ++ [Call (Cmds "keyframe") args' sent])
    /\ cutKey h args kwargs log
       = (respond h log (Call (Cmds "cutKey") args' sent),
          log ++ [Call (Cmds "cutKey") args' sent])
    /\ sent !! "k" = None
    /\ (forall v, sent !! "time" = Some v ->
          is_none v = false /\ is_number v = false)
    /\ (forall t, kwargs' !! "time" = Some t ->
          sent !! "time"
          = if is_none t then None
            else Some (if is_number t then VTuple [t] else t))
    /\ (forall t, kwargs' !! "time" = None -> kwargs' !! "k" = Some t ->
          sent !! "time"
          = if is_none t then None
            else Some (if is_number t then VTuple [t] else t))
    /\ (forall key, key <> "k" -> key <> "time" ->
          sent !! key = kwargs' !! key).
Proof.
  intros Ha Hk. exists (with_time kwargs').
  destruct (with_time_lookup kwargs') as (Lk & Lt & Lo).
  split; [| split; [| split; [exact Lk | split; [| split; [| split; [| exact Lo]]]]]].
  - unfold keyframe. rewrite Ha, Hk. reflexivity.
  - unfold cutKey. rewrite Ha, Hk. reflexivity.
  - intros v Hv. rewrite Lt in Hv.
    destruct (kwargs' !! "time") as [t |]; [| destruct (kwargs' !! "k") as [t |]];
      cbn in Hv; try discriminate;
      destruct (is_none t) eqn:Hn; try discriminate;
      destruct (is_number t) eqn:Hnum; injection Hv as <-; auto.
  - intros t Ht. rewrite Lt, Ht. reflexivity.
  - intros t Ht Hkk. rewrite Lt, Ht, Hkk. reflexivity.
Qed.

Lemma keyframe_cutKey_time_witness :
  exists sent,
    keyframe Samples.silent_host [VStr "pCube1"]
      (<[ "k" := VInt 12 ]> {[ "q" := VBool true ]}) []
    = (Ok VNone, [Call (Cmds "keyframe") [VStr "pCube1"] sent])
    /\ sent !! "k" = None
    /\ sent !! "time" = Some (VTuple [VInt 12])
    /\ sent !! "q" = Some (VBool true).
Proof.
  destruct (keyframe_cutKey_time Samples.silent_host [VStr "pCube1"]
              [VStr "pCube1"] (<[ "k" := VInt 12 ]> {[ "q" := VBool true ]})
              (<[ "k" := VInt 12 ]> {[ "q" := VBool true ]}) [])
    as (sent & Hkf & _ & Hk & _ & _ & Hfromk & Hother).
  - vm_compute. reflexivity.
  - vm_compute. reflexivity.
  - exists sent. split; [exact Hkf |]. split; [exact Hk |]. split.
    + apply (Hfromk (VInt 12)); vm_compute; reflexivity.
    + rewrite Hother by discriminate. vm_compute. reflexivity.
Defined.

(** ** [disconnectAttr] *)

Import Pairing.

Lemma forM_pairs (h : host) (kwargs : gmap string pyval) (first_plus_one : bool)
    (k : nat) :
  forall (p l : list pyval) (log : list call),
    List.length l = (2 * k)%nat ->
    (forall log' x y, exists v,
        respond h log' (Call (Cmds "disconnectAttr") [x; y] kwargs) = Ok v) ->
    forM (range_from (List.length p) 2 k)
      (fun i =>
         if first_plus_one then
           x ← lift (py_item (VList (p ++ l)) (i + 1));
           y ← lift (py_item (VList (p ++ l)) i);
           _ ← host_call h (Cmds "disconnectAttr") [x; y] kwargs;
           mret tt
         else
           x ← lift (py_item (VList (p ++ l)) i);
           y ← lift (py_item (VList (p ++ l)) (i + 1));
           _ ← host_call h (Cmds "disconnectAttr") [x; y] kwargs;
           mret tt) log
    = (Ok tt,
       log ++ ((fun q => Call (Cmds "disconnectAttr")
                           (if first_plus_one then [snd q; fst q]
                            else [fst q; snd q]) kwargs) <$> pairs l)).
Proof.
  induction k as [| k IH]; intros p l log Hl Hok.
  - destruct l; [| discriminate]. cbn. now rewrite app_nil_r.
  - destruct l as [| a [| b r]]; try (cbn in Hl; lia).
    cbn [range_from forM pairs fmap list_fmap].
    assert (Ha : item_of (p ++ a :: b :: r) (List.length p) = Ok a).
    { apply item_of_some. rewrite lookup_app_r by lia.
      now rewrite Nat.sub_diag. }
    assert (Hb : item_of (p ++ a :: b :: r) (List.length p + 1) = Ok b).
    { apply item_of_some. rewrite lookup_app_r by lia.
      replace (List.length p + 1 - List.length p)%nat with 1%nat by lia.
      reflexivity. }
    assert (Hnext : forall body,
               forM (range_from (List.length p + 2) 2 k) body
               = forM (range_from (List.length (p ++ [a; b])) 2 k) body).
    { intros body. rewrite length_app. reflexivity. }
    assert (Hl' : List.length r = (2 * k)%nat) by (cbn in Hl; lia).
    assert (Hpl : p ++ a :: b :: r = (p ++ [a; b]) ++ r)
      by (rewrite <- app_assoc; reflexivity).
    destruct first_plus_one.
    + unfold mbind at 1. unfold Eff_bind at 1.
      unfold py_item at 1 2. run_eff. rewrite Ha, Hb.
      destruct (Hok log b a) as (v & ->).
      fold (@mbind (Eff call) _). 
      specialize (IH (p ++ [a; b]) r
                    (log ++ [Call (Cmds "disconnectAttr") [b; a] kwargs]) Hl' Hok).
      cbn beta iota in IH. run_eff.
      rewrite Hnext, Hpl. rewrite IH. cbn [fst snd].
      rewrite <- app_assoc. reflexivity.
    + unfold mbind at 1. unfold Eff_bind at 1.
      unfold py_item at 1 2. run_eff. rewrite Ha, Hb.
      destruct (Hok log a b) as (v & ->).
      specialize (IH (p ++ [a; b]) r
                    (log ++ [Call (Cmds "disconnectAttr") [a; b] kwargs]) Hl' Hok).
      cbn beta iota in IH. run_eff.
      rewrite Hnext, Hpl. rewrite IH. cbn [fst snd].
      rewrite <- app_assoc. reflexivity.
Qed.

(** X12: With one argument [disconnectAttr] breaks every connection of it:
    the incoming ones first, each as (other plug, own plug), then the
    outgoing ones, each as (own plug, other plug), in the order in which
    the host lists them.  With any other number of arguments it forwards
    the one call. *)
Theorem disconnectAttr_breaks_all (h : host) (args args' : list pyval)
    (kwargs kwargs' : gmap string pyval) (log : list call) :
  _obj_to_name_args args = Ok args' ->
  _obj_to_name_kwargs kwargs = Ok kwargs' ->
  (forall log' x, exists v,
      respond h log' (Call (Cmds "disconnectAttr") x kwargs') = Ok v) ->
  (List.length args' <> 1%nat ->
   disconnectAttr h args kwargs log
   = (Ok tt, log ++ [Call (Cmds "disconnectAttr") args' kwargs']))
  /\ (forall a rs rd cs cd ks kd,
        args' = [a] ->
        let ask_in := Call (Cmds "listConnections") [a] (plugs_of_side true) in
        let ask_out := Call (Cmds "listConnections") [a] (plugs_of_side false) in
        let breaks_in :=
          (fun q => Call (Cmds "disconnectAttr") [snd q; fst q] kwargs')
            <$> pairs cs in
        let breaks_out :=
          (fun q => Call (Cmds "disconnectAttr") [fst q; snd q] kwargs')
            <$> pairs cd in
        respond h log ask_in = Ok rs ->
        py_or rs (VList []) = VList cs ->
        List.length cs = (2 * ks)%nat ->
        respond h (log ++ ask_in :: breaks_in) ask_out = Ok rd ->
        py_or rd (VList []) = VList cd ->
        List.length cd = (2 * kd)%nat ->
        disconnectAttr h args kwargs log
        = (Ok tt,
           log ++ ask_in :: breaks_in ++ ask_out :: breaks_out)).
Proof.
  intros Ha Hk Hok. split.
  - intros Hn. unfold disconnectAttr. rewrite Ha, Hk. run_eff.
    destruct args' as [| a [| b r]]; cbn in Hn; try lia.
    + destruct (Hok log []) as (v & ->). reflexivity.
    + destruct (Hok log (a :: b :: r)) as (v & ->). reflexivity.
  - intros a rs rd cs cd ks kd -> ask_in ask_out breaks_in breaks_out
      Hrs Hcs Hks Hrd Hcd Hkd.
    assert (Hok2 : forall log' x y, exists v,
               respond h log' (Call (Cmds "disconnectAttr") [x; y] kwargs') = Ok v).
    { intros log' x y. apply Hok. }
    pose proof (forM_pairs h kwargs' true ks [] cs (log ++ [ask_in]) Hks Hok2)
      as Hin.
    pose proof (forM_pairs h kwargs' false kd [] cd
                  ((log ++ ask_in :: breaks_in) ++ [ask_out]) Hkd Hok2) as Hout.
    cbn beta iota in Hin, Hout. cbn [app List.length] in Hin, Hout.
    unfold disconnectAttr. rewrite Ha, Hk.
    unfold mbind at 1 2. unfold Eff_bind at 1 2. unfold lift at 1 2.
    unfold mbind at 1. unfold Eff_bind at 1. unfold host_call at 1.
    fold ask_in. rewrite Hrs, Hcs.
    unfold mbind at 1. unfold Eff_bind at 1. unfold lift at 1.
    cbn [py_len]. rewrite Hks, range_step_even.
    unfold mbind at 1. unfold Eff_bind at 1.
    rewrite Hin. fold breaks_in.
    replace ((log ++ [ask_in]) ++ breaks_in) with (log ++ ask_in :: breaks_in)
      by (rewrite <- app_assoc; reflexivity).
    unfold mbind at 1. unfold Eff_bind at 1. unfold host_call at 1.
    fold ask_out. rewrite Hrd, Hcd.
    unfold mbind at 1. unfold Eff_bind at 1. unfold lift at 1.
    cbn [py_len]. rewrite Hkd, range_step_even.
    rewrite Hout. fold breaks_out. f_equal.
    rewrite <- !app_assoc. reflexivity.
Qed.

Lemma disconnectAttr_breaks_all_witness :
  disconnectAttr MoreSamples.driven_scene [VStr "pCube1.tx"] ∅ []
  = (Ok tt,
     [Call (Cmds "listConnections") [VStr "pCube1.tx"] (plugs_of_side true);
      Call (Cmds "disconnectAttr") [VStr "anim.output"; VStr "pCube1.tx"] ∅;
      Call (Cmds "listConnections") [VStr "pCube1.tx"] (plugs_of_side false);
      Call (Cmds "disconnectAttr") [VStr "pCube1.tx"; VStr "cond.firstTerm"] ∅]).
Proof.
  assert (Hok : forall (log' : list call) (x : list pyval), exists v,
             respond MoreSamples.driven_scene log'
               (Call (Cmds "disconnectAttr") x ∅) = Ok v).
  { intros log' x. exists VNone. reflexivity. }
  exact (proj2 (disconnectAttr_breaks_all MoreSamples.driven_scene
                  [VStr "pCube1.tx"] [VStr "pCube1.tx"] ∅ ∅ []
                  eq_refl eq_refl Hok)
           (VStr "pCube1.tx")
           (VList [VStr "pCube1.tx"; VStr "anim.output"])
           (VList [VStr "pCube1.tx"; VStr "cond.firstTerm"])
           [VStr "pCube1.tx"; VStr "anim.output"]
           [VStr "pCube1.tx"; VStr "cond.firstTerm"] 1%nat 1%nat
           eq_refl eq_refl eq_refl eq_refl eq_refl eq_refl eq_refl).
Defined.

(** ** [sets] *)

Lemma sets_regroup_unflagged (pre rest : list (string * pyval))
    (args : list pyval) (kwargs : gmap string pyval) :
  Forall unflagged pre ->
  sets_regroup (pre ++ rest) args kwargs = sets_regroup rest args kwargs.
Proof.
  induction 1 as [| [flag value] pre [H1 H2] _ IH]; [reflexivity |].
  cbn [app sets_regroup]. cbn [fst] in H1, H2.
  rewrite bool_decide_eq_false_2 by exact H1.
  rewrite bool_decide_eq_false_2 by exact H2.
  exact IH.
Qed.

(** X13: [sets] looks for the first keyword argument that is a flag of one of
    the two kinds.  Without one it forwards the call as it is.  At a flag
    that names a set to work with, the first positional argument becomes
    the flag's value and the flag's value becomes the positional
    arguments: the elements of a tuple, list or set, a single string, or
    nothing for any other value.  At a flag that works on one set, the
    first positional argument becomes the flag's value and no positional
    argument is left.  In both cases a call without positional arguments
    raises [IndexError] before the host is asked. *)
Theorem sets_regroups_at_first_flag (h : host) (args args' : list pyval)
    (items items' : list (string * pyval)) (log : list call) :
  _obj_to_name_args args = Ok args' ->
  _obj_to_name_items items = Ok items' ->
  let forward (a : list pyval) (k : gmap string pyval) :=
    (res ← host_call h (Cmds "sets") a k;
     name_to_obj h SCOPE_NODE None res) log in
  (Forall unflagged items' ->
   sets h args items log = forward args' (list_to_map items'))
  /\ (forall pre flag value post,
        items' = pre ++ (flag, value) :: post ->
        Forall unflagged pre ->
        flag ∈ _set_set_flags \/ flag ∈ _set_flags ->
        sets h args items log
        = match args' with
          | a0 :: _ =>
              forward
                (if bool_decide (flag ∈ _set_set_flags)
                 then members_of value else [])
                (<[ flag := a0 ]> (list_to_map items'))
          | [] => (Raise index_error, log)
          end).
Proof.
  intros Ha Hi forward. split.
  - intros Hun. unfold sets. rewrite Ha, Hi. run_eff.
    rewrite <- (app_nil_r items') at 1.
    rewrite sets_regroup_unflagged by exact Hun. reflexivity.
  - intros pre flag value post -> Hun Hflag.
    unfold sets. rewrite Ha, Hi. run_eff.
    rewrite sets_regroup_unflagged by exact Hun.
    cbn [sets_regroup].
    destruct (bool_decide (flag ∈ _set_set_flags)) eqn:H1.
    + destruct args' as [| a0 rest]; reflexivity.
    + apply bool_decide_eq_false in H1.
      destruct Hflag as [Hf | Hf]; [contradiction |].
      rewrite bool_decide_eq_true_2 by exact Hf.
      destruct args' as [| a0 rest]; reflexivity.
Qed.

Lemma sets_regroups_at_first_flag_witness :
  sets Samples.silent_host [VStr "bodySet"]
    [("edit", VBool true); ("add", VList [VStr "pCube1"; VStr "pCube2"])] []
  = (Ok VNone,
     [Call (Cmds "sets") [VStr "pCube1"; VStr "pCube2"]
        (<[ "add" := VStr "bodySet" ]>
           (list_to_map
              [("edit", VBool true);
               ("add", VList [VStr "pCube1"; VStr "pCube2"])]))]).
Proof.
  refine (proj2 (sets_regroups_at_first_flag Samples.silent_host
                   [VStr "bodySet"] [VStr "bodySet"]
                   [("edit", VBool true);
                    ("add", VList [VStr "pCube1"; VStr "pCube2"])]
                   [("edit", VBool true);
                    ("add", VList [VStr "pCube1"; VStr "pCube2"])] []
                   eq_refl eq_refl)
            [("edit", VBool true)] "add"
            (VList [VStr "pCube1"; VStr "pCube2"]) [] eq_refl _ _).
  - constructor; [| constructor]. split; vm_compute; intros H;
      repeat (apply elem_of_cons in H as [H | H]; [discriminate |]);
      now apply elem_of_nil in H.
  - left. vm_compute. repeat first [now left | right].
Defined.

(** ** The cache of the [mel] proxy *)

Import Runs Invariants.

Lemma mel_wf_insert (st : mel_state) (name : string) (body : callable) :
  mel_wf st ->
  mel_cmds st !! name = None ->
  ordinary_attr name = false ->
  body = CmdWrap name false SCOPE_NODE \/ body = MelProc name ->
  mel_wf (MelState (<[ name := FnObj (mel_built st) body ]> (mel_cmds st))
            (S (mel_built st))).
Proof.
  intros [Hwf Hinj] Hnone Ho Hb. split.
  - intros n f Hf. cbn in Hf |- *.
    destruct (decide (n = name)) as [-> | Hne].
    + rewrite lookup_insert_eq in Hf. injection Hf as <-. cbn.
      split; [lia | split; [exact Hb | exact Ho]].
    + rewrite lookup_insert_ne in Hf by congruence.
      destruct (Hwf n f Hf) as (Hlt & Hbody & Hord).
      split; [lia | split; [exact Hbody | exact Hord]].
  - intros n1 n2 f1 f2 H1 H2 Hid. cbn in H1, H2.
    destruct (decide (n1 = name)) as [-> | Hne1];
      destruct (decide (n2 = name)) as [-> | Hne2]; [reflexivity | | |].
    + rewrite lookup_insert_eq in H1. injection H1 as <-.
      rewrite lookup_insert_ne in H2 by congruence.
      destruct (Hwf n2 f2 H2) as (Hlt & _). cbn in Hid. lia.
    + rewrite lookup_insert_eq in H2. injection H2 as <-.
      rewrite lookup_insert_ne in H1 by congruence.
      destruct (Hwf n1 f1 H1) as (Hlt & _). cbn in Hid. lia.
    + rewrite lookup_insert_ne in H1 by congruence.
      rewrite lookup_insert_ne in H2 by congruence.
      eapply Hinj; eauto.
Qed.

Lemma mel_lookup_wf (h : host) (name : string) (st : mel_state)
    (log : list call) :
  mel_wf st -> mel_wf (snd (fst (mel_lookup h name st log))).
Proof.
  intros Hwf. unfold mel_lookup, _Mel_getattribute.
  destruct (ordinary_attr name) eqn:Ho; run_eff; [exact Hwf |].
  destruct (mel_cmds st !! name) as [g |] eqn:Hn; [exact Hwf |].
  destruct (bool_decide (name = "eval")); [exact Hwf |].
  destruct (has_cmd h name).
  - cbn. apply mel_wf_insert; auto.
  - destruct (respond h log _) as [res | e]; [| exact Hwf].
    destruct res; try exact Hwf.
    destruct (endswith ".mel" s); [| exact Hwf].
    cbn. apply mel_wf_insert; auto.
Qed.

(** X16: Whatever is looked up on the proxy, on whatever hosts, from its first
    state on: a cached function calls the command or procedure of the
    name it is cached under, no two names share a function object, and no
    name of an ordinary attribute gets into the cache. *)
Theorem mel_cache_well_formed (steps : list (host * string))
    (log : list call) :
  mel_wf (fst (mel_lookups steps mel_new log)).
Proof.
  assert (Hgen : forall st log0, mel_wf st ->
                   mel_wf (fst (mel_lookups steps st log0))).
  { induction steps as [| [h n] r IH]; intros st log0 Hwf; cbn; [exact Hwf |].
    pose proof (mel_lookup_wf h n st log0 Hwf) as Hstep.
    destruct (mel_lookup h n st log0) as [[res st'] log']. cbn in Hstep.
    now apply IH. }
  apply Hgen. split.
  - intros name f Hf. cbn in Hf. rewrite lookup_empty in Hf. discriminate.
  - intros n1 n2 f1 f2 H1. cbn in H1. rewrite lookup_empty in H1. discriminate.
Qed.



(** ** Names and paths *)

Import Node PyStr NodeMore.

Lemma split_nonempty (sep : ascii) (s : string) : split sep s <> [].
Proof.
  destruct s as [| c r]; cbn; [discriminate |].
  destruct (bool_decide (c = sep)); [discriminate |].
  destruct (split sep r); discriminate.
Qed.

Lemma join_cons (sep : ascii) (p : string) (ps : list string) :
  ps <> [] ->
  join sep (p :: ps) = String.append p (String sep (join sep ps)).
Proof. destruct ps; [congruence | reflexivity]. Qed.

Lemma join_split (sep : ascii) (s : string) : join sep (split sep s) = s.
Proof.
  induction s as [| c r IH]; [reflexivity |].
  cbn [split]. destruct (bool_decide (c = sep)) eqn:Hc.
  - apply bool_decide_eq_true in Hc. subst c.
    rewrite join_cons by apply split_nonempty. cbn. now rewrite IH.
  - pose proof (split_nonempty sep r) as Hne.
    destruct (split sep r) as [| p ps]; [congruence |].
    destruct ps as [| q qs].
    + cbn in IH |- *. now rewrite IH.
    + rewrite join_cons in IH by discriminate.
      rewrite join_cons by discriminate.
      transitivity (String c (String.append p (String sep (join sep (q :: qs)))));
        [reflexivity | now rewrite IH].
Qed.

Lemma split_pieces (sep : ascii) (s : string) :
  Forall (fun p => has_char sep p = false) (split sep s).
Proof.
  induction s as [| c r IH]; cbn [split]; [repeat constructor |].
  destruct (bool_decide (c = sep)) eqn:Hc.
  - constructor; [reflexivity | exact IH].
  - destruct (split sep r) as [| p ps]; [repeat constructor; cbn; now rewrite Hc |].
    inversion IH; subst. constructor; [| assumption].
    cbn. rewrite Hc. assumption.
Qed.

Lemma split_without (sep : ascii) (s : string) :
  has_char sep s = false -> split sep s = [s].
Proof.
  induction s as [| c r IH]; cbn [split has_char]; [reflexivity |].
  intros H. apply orb_false_iff in H as [Hc Hr].
  rewrite Hc, (IH Hr). reflexivity.
Qed.

Lemma split_append (sep : ascii) (p s : string) :
  has_char sep p = false ->
  split sep (String.append p (String sep s)) = p :: split sep s.
Proof.
  induction p as [| c r IH]; cbn [String.append split has_char].
  - intros _. change (split sep (String sep s) = EmptyString :: split sep s).
    cbn [split]. rewrite bool_decide_eq_true_2 by reflexivity. reflexivity.
  - intros H. apply orb_false_iff in H as [Hc Hr].
    change (split sep (String c (String.append r (String sep s)))
            = String c r :: split sep s).
    cbn [split]. rewrite Hc, (IH Hr). reflexivity.
Qed.

Lemma split_join (sep : ascii) (ps : list string) :
  ps <> [] ->
  Forall (fun p => has_char sep p = false) ps ->
  split sep (join sep ps) = ps.
Proof.
  induction ps as [| p ps IH]; [congruence |].
  intros _ HF. inversion HF as [| ? ? Hp Hps]; subst.
  destruct ps as [| q qs].
  - cbn. now apply split_without.
  - rewrite join_cons by discriminate.
    rewrite split_append by exact Hp.
    rewrite IH; [reflexivity | discriminate | exact Hps].
Qed.

(** The pieces of a split hold no character that the string did not
    hold. *)
Lemma split_keeps_out (sep c : ascii) (s : string) :
  has_char c s = false ->
  Forall (fun p => has_char c p = false) (split sep s).
Proof.
  induction s as [| d r IH]; cbn [split has_char]; [repeat constructor |].
  intros H. apply orb_false_iff in H as [Hd Hr]. specialize (IH Hr).
  destruct (bool_decide (d = sep)).
  - constructor; [reflexivity | exact IH].
  - destruct (split sep r) as [| p ps]; [repeat constructor; cbn; now rewrite Hd |].
    inversion IH; subst. constructor; [| assumption].
    cbn. now rewrite Hd.
Qed.

Lemma has_char_append (c : ascii) (s t : string) :
  has_char c (String.append s t) = has_char c s || has_char c t.
Proof.
  induction s as [| d r IH]; [reflexivity |].
  change (bool_decide (d = c) || has_char c (String.append r t)
          = (bool_decide (d = c) || has_char c r) || has_char c t).
  rewrite IH. now rewrite orb_assoc.
Qed.

Lemma has_char_join (sep c : ascii) (ps : list string) :
  sep <> c ->
  Forall (fun p => has_char c p = false) ps ->
  has_char c (join sep ps) = false.
Proof.
  intros Hsc. induction 1 as [| p ps Hp _ IH]; [reflexivity |].
  destruct ps as [| q qs]; [exact Hp |].
  rewrite join_cons by discriminate.
  rewrite has_char_append, Hp. cbn.
  rewrite bool_decide_eq_false_2 by exact Hsc. exact IH.
Qed.

Lemma last_piece_in (l : list string) (P : string -> Prop) :
  l <> [] -> Forall P l -> P (last_piece l).
Proof.
  intros Hne HF. unfold last_piece.
  induction HF as [| p ps Hp Hps IH]; [congruence |].
  destruct ps as [| q qs]; [exact Hp |].
  apply IH. discriminate.
Qed.

Lemma but_last_last (l : list string) :
  l <> [] -> l = but_last l ++ [last_piece l].
Proof.
  intros Hne. unfold but_last, last_piece.
  induction l as [| p ps IH]; [congruence |].
  destruct ps as [| q qs]; [reflexivity |].
  assert (IH' : q :: qs
                = take (List.length qs) (q :: qs)
                  ++ [List.last (q :: qs) EmptyString]).
  { assert (Hlen : (List.length (q :: qs) - 1 = List.length qs)%nat)
      by (cbn [List.length]; lia).
    rewrite Hlen in IH. apply IH. discriminate. }
  change (p :: q :: qs
          = p :: (take (List.length qs) (q :: qs)
                  ++ [List.last (q :: qs) EmptyString])).
  f_equal. exact IH'.
Qed.

Lemma string_append_assoc (s t u : string) :
  String.append (String.append s t) u = String.append s (String.append t u).
Proof.
  induction s as [| c r IH]; [reflexivity |].
  change (String c (String.append (String.append r t) u)
          = String c (String.append r (String.append t u))).
  now rewrite IH.
Qed.

Lemma join_snoc (sep : ascii) (ps : list string) (p : string) :
  ps <> [] ->
  join sep (ps ++ [p])
  = String.append (join sep ps) (String sep p).
Proof.
  induction ps as [| q qs IH]; [congruence |]. intros _.
  destruct qs as [| r rs]; [reflexivity |].
  change ((q :: r :: rs) ++ [p]) with (q :: ((r :: rs) ++ [p])).
  rewrite join_cons by (cbn; discriminate).
  rewrite IH by discriminate.
  rewrite (join_cons sep q (r :: rs)) by discriminate.
  rewrite string_append_assoc. reflexivity.
Qed.

Lemma stripNamespace_no_colon (name : string) :
  has_char ":" (stripNamespace name) = false.
Proof.
  unfold stripNamespace. apply has_char_join; [discriminate |].
  apply Forall_fmap. apply Forall_forall. intros x _. cbn.
  apply (last_piece_in (split ":" x) (fun p => has_char ":" p = false)).
  - apply split_nonempty.
  - apply split_pieces.
Qed.

Lemma strip_pieces (name : string) :
  let ps := (fun x => last_piece (split ":" x)) <$> split "|" name in
  ps <> []
  /\ Forall (fun p => has_char "|" p = false) ps
  /\ Forall (fun p => has_char ":" p = false) ps.
Proof.
  cbn zeta. split; [| split].
  - pose proof (split_nonempty "|" name) as Hne.
    destruct (split "|" name); [congruence | discriminate].
  - apply Forall_fmap. eapply Forall_impl; [apply (split_pieces "|" name) |].
    intros x Hx. cbn.
    apply (last_piece_in (split ":" x) (fun p => has_char "|" p = false)).
    + apply split_nonempty.
    + now apply split_keeps_out.
  - apply Forall_fmap. apply Forall_forall. intros x _. cbn.
    apply (last_piece_in (split ":" x) (fun p => has_char ":" p = false)).
    + apply split_nonempty.
    + apply split_pieces.
Qed.

Lemma stripNamespace_idempotent (name : string) :
  stripNamespace (stripNamespace name) = stripNamespace name.
Proof.
  destruct (strip_pieces name) as (Hne & Hbar & Hcolon).
  unfold stripNamespace at 1. fold (stripNamespace name).
  unfold stripNamespace at 1.
  rewrite split_join by assumption.
  unfold stripNamespace. f_equal.
  set (ps := (fun x => last_piece (split ":" x)) <$> split "|" name) in *.
  clearbody ps. clear Hne Hbar.
  induction Hcolon as [| p ps Hp _ IH]; [reflexivity |].
  cbn [fmap list_fmap]. rewrite (split_without ":" p Hp).
  f_equal. exact IH.
Qed.

(** X18: [stripNamespace] leaves no colon in the name, in any segment of a
    path, and stripping twice is stripping once. *)
Theorem stripNamespace_strips (name : string) :
  has_char ":" (stripNamespace name) = false
  /\ stripNamespace (stripNamespace name) = stripNamespace name.
Proof.
  split; [apply stripNamespace_no_colon | apply stripNamespace_idempotent].
Qed.

(** X19: For a name that is no path, the namespace followed by the stripped
    name is the name. *)
Theorem namespace_then_stripped (name : string) :
  has_char "|" name = false ->
  String.append (namespace name) (stripNamespace name) = name.
Proof.
  intros Hbar. unfold namespace, stripNamespace.
  rewrite (split_without "|" name Hbar).
  change (last_piece [name]) with name. cbn [fmap list_fmap].
  change (join "|" [last_piece (split ":" name)])
    with (last_piece (split ":" name)).
  pose proof (but_last_last (split ":" name) (split_nonempty ":" name)) as Hl.
  pose proof (join_split ":" name) as Hj.
  destruct (but_last (split ":" name)) as [| q qs] eqn:Hb.
  - rewrite Hl in Hj. cbn in Hj. exact Hj.
  - rewrite Hl in Hj. rewrite join_snoc in Hj by discriminate.
    rewrite string_append_assoc. exact Hj.
Qed.

Lemma namespace_then_stripped_witness :
  String.append (namespace "rig:arm:elbow_jnt") (stripNamespace "rig:arm:elbow_jnt")
  = "rig:arm:elbow_jnt".
Proof.
  apply (namespace_then_stripped "rig:arm:elbow_jnt"). vm_compute. reflexivity.
Defined.






(** ** The shape names of [curve] *)

Lemma has_char_remove (c : ascii) (s : string) :
  has_char c (remove_char c s) = false.
Proof.
  induction s as [| d r IH]; [reflexivity |].
  cbn [remove_char]. destruct (bool_decide (d = c)) eqn:Hd; [exact IH |].
  cbn [has_char]. now rewrite Hd, IH.
Qed.

Lemma rename_shapes_plain (h : host) (t : string) (shapes : list pyval)
    (i : nat) (log : list call) :
  exists calls,
    snd (rename_shapes h t i shapes log) = log ++ calls
    /\ Forall renames_plainly calls.
Proof.
  revert i log. induction shapes as [| shape r IH]; intros i log.
  - exists []. cbn. rewrite app_nil_r. split; [reflexivity | constructor].
  - cbn [rename_shapes]. run_eff.
    set (c1 := Call (Cmds "rename") [shape; VStr (indexed_shape_name t i)] ∅).
    destruct (respond h log c1) as [v | e]; cbn [snd].
    + destruct (IH (S i) (log ++ [c1])) as (calls & Hrun & Hall).
      exists (c1 :: calls). rewrite Hrun, <- app_assoc. split; [reflexivity |].
      constructor; [| exact Hall].
      intros _. exists shape, (indexed_shape_name t i).
      split; [reflexivity | apply has_char_remove].
    + exists [c1]. split; [reflexivity |]. constructor; [| constructor].
      intros _. exists shape, (indexed_shape_name t i).
      split; [reflexivity | apply has_char_remove].
Qed.

Ltac plain_calls l :=
  exists l; rewrite <- ?app_assoc; split;
  [reflexivity
  | repeat constructor; intros Hfn; try discriminate Hfn ].

(** X14: Whatever the host answers, no shape is renamed to a name with a path
    separator in it: every [rename] that [curve] sends gives a name
    without ["|"]. *)
Theorem curve_shape_names_plain (h : host) (args : list pyval)
    (kwargs : gmap string pyval) (log : list call) :
  exists calls,
    snd (curve h args kwargs log) = log ++ calls
    /\ Forall renames_plainly calls.
Proof.
  unfold curve, name_to_obj. run_eff.
  set (c1 := Call (Cmds "curve") args kwargs).
  destruct (respond h log c1) as [curve_obj | e]; cbn [snd];
    [| plain_calls [c1] ].
  set (c2 := Call (Cmds "ls") [curve_obj] {[ "long" := VBool false ]}).
  destruct (respond h (log ++ [c1]) c2) as [found | e]; cbn [snd];
    [| plain_calls [c1; c2] ].
  destruct (py_item found 0) as [tn | e]; cbn [snd];
    [| plain_calls [c1; c2] ].
  set (c3 := Call (Cmds "listRelatives") [tn]
               (<[ "fullPath" := VBool true ]> {[ "shapes" := VBool true ]})).
  destruct (respond h ((log ++ [c1]) ++ [c2]) c3) as [listed | e]; cbn [snd];
    [| plain_calls [c1; c2; c3] ].
  destruct (py_len (py_or listed (VList []))) as [n | e]; cbn [snd];
    [| plain_calls [c1; c2; c3] ].
  destruct (bool_decide (n = 1%nat)).
  - destruct (py_item (py_or listed (VList [])) 0) as [shape | e]; cbn [snd];
      [| plain_calls [c1; c2; c3] ].
    destruct tn; cbn [snd]; try (plain_calls [c1; c2; c3]).
    set (c4 := Call (Cmds "rename") [shape; VStr (single_shape_name s)] ∅).
    assert (H4 : renames_plainly c4).
    { intros _. exists shape, (single_shape_name s). split; [reflexivity |].
      unfold single_shape_name. rewrite has_char_append, has_char_remove.
      reflexivity. }
    destruct (respond h (((log ++ [c1]) ++ [c2]) ++ [c3]) c4) as [v | e];
      cbn [snd];
      (exists [c1; c2; c3; c4]; rewrite <- ?app_assoc; split;
       [reflexivity
       | repeat (constructor; [first [exact H4 | intros Hfn; discriminate Hfn] |]);
         constructor ]).
  - destruct (py_iter (py_or listed (VList []))) as [l | e]; cbn [snd];
      [| plain_calls [c1; c2; c3] ].
    match goal with
    | |- context [rename_shapes h ?t 1 l ?lg] =>
        destruct (rename_shapes_plain h t l 1 lg) as (calls & Hrun & Hall);
        destruct (rename_shapes h t 1 l lg) as [[u | e] log4]
    end; cbn [snd] in Hrun |- *; subst log4;
      (exists ([c1; c2; c3] ++ calls); rewrite <- ?app_assoc; split;
       [reflexivity
       | apply Forall_app; split; [| exact Hall];
         repeat constructor; intros Hfn; discriminate Hfn ]).
Qed.

(** X15: With one shape under the new transform, the shape is renamed to the
    name of the transform without its path separators, followed by
    [Shape]; the transform is what [curve] returns. *)
Theorem curve_single_shape (h : host) (args : list pyval)
    (kwargs : gmap string pyval) (log : list call)
    (curve_obj found shape renamed : pyval) (t : string) :
  let c1 := Call (Cmds "curve") args kwargs in
  let c2 := Call (Cmds "ls") [curve_obj] {[ "long" := VBool false ]} in
  let c3 := Call (Cmds "listRelatives") [VStr t]
              (<[ "fullPath" := VBool true ]> {[ "shapes" := VBool true ]}) in
  let c4 := Call (Cmds "rename") [shape; VStr (single_shape_name t)] ∅ in
  respond h log c1 = Ok curve_obj ->
  respond h (log ++ [c1]) c2 = Ok found ->
  py_item found 0 = Ok (VStr t) ->
  respond h (log ++ [c1; c2]) c3 = Ok (VList [shape]) ->
  respond h (log ++ [c1; c2; c3]) c4 = Ok renamed ->
  curve h args kwargs log
  = (Ok (match PyNode h (log ++ [c1; c2; c3; c4]) t with
         | Some o => VObj o
         | None => VStr t
         end),
     log ++ [c1; c2; c3; c4])
  /\ has_char "|" (single_shape_name t) = false.
Proof.
  intros c1 c2 c3 c4 H1 H2 Ht H3 H4. split.
  - unfold curve, name_to_obj. run_eff.
    fold c1. rewrite H1. fold c2. rewrite H2, Ht. fold c3.
    replace ((log ++ [c1]) ++ [c2]) with (log ++ [c1; c2])
      by (rewrite <- app_assoc; reflexivity).
    rewrite H3.
    assert (Hor : py_or (VList [shape]) (VList []) = VList [shape])
      by reflexivity.
    rewrite Hor. cbn [py_len List.length].
    rewrite bool_decide_eq_true_2 by reflexivity.
    cbn [py_item item_of lookup list_lookup]. fold c4.
    replace ((log ++ [c1; c2]) ++ [c3]) with (log ++ [c1; c2; c3])
      by (rewrite <- app_assoc; reflexivity).
    rewrite H4.
    replace ((log ++ [c1; c2; c3]) ++ [c4]) with (log ++ [c1; c2; c3; c4])
      by (rewrite <- app_assoc; reflexivity).
    cbn [_name_to_obj bound_name].
    destruct (PyNode h (log ++ [c1; c2; c3; c4]) t); reflexivity.
  - unfold single_shape_name. rewrite has_char_append, has_char_remove.
    reflexivity.
Qed.

Lemma curve_single_shape_witness :
  curve MoreSamples.curve_scene [] {[ "d" := VInt 1 ]} []
  = (Ok (VStr "|grp|curve1"),
     [Call (Cmds "curve") [] {[ "d" := VInt 1 ]};
      Call (Cmds "ls") [VStr "curve1"] {[ "long" := VBool false ]};
      Call (Cmds "listRelatives") [VStr "|grp|curve1"]
        (<[ "fullPath" := VBool true ]> {[ "shapes" := VBool true ]});
      Call (Cmds "rename")
        [VStr "|grp|curve1|curveShape1"; VStr "grpcurve1Shape"] ∅]).
Proof.
  refine (proj1 (curve_single_shape MoreSamples.curve_scene []
                   {[ "d" := VInt 1 ]} [] (VStr "curve1")
                   (VList [VStr "|grp|curve1"])
                   (VStr "|grp|curve1|curveShape1")
                   (VStr "curve1") "|grp|curve1" _ _ _ _ _));
    vm_compute; reflexivity.
Defined.

(** ** The first shape of a node *)

Lemma name_to_obj_names (bind : string -> option handle)
    (str_of : pyval -> string) (names : list string) :
  mapR (_name_to_obj bind str_of SCOPE_NODE None) (VStr <$> names)
  = Ok ((fun s => match bind s with Some o => VObj o | None => VStr s end)
          <$> names).
Proof.
  induction names as [| s r IH]; [reflexivity |].
  cbn [fmap list_fmap mapR]. cbn [_name_to_obj bound_name].
  change (list_fmap string pyval VStr r) with (VStr <$> r).
  rewrite IH. destruct (bind s); reflexivity.
Qed.

(** X21: [getShape] asks for the shapes of the node and gives the first one,
    as a handle when the name binds; for a node without shapes, where the
    host answers [None] or an empty list, it gives [None] and does not
    raise. *)
Theorem getShape_first_or_none (h : host) (node name : pyval)
    (kwargs kwargs' : gmap string pyval) (ans : pyval) (names : list string)
    (log : list call) :
  _obj_to_name node = Ok name ->
  _obj_to_name_kwargs
    (<[ "shapes" := VBool true ]> (delete "shapes" (delete "s" kwargs)))
  = Ok kwargs' ->
  let sent := Call (Cmds "listRelatives") [name] kwargs' in
  respond h log sent = Ok ans ->
  (ans = VNone /\ names = []) \/ ans = VList (VStr <$> names) ->
  _getShape h node kwargs log
  = (Ok (match names with
         | [] => VNone
         | s :: _ =>
             match PyNode h (log ++ [sent]) s with
             | Some o => VObj o
             | None => VStr s
             end
         end), log ++ [sent]).
Proof.
  intros Hn Hk sent Hr Hans.
  unfold _getShape, _getShapes, module_wrapper, _pymaya_cmd_wrap.
  unfold _obj_to_name_args. cbn [mapR]. rewrite Hn. cbn [mbind result_bind].
  run_eff. rewrite Hk. fold sent. rewrite Hr.
  assert (Hc : constraint_result "listRelatives" kwargs' ans = Ok ans)
    by reflexivity.
  rewrite Hc.
  assert (Hw : negb (bool_decide ("listRelatives" ∈ DO_NOT_CAST_FUNCS)) = true)
    by reflexivity.
  rewrite Hw.
  assert (Hs : bool_decide ("listRelatives" ∈ SCOPE_ATTR_FUNCS) = false)
    by (vm_compute; reflexivity).
  rewrite Hs. unfold name_to_obj. run_eff.
  assert (Hl : list_result "listRelatives" ans = VList (VStr <$> names)).
  { destruct Hans as [[-> ->] | ->]; reflexivity. }
  rewrite Hl. cbn [_name_to_obj].
  rewrite name_to_obj_names. cbn [fmap result_fmap].
  destruct names as [| s r]; reflexivity.
Qed.

Lemma getShape_first_or_none_witness :
  _getShape Samples.silent_host (VObj MoreSamples.pCube1_handle)
    {[ "s" := VBool false ]} []
  = (Ok VNone,
     [Call (Cmds "listRelatives") [VStr "pCube1"] {[ "shapes" := VBool true ]}]).
Proof.
  apply (getShape_first_or_none Samples.silent_host
           (VObj MoreSamples.pCube1_handle) (VStr "pCube1")
           {[ "s" := VBool false ]} {[ "shapes" := VBool true ]} VNone [] []).
  - reflexivity.
  - vm_compute. reflexivity.
  - reflexivity.
  - left. split; reflexivity.
Defined.

(** ** Indexed attribute names *)

Lemma take_digits_append (d t : string) :
  all_digits d = true ->
  (match t with String c _ => is_digit c = false | EmptyString => True end) ->
  take_digits (String.append d t) = (d, t).
Proof.
  induction d as [| c r IH]; intros Hd Ht.
  - change (String.append EmptyString t) with t.
    destruct t as [| c r]; [reflexivity |]. cbn [take_digits]. now rewrite Ht.
  - cbn [all_digits] in Hd. apply andb_true_iff in Hd as [Hc Hr].
    change (String.append (String c r) t) with (String c (String.append r t)).
    cbn [take_digits]. rewrite Hc, (IH Hr Ht). reflexivity.
Qed.

Lemma match_index_other (c : ascii) (r : string) :
  c <> "["%char -> match_index (String c r) = None.
Proof.
  intros Hc.
  destruct c as [[] [] [] [] [] [] [] []]; try reflexivity. congruence.
Qed.

Lemma search_index_indexed (base d rest : string) (pos : nat) :
  has_char "[" base = false ->
  d <> EmptyString ->
  all_digits d = true ->
  search_index pos (indexed_name base d rest)
  = Some ((pos + String.length base)%nat, d).
Proof.
  intros Hb Hd Hdig. revert pos.
  induction base as [| c r IH]; intros pos.
  - unfold indexed_name. change (String.append EmptyString ?x) with x.
    unfold search_index.
    assert (Hm : match_index (String "[" (String.append d (String "]" rest)))
                 = Some d).
    { unfold match_index. rewrite take_digits_append; [| exact Hdig | reflexivity].
      destruct d; [congruence | reflexivity]. }
    destruct rest; cbn [search_index]; rewrite Hm; cbn [String.length];
      f_equal; f_equal; lia.
  - cbn [has_char] in Hb. apply orb_false_iff in Hb as [Hc Hr].
    apply bool_decide_eq_false in Hc.
    unfold indexed_name.
    change (String.append (String c r) ?x) with (String c (String.append r x)).
    cbn [search_index]. rewrite match_index_other by exact Hc.
    fold (indexed_name r d rest). rewrite (IH Hr).
    cbn [String.length]. f_equal. f_equal. lia.
Qed.

Lemma substring_prefix (s t : string) :
  String.substring 0 (String.length s) (String.append s t) = s.
Proof.
  induction s as [| c r IH]; [destruct t; reflexivity |].
  change (String.append (String c r) t) with (String c (String.append r t)).
  cbn [String.length String.substring]. now rewrite IH.
Qed.

(** X22: A name with an index, [base[d]rest], that is not in the cache: [attr]
    looks for the plug of [base] and returns its element at index [d],
    cached under the whole name. *)
Theorem attr_indexed (a : api) (n : node) (base d rest p q : string)
    (checkShape : bool) :
  n_attrs n !! indexed_name base d rest = None ->
  has_char "[" base = false ->
  d <> EmptyString ->
  all_digits d = true ->
  findPlug a (n_obj n) base = Some p ->
  plug_element a p (int_of_digits d) = Ok q ->
  exists n',
    attr a n (indexed_name base d rest) checkShape
    = Ok (Attribute (S (n_built n)) q, n')
    /\ n_attrs n'
       = <[ indexed_name base d rest := Attribute (S (n_built n)) q ]> (n_attrs n)
    /\ n_obj n' = n_obj n.
Proof.
  intros Hmiss Hb Hd Hdig Hp Hq. unfold attr. rewrite Hmiss.
  rewrite (search_index_indexed base d rest 0 Hb Hd Hdig).
  cbn [Nat.add].
  assert (Hsub : String.substring 0 (String.length base)
                   (indexed_name base d rest) = base)
    by apply substring_prefix.
  rewrite Hsub.
  unfold find_plug. rewrite Hp. cbn [mbind result_bind]. rewrite Hq.
  cbn [mbind result_bind]. eexists. split; [reflexivity |]. split; reflexivity.
Qed.

Lemma attr_indexed_witness :
  exists n',
    attr MoreSamples.skin_api MoreSamples.skinCluster1 "weightList[12].weights" true
    = Ok (Attribute 1 "skinCluster1.weightList[12]", n')
    /\ n_attrs n'
       = <[ "weightList[12].weights" := Attribute 1 "skinCluster1.weightList[12]" ]> ∅
    /\ n_obj n' = n_obj MoreSamples.skinCluster1.
Proof.
  apply (attr_indexed MoreSamples.skin_api MoreSamples.skinCluster1
           "weightList" "12" ".weights" "skinCluster1.weightList"
           "skinCluster1.weightList[12]" true);
    first [discriminate | vm_compute; reflexivity].
Defined.

(** ** Classes by name on the registry *)

Lemma lower_upper (c : ascii) : lower c = c -> lower (upper c) = c.
Proof.
  destruct c as [[] [] [] [] [] [] [] []]; vm_compute; congruence.
Qed.

(** X23: A class registered for a type name that does not start with a capital
    is found as the attribute of the capitalised name; and the class that
    [registerClass] builds for such a name is found under its own
    [__name__].  The lookup changes nothing. *)
Theorem registry_class_by_name (a : api) (c : ascii) (r : string)
    (st : types_state) :
  lower c = c ->
  registry_ordinary (String (upper c) r) = false ->
  (forall cls,
      types st !! String c r = Some cls ->
      _NodeTypes_getattribute a (String (upper c) r) st = Ok (Class cls, st))
  /\ (exists st',
        registerClass (String c r) None st = Ok st'
        /\ _NodeTypes_getattribute a (String (upper c) r) st'
           = Ok (Class (Generated (classes_built st) (String (upper c) r)), st')).
Proof.
  intros Hc Ho.
  assert (Hfind : forall s cls,
             types s !! String c r = Some cls ->
             _NodeTypes_getattribute a (String (upper c) r) s = Ok (Class cls, s)).
  { intros s cls Hcls. unfold _NodeTypes_getattribute. rewrite Ho.
    rewrite (lower_upper c Hc).
    rewrite (getTypeClass_hit a (String c r) s cls Hcls). reflexivity. }
  split; [apply Hfind |].
  eexists. split; [reflexivity |].
  apply Hfind. cbn. apply lookup_insert_eq.
Qed.

Lemma registry_class_by_name_witness :
  _NodeTypes_getattribute Samples.cube_api "Joint" nt
  = Ok (Class (Declared "Joint"), nt).
Proof.
  refine (proj1 (registry_class_by_name Samples.cube_api "j" "oint" nt _ _)
            (Declared "Joint") _); vm_compute; reflexivity.
Defined.

(** X24: A name that is no registered type and no node type of the host: the
    lookup raises [AttributeError]; a name that is a node type of the host
    gets its class built at the lookup, and the same class is given at
    the next one. *)
Theorem registry_attribute_miss (a : api) (c : ascii) (r : string)
    (st : types_state) :
  registry_ordinary (String c r) = false ->
  types st !! String (lower c) r = None ->
  (String (lower c) r ∉ all_node_types a ->
   _NodeTypes_getattribute a (String c r) st
   = Raise (no_registry_attribute (String c r)))
  /\ (String (lower c) r ∈ all_node_types a ->
      exists cls st',
        _NodeTypes_getattribute a (String c r) st = Ok (Class cls, st')
        /\ cls = Generated (classes_built st) (String (upper (lower c)) r)
        /\ _NodeTypes_getattribute a (String c r) st' = Ok (Class cls, st')).
Proof.
  intros Ho Hmiss. split.
  - intros Hnot. unfold _NodeTypes_getattribute. rewrite Ho.
    unfold getTypeClass. rewrite Hmiss.
    rewrite bool_decide_eq_false_2 by exact Hnot. reflexivity.
  - intros Hin. eexists _, _. split; [| split].
    + unfold _NodeTypes_getattribute. rewrite Ho.
      unfold getTypeClass. rewrite Hmiss.
      rewrite bool_decide_eq_true_2 by exact Hin.
      cbn [registerClass mbind result_bind types].
      rewrite lookup_insert_eq. reflexivity.
    + reflexivity.
    + unfold _NodeTypes_getattribute. rewrite Ho.
      unfold getTypeClass. cbn [types]. rewrite lookup_insert_eq. reflexivity.
Qed.

Lemma registry_attribute_miss_witness :
  _NodeTypes_getattribute Samples.cube_api "Locator" nt
  = Raise (no_registry_attribute "Locator").
Proof.
  refine (proj1 (registry_attribute_miss Samples.cube_api "L" "ocator" nt _ _) _).
  - vm_compute. reflexivity.
  - vm_compute. reflexivity.
  - vm_compute. intros H. repeat (apply elem_of_cons in H as [H | H];
      [discriminate |]). now apply elem_of_nil in H.
Defined.

(** ** The clip rows and the export node *)

Import AnimClip Clips AnimClipMore.

Lemma on_update_idle (c : collaborators) (w : AnimClipWidget) (log : list ecall) :
  negb (export_node_get c log && _fbx_exporter w) = true ->
  _on_update_anim_clip c w log = (Ok w, log).
Proof.
  intros H. unfold _on_update_anim_clip. run_eff.
  destruct (_fbx_exporter w); cbn; [| reflexivity].
  rewrite andb_true_r in H. rewrite H.
  destruct (truthy (get_root_joint c log)); reflexivity.
Qed.

Lemma emit_idle (c : collaborators) (changed : bool) (w : AnimClipWidget)
    (log : list ecall) :
  negb (export_node_get c log && _fbx_exporter w) = true ->
  emit c changed w log = (Ok w, log).
Proof.
  intros H. unfold emit. destruct changed; [| reflexivity].
  now rewrite on_update_idle.
Qed.

Lemma clear_idle (c : collaborators) (w : AnimClipWidget) (log : list ecall) :
  negb (export_node_get c log && _fbx_exporter w) = true ->
  _clear c w log
  = (Ok (with_checked (with_end (with_start (with_title w "Untitled") "") "")
           false), log).
Proof.
  intros H. unfold _clear.
  rewrite (bind_ok _ _ _ _ _ (emit_idle c _ (with_title w "Untitled") log H)).
  rewrite (bind_ok _ _ _ _ _
             (emit_idle c _ (with_start (with_title w "Untitled") "") log H)).
  rewrite (bind_ok _ _ _ _ _
             (emit_idle c _
                (with_end (with_start (with_title w "Untitled") "") "") log H)).
  apply emit_idle. exact H.
Qed.

Lemma refresh_quiet (c : collaborators) (w : AnimClipWidget)
    (log : list ecall) :
  exists w',
    refresh c w log = (Ok w', log)
    /\ _clip_name w' = _clip_name w
    /\ _previous_name w' = _previous_name w.
Proof.
  unfold refresh. run_eff.
  destruct (negb (export_node_get c log && _fbx_exporter w)) eqn:H.
  - rewrite (clear_idle c w log H). eexists. repeat split.
  - eexists. repeat split.
Qed.

(** X25: [refresh] of a row only reads: it returns, with the row's clip name
    as it was, and makes no call on the export node, whether or not there
    is a node or an exporter window. *)
Theorem refresh_only_reads (c : collaborators) (w : AnimClipWidget)
    (log : list ecall) :
  exists w',
    refresh c w log = (Ok w', log)
    /\ _clip_name w' = _clip_name w
    /\ _previous_name w' = _previous_name w.
Proof. apply refresh_quiet. Qed.

Lemma AnimClipWidget_init_only_reads (c : collaborators) (clip_name : string)
    (parent : bool) (log : list ecall) :
  exists w,
    AnimClipWidget_init c clip_name parent log = (Ok w, log)
    /\ _clip_name w = clip_name.
Proof.
  unfold AnimClipWidget_init.
  destruct (refresh_quiet c
              (ClipRow parent clip_name clip_name "" [] "" "" "" true) log)
    as (w & Hw & Hn & _).
  exists w. split; [exact Hw | exact Hn].
Qed.

Lemma add_stored_rows (c : collaborators) (clips : list stored_clip)
    (lw : AnimClipsListWidget) (log : list ecall) :
  exists lw',
    add_stored c clips lw log = (Ok lw', log)
    /\ row_names lw' = row_names lw ++ titled clips.
Proof.
  revert lw. induction clips as [| d r IH]; intros lw.
  - exists lw. cbn. now rewrite app_nil_r.
  - cbn [add_stored titled omap list_omap].
    destruct (sc_title d) as [n |]; [| apply IH].
    destruct (bool_decide (n = "")); [apply IH |].
    unfold _add_animation_clip.
    destruct (AnimClipWidget_init_only_reads c n (l_fbx_exporter lw) log)
      as (w & Hw & Hn).
    run_eff. rewrite Hw. cbn [snd].
    destruct (IH (with_rows lw (_clips_layout lw ++ [w]))) as (lw' & Hrun & Hrows).
    exists lw'. split; [exact Hrun |].
    rewrite Hrows, row_names_with_rows, Hn, <- app_assoc. reflexivity.
Qed.

(** X26: [refresh] of the list only reads, and shows the stored clips of the
    root joint that have a title, one row each, in the order of the
    export node; without an exporter window, a root joint or an export
    node the list is empty. *)
Theorem list_refresh_rows (c : collaborators) (lw : AnimClipsListWidget)
    (log : list ecall) :
  exists lw',
    list_refresh c lw log = (Ok lw', log)
    /\ row_names lw'
       = if l_fbx_exporter lw && truthy (get_root_joint c log)
            && export_node_get c log
         then titled (get_animation_clips c log (get_root_joint c log))
         else [].
Proof.
  unfold list_refresh. cbn [l_fbx_exporter with_rows].
  destruct (l_fbx_exporter lw); cbn [negb andb].
  2:{ eexists. split; reflexivity. }
  run_eff. cbn [_root_joint].
  destruct (truthy (get_root_joint c log)); cbn [negb andb].
  2:{ eexists. split; reflexivity. }
  destruct (export_node_get c log); cbn [negb].
  2:{ eexists. split; reflexivity. }
  match goal with
  | |- context [add_stored c ?clips ?l log] =>
      destruct (add_stored_rows c clips l log) as (lw' & Hrun & Hrows)
  end.
  exists lw'. split; [exact Hrun | exact Hrows].
Qed.

(** ** The check box over all rows *)

Lemma with_previous_name_fields (w : AnimClipWidget) (n : string) :
  _clip_name (with_previous_name w n) = _clip_name w
  /\ _export_checkbox (with_previous_name w n) = _export_checkbox w.
Proof. split; reflexivity. Qed.

Lemma set_enabled_row (c : collaborators) (flag : bool) (w : AnimClipWidget)
    (log : list ecall) :
  exists w' sent,
    set_enabled c flag w log = (Ok w', log ++ sent)
    /\ _clip_name w' = _clip_name w
    /\ _export_checkbox w' = flag
    /\ (List.length sent <= 1)%nat
    /\ forallb is_update sent = true
    /\ (_export_checkbox w = flag -> sent = []).
Proof.
  unfold set_enabled, emit.
  destruct (bool_decide (_export_checkbox w = flag)) eqn:Hsame; cbn [negb].
  - apply bool_decide_eq_true in Hsame.
    exists (with_checked w flag), []. rewrite app_nil_r.
    repeat split; auto.
  - apply bool_decide_eq_false in Hsame.
    destruct (on_update_sends c (with_checked w flag) log) as [Hq | (s & e & _ & _ & Hs)].
    + destruct (_on_update_anim_clip c (with_checked w flag) log)
        as [[w' | x] log'] eqn:Hrun; cbn in Hq; subst log'.
      * exists w', []. rewrite app_nil_r.
        pose proof (on_update_keeps_clip_name c _ _ _ _ Hrun) as Hn.
        assert (Hc : _export_checkbox w' = flag).
        { clear Hn. revert Hrun. unfold _on_update_anim_clip. run_eff.
          destruct (negb (truthy _)); cbn; [now intros [= <-] |].
          destruct (negb (export_node_get c log)); cbn; [now intros [= <-] |].
          destruct (py_int _) as [s | x]; cbn; [| discriminate].
          destruct (py_int _) as [e | x]; cbn; [| discriminate].
          now intros [= <- _]. }
        repeat split; auto; try contradiction.
      * exists (with_checked w flag), []. rewrite app_nil_r.
        repeat split; auto; try contradiction.
    + rewrite Hs. eexists _, [_]. split; [reflexivity |].
      repeat split; auto; try contradiction.
Qed.

Lemma set_enabled_rows_run (c : collaborators) (flag : bool)
    (rows : list AnimClipWidget) (log : list ecall) :
  exists rows' sent,
    set_enabled_rows c flag rows log = (Ok rows', log ++ sent)
    /\ _clip_name <$> rows' = _clip_name <$> rows
    /\ Forall (fun w => _export_checkbox w = flag) rows'
    /\ (List.length sent <= List.length rows)%nat
    /\ forallb is_update sent = true
    /\ (Forall (fun w => _export_checkbox w = flag) rows -> sent = []).
Proof.
  revert log. induction rows as [| w r IH]; intros log.
  - exists [], []. rewrite app_nil_r. repeat split; auto.
  - cbn [set_enabled_rows].
    destruct (set_enabled_row c flag w log)
      as (w' & s1 & Hrun1 & Hn1 & Hc1 & Hl1 & Hu1 & He1).
    rewrite (bind_ok _ _ _ _ _ Hrun1).
    destruct (IH (log ++ s1)) as (r' & s2 & Hrun2 & Hn2 & Hc2 & Hl2 & Hu2 & He2).
    rewrite (bind_ok _ _ _ _ _ Hrun2).
    exists (w' :: r'), (s1 ++ s2). rewrite app_assoc.
    split; [reflexivity |].
    split; [cbn; now rewrite Hn1, Hn2 |].
    split; [now constructor |].
    split; [rewrite length_app; cbn; lia |].
    split; [rewrite forallb_app; now rewrite Hu1, Hu2 |].
    intros Hall. apply Forall_cons in Hall as [Hw Hr].
    rewrite (He1 Hw), (He2 Hr). reflexivity.
Qed.

(** X27: The check box over the list sets the check box of every row to its
    own state and returns.  The rows stay, in their order and with their
    clip names; the export node gets updates of clips and nothing else,
    at most one for each row, and none at all when every row had that
    state already. *)
Theorem toggled_checkbox_sets_all_rows (c : collaborators) (flag : bool)
    (lw : AnimClipsListWidget) (log : list ecall) :
  exists lw' sent,
    _on_toggled_anim_clips_checkbox c flag lw log = (Ok lw', log ++ sent)
    /\ row_names lw' = row_names lw
    /\ Forall (fun w => _export_checkbox w = flag) (_clips_layout lw')
    /\ (List.length sent <= List.length (_clips_layout lw))%nat
    /\ forallb is_update sent = true
    /\ (Forall (fun w => _export_checkbox w = flag) (_clips_layout lw) ->
        sent = []).
Proof.
  unfold _on_toggled_anim_clips_checkbox.
  destruct (set_enabled_rows_run c flag (_clips_layout lw) log)
    as (rows' & sent & Hrun & Hn & Hc & Hl & Hu & He).
  rewrite (bind_ok _ _ _ _ _ Hrun).
  exists (with_rows lw rows'), sent. split; [reflexivity |].
  repeat split; auto.
Qed.

(** ** The two ways to delete a clip *)

(** X28: With an export node and a root joint, the trash button deletes the
    clip of the row on the export node and the row leaves the list.  The
    [Delete] entry of the context menu never does: without an export node
    it returns, and with one it raises [AttributeError], because a row
    has no [_root_joint]; the export node gets no call. *)
Theorem delete_button_and_menu (c : collaborators) (w : AnimClipWidget)
    (log : list ecall) :
  (_fbx_exporter w = true ->
   export_node_get c log = true ->
   truthy (get_root_joint c log) = true ->
   _on_delete_button_clicked c w log
   = (Ok true, log ++ [DeleteAnimationClip (get_root_joint c log) (_clip_name w)]))
  /\ (exists r, _on_delete_anim_clip c w log = (r, log) /\ r <> Ok true)
  /\ (export_node_get c log = true ->
      _on_delete_anim_clip c w log = (Raise no_root_joint_attribute, log)).
Proof.
  split; [| split].
  - intros He Hn Hr. unfold _on_delete_button_clicked. run_eff.
    rewrite Hn, He, Hr. reflexivity.
  - unfold _on_delete_anim_clip. run_eff.
    destruct (export_node_get c log); cbn; eexists; split;
      try reflexivity; discriminate.
  - intros Hn. unfold _on_delete_anim_clip. run_eff. rewrite Hn. reflexivity.
Qed.

Lemma delete_button_and_menu_witness :
  _on_delete_button_clicked studio edited_row []
  = (Ok true, [DeleteAnimationClip (VStr "root") "Clip"])
  /\ _on_delete_anim_clip studio edited_row []
     = (Raise no_root_joint_attribute, []).
Proof.
  destruct (delete_button_and_menu studio edited_row []) as (Hb & _ & Hm).
  split.
  - apply Hb; reflexivity.
  - apply Hm. reflexivity.
Defined.

(** ** The Add Clip button when nothing can be added *)

(** X29: Without a root joint the button warns and does nothing else; when the
    export node hands out no name, the node was asked for (or created)
    and asked to add a clip, and then the button warns.  In both cases
    the rows stay as they are. *)
Theorem add_clip_button_warns (c : collaborators) (lw : AnimClipsListWidget)
    (log : list ecall) :
  (truthy (_root_joint lw) = false ->
   _on_add_animation_clip_button_clicked c lw log
   = (Ok lw,
      log ++ [Warning "Could not add animation clip because no root joint is defined!"]))
  /\ (truthy (_root_joint lw) = true ->
      l_fbx_exporter lw = true ->
      add_animation_clip c (log ++ [GetOrCreateExportNode]) (_root_joint lw)
        = None
      \/ add_animation_clip c (log ++ [GetOrCreateExportNode]) (_root_joint lw)
        = Some "" ->
      _on_add_animation_clip_button_clicked c lw log
      = (Ok lw,
         log ++ [GetOrCreateExportNode; AddAnimationClip (_root_joint lw);
                 Warning "Was not possible to add new animation clip"])).
Proof.
  split.
  - intros Hr. unfold _on_add_animation_clip_button_clicked. rewrite Hr.
    cbn [negb]. unfold tell. run_eff. reflexivity.
  - intros Hr He Hn. unfold _on_add_animation_clip_button_clicked.
    rewrite Hr, He. cbn [negb]. unfold tell. run_eff.
    destruct Hn as [-> | ->].
    + rewrite <- !app_assoc. reflexivity.
    + rewrite bool_decide_eq_true_2 by reflexivity.
      rewrite <- !app_assoc. reflexivity.
Qed.

Lemma add_clip_button_warns_witness :
  _on_add_animation_clip_button_clicked studio
    (ClipsList true VNone VNone VNone true []) []
  = (Ok (ClipsList true VNone VNone VNone true []),
     [Warning "Could not add animation clip because no root joint is defined!"]).
Proof.
  apply (proj1 (add_clip_button_warns studio
                  (ClipsList true VNone VNone VNone true []) [])).
  reflexivity.
Defined.

(** ** Frame numbers through the text boxes *)

Lemma digits_value_numeral (d : Decimal.uint) (acc : Z) :
  digits_value acc true
    (list_ascii_of_string (DecimalString.NilEmpty.string_of_uint d))
  = Some (uint_value d acc).
Proof.
  revert acc. induction d; intros acc; cbn [DecimalString.NilEmpty.string_of_uint
    list_ascii_of_string uint_value]; [reflexivity | ..];
    (cbn [digits_value]; 
     match goal with
     | |- context [Node.is_digit ?c] =>
         change (Node.is_digit c) with true; cbv iota
     end;
     rewrite <- IHd; f_equal; vm_compute Z.of_nat; lia).
Qed.

Lemma uint_value_pos (d : Decimal.uint) (acc : positive) :
  uint_value d (Zpos acc) = Zpos (Pos.of_uint_acc d acc).
Proof.
  revert acc. induction d; intros acc; cbn [uint_value Pos.of_uint_acc];
    [reflexivity | ..];
    match goal with
    | |- uint_value _ ?z = Zpos (Pos.of_uint_acc _ ?p) =>
        replace z with (Zpos p) by lia; apply IHd
    end.
Qed.

Lemma uint_value_zero (d : Decimal.uint) :
  uint_value d 0 = Z.of_N (Pos.of_uint d).
Proof.
  induction d; cbn [uint_value Pos.of_uint]; [reflexivity | exact IHd | ..];
    match goal with
    | |- uint_value _ ?z = _ =>
        change z with (Zpos (Z.to_pos z)); rewrite uint_value_pos; reflexivity
    end.
Qed.

Lemma is_digit_not_space (c : ascii) :
  Node.is_digit c = true -> is_space c = false.
Proof.
  unfold Node.is_digit, is_space. intros H.
  apply andb_true_iff in H as [H1 H2].
  apply Nat.leb_le in H1. apply Nat.leb_le in H2.
  apply orb_false_iff. split.
  - apply bool_decide_eq_false_2. lia.
  - apply andb_false_iff. right. apply Nat.leb_gt. lia.
Qed.

Lemma lstrip_head (l : list ascii) :
  match l with c :: _ => is_space c = false | [] => True end ->
  lstrip l = l.
Proof. destruct l as [| c r]; [reflexivity |]. cbn. now intros ->. Qed.

Lemma strip_no_space (l : list ascii) :
  Forall (fun c => is_space c = false) l -> strip l = l.
Proof.
  intros HF. unfold strip.
  rewrite (lstrip_head l) by (destruct HF; auto).
  rewrite (lstrip_head (rev l)); [apply rev_involutive |].
  assert (HR : Forall (fun c => is_space c = false) (rev l))
    by (apply Forall_rev; exact HF).
  destruct HR; auto.
Qed.

Lemma numeral_digits (d : Decimal.uint) :
  Forall (fun c => Node.is_digit c = true)
    (list_ascii_of_string (DecimalString.NilEmpty.string_of_uint d)).
Proof.
  induction d; cbn [DecimalString.NilEmpty.string_of_uint list_ascii_of_string];
    constructor; auto.
Qed.

Lemma py_int_numeral (d : Decimal.uint) :
  d <> Decimal.Nil ->
  py_int (DecimalString.NilEmpty.string_of_uint d) = Ok (uint_value d 0).
Proof.
  intros Hd. unfold py_int.
  rewrite strip_no_space.
  2:{ eapply Forall_impl; [apply numeral_digits |].
      intros c Hc. now apply is_digit_not_space. }
  destruct d; [congruence | ..];
    cbn [DecimalString.NilEmpty.string_of_uint list_ascii_of_string];
    cbv iota beta;
    (cbn [digits_value];
     match goal with
     | |- context [Node.is_digit ?c] =>
         change (Node.is_digit c) with true; cbv iota
     end;
     rewrite digits_value_numeral; cbn [uint_value]; reflexivity).
Qed.

Lemma py_int_minus_numeral (d : Decimal.uint) :
  d <> Decimal.Nil ->
  py_int (String "-" (DecimalString.NilEmpty.string_of_uint d))
  = Ok (- uint_value d 0).
Proof.
  intros Hd. unfold py_int.
  rewrite strip_no_space.
  2:{ cbn [list_ascii_of_string]. constructor; [reflexivity |].
      eapply Forall_impl; [apply numeral_digits |].
      intros c Hc. now apply is_digit_not_space. }
  cbn [list_ascii_of_string]. cbv iota beta.
  destruct d; [congruence | ..];
    cbn [DecimalString.NilEmpty.string_of_uint list_ascii_of_string];
    (cbn [digits_value];
     match goal with
     | |- context [Node.is_digit ?c] =>
         change (Node.is_digit c) with true; cbv iota
     end;
     rewrite digits_value_numeral; cbn [uint_value]; reflexivity).
Qed.

Lemma to_uint_not_nil (p : positive) : Pos.to_uint p <> Decimal.Nil.
Proof.
  intros H. pose proof (DecimalPos.Unsigned.of_to p) as Hp.
  rewrite H in Hp. discriminate.
Qed.

Lemma string_of_uint_not_nil (d : Decimal.uint) :
  d <> Decimal.Nil ->
  DecimalString.NilZero.string_of_uint d
  = DecimalString.NilEmpty.string_of_uint d.
Proof. destruct d; [congruence | reflexivity ..]. Qed.

(** [int(str(n))] is [n]. *)
Lemma py_int_py_str (show : pyval -> string) (n : Z) :
  py_int (py_str show (VInt n)) = Ok n.
Proof.
  unfold py_str. destruct n as [| p | p]; [reflexivity | |].
  - cbn [Z.to_int DecimalString.NilZero.string_of_int].
    rewrite string_of_uint_not_nil by apply to_uint_not_nil.
    rewrite py_int_numeral by apply to_uint_not_nil.
    rewrite uint_value_zero, DecimalPos.Unsigned.of_to. reflexivity.
  - cbn [Z.to_int DecimalString.NilZero.string_of_int].
    rewrite string_of_uint_not_nil by apply to_uint_not_nil.
    rewrite py_int_minus_numeral by apply to_uint_not_nil.
    rewrite uint_value_zero, DecimalPos.Unsigned.of_to. reflexivity.
Qed.

(** X30: A row refreshed from a stored clip and then updated writes the clip
    back as it was stored: the title, the two frame numbers through their
    text boxes, and the flag.  The layer is written back when it is one of
    the scene's animation layers, and as the empty string otherwise (as
    it is for a clip stored without a layer).  The update goes to the name the row
    had before. *)
Theorem refresh_then_update_writes_back (c : collaborators)
    (w : AnimClipWidget) (log : list ecall) (t : string) (s e : Z)
    (b : bool) (layer : option string) :
  _fbx_exporter w = true ->
  export_node_get c log = true ->
  truthy (get_root_joint c log) = true ->
  find_animation_clip c log (get_root_joint c log) (_clip_name w)
  = StoredClip (Some t) (Some (VInt s)) (Some (VInt e)) (Some b) layer ->
  let l := default "None" layer in
  exists w',
    refresh c w log = (Ok w', log)
    /\ _on_update_anim_clip c w' log
       = (Ok (with_previous_name w' t),
          log ++ [UpdateAnimationClip (get_root_joint c log) (_previous_name w)
                    (filled_clip_data c t b s e
                       (if bool_decide (l ∈ all_anim_layers_ordered c log)
                        then l else "None"))]).
Proof.
  intros He Hn Hr Hf l.
  assert (Hlayer : set_current_text ("None" :: all_anim_layers_ordered c log)
                     "None" l
                   = if bool_decide (l ∈ all_anim_layers_ordered c log)
                     then l else "None").
  { unfold set_current_text.
    destruct (bool_decide (l ∈ all_anim_layers_ordered c log)) eqn:Hl.
    - apply bool_decide_eq_true in Hl.
      rewrite bool_decide_eq_true_2; [reflexivity | now right].
    - apply bool_decide_eq_false in Hl.
      destruct (bool_decide (l ∈ "None" :: all_anim_layers_ordered c log)) eqn:Hl';
        [| reflexivity].
      apply bool_decide_eq_true in Hl'.
      apply elem_of_cons in Hl' as [-> | Hin]; [reflexivity | contradiction]. }
  eexists. split.
  - unfold refresh. run_eff. rewrite Hn, He. cbn [andb negb].
    rewrite Hf. cbn [sc_title sc_start_frame sc_end_frame sc_enabled
                       sc_animLayer].
    fold l. rewrite Hlayer. reflexivity.
  - rewrite (on_update_sends_when_ready c _ log s e).
    + reflexivity.
    + exact He.
    + exact Hr.
    + exact Hn.
    + apply py_int_py_str.
    + apply py_int_py_str.
Qed.

Lemma refresh_then_update_writes_back_witness :
  exists w',
    refresh studio edited_row [] = (Ok w', [])
    /\ _on_update_anim_clip studio w' []
       = (Ok (with_previous_name w' "Clip"),
          [UpdateAnimationClip (VStr "root") "Clip"
             (filled_clip_data studio "Clip" true 1 24 "None")]).
Proof.
  apply (refresh_then_update_writes_back studio edited_row [] "Clip"
           1 24 true None); reflexivity.
Defined.
